(** * RSSI signal-homing robot: the controller variants and their properties

    A shallow embedding of the Python controllers of the repository
    (final_version.py, wifi_bot3.py, test12.py, test24.py, test25.py) and
    the properties their specification states about them.

    Number model.  The specification's data model takes signal strengths as
    real numbers; the Python code holds them in floats.  Here they are exact
    rationals ([Q]): every operation the controllers use ([+], [-], [*], [/],
    comparisons, [int]) is closed on rationals, and rounding is outside the
    model.  Python integers (counters, speeds, servo angles) are [nat] or [Z].
    The Kalman filter is given a second time in the arithmetic the code runs
    in ([Kalman64], on the kernel's primitive floats: IEEE 754 binary64 with
    round-to-nearest-even, as Python's [float]), for what rounding decides.

    Hardware.  The actuator ([Picarx]) is write-only for the controller: each
    call is recorded as a [Cmd] in the list a handler returns.  Sensor reads
    (RSSI bursts, ultrasonic distance, the clock, vision scores) are inputs of
    the tick they are read in.  Audio playback and printing are left out. *)

From Stdlib Require Import QArith Qround ZArith List Bool Lia Lqa.
From Stdlib Require Import Permutation Sorting.Sorted.
From Stdlib Require Floats.
Import ListNotations.

Local Open Scope Q_scope.

(** ** Python primitives used by the controllers *)

Module Py.

(** [a < b], [a <= b], [a > b], [a >= b] on numbers, as Python booleans. *)
Definition ltb (a b : Q) : bool := negb (Qle_bool b a).
Definition leb (a b : Q) : bool := Qle_bool a b.
Definition gtb (a b : Q) : bool := ltb b a.
Definition geb (a b : Q) : bool := leb b a.

(** Truth value of a number in a condition ([if x:]): false exactly for zero. *)
Definition truthy (x : Q) : bool := negb (Qeq_bool x 0).

(** [int(x)]: truncation toward zero. *)
Definition int (x : Q) : Z := Z.quot (Qnum x) (Zpos (Qden x)).

(** [sum(l)] and [statistics.mean(l)] / [sum(l) / len(l)] (callers guard
    the empty list). *)
Definition sum (l : list Q) : Q := fold_left Qplus l 0.
Definition len {A} (l : list A) : Q := inject_Z (Z.of_nat (length l)).
Definition mean (l : list Q) : Q := sum l / len l.

(** [l.sort()]: ascending and stable (an element goes in front of the
    later elements it is not greater than). *)
Fixpoint insert (a : Q) (l : list Q) : list Q :=
  match l with
  | [] => [a]
  | b :: l' => if leb a b then a :: l else b :: insert a l'
  end.

Fixpoint sort (l : list Q) : list Q :=
  match l with
  | [] => []
  | a :: l' => insert a (sort l')
  end.

(** [a % b] on numbers, [b > 0]: the remainder has the sign of [b]. *)
Definition fmod (a b : Q) : Q := a - inject_Z (Qfloor (a / b)) * b.

(** [l[k:-k]] for [k > 0]. *)
Definition slice_both (k : nat) {A} (l : list A) : list A :=
  skipn k (firstn (length l - k) l).

End Py.

(** ** RSSIKalmanFilter (test12.py, test24.py, test25.py) *)

Module Kalman.

Record RSSIKalmanFilter : Type := mkKF {
  kf_R : Q;   (* self.R  measurement noise *)
  kf_Q : Q;   (* self.Q  process noise *)
  kf_x : Q;   (* self.x  estimate *)
  kf_P : Q    (* self.P  variance *)
}.

(** [__init__(R, Q, initial_value=-70)] *)
Definition init (R Q0 : Q) (initial_value : Q) : RSSIKalmanFilter :=
  {| kf_R := R; kf_Q := Q0; kf_x := initial_value; kf_P := 1.0 |}.

(** [filter(measurement)]: the new filter state and the returned value.
    Division is total here; Python raises ZeroDivisionError when
    [p_pred + R] is zero, which [R > 0] and [P + Q >= 0] exclude. *)
Definition filter (kf : RSSIKalmanFilter) (measurement : option Q)
  : RSSIKalmanFilter * Q :=
  match measurement with
  | None => (kf, kf_x kf)
  | Some z =>
      let p_pred := kf_P kf + kf_Q kf in
      let K := p_pred / (p_pred + kf_R kf) in
      let x' := kf_x kf + K * (z - kf_x kf) in
      let P' := (1 - K) * p_pred in
      ({| kf_R := kf_R kf; kf_Q := kf_Q kf; kf_x := x'; kf_P := P' |}, x')
  end.

(** The filter driven by one measurement per tick: the states after each
    call, oldest first. *)
Fixpoint trace (kf : RSSIKalmanFilter) (ms : list (option Q))
  : list RSSIKalmanFilter :=
  match ms with
  | [] => []
  | m :: ms' => let kf' := fst (filter kf m) in kf' :: trace kf' ms'
  end.

End Kalman.

(** ** RSSIKalmanFilter in binary64 *)

Module Kalman64.

Import PrimFloat.

#[local] Set Warnings "-inexact-float".

Record RSSIKalmanFilter : Type := mkKF {
  kf_R : float;   (* self.R *)
  kf_Q : float;   (* self.Q *)
  kf_x : float;   (* self.x *)
  kf_P : float    (* self.P *)
}.

(** [__init__(R, Q, initial_value)] *)
Definition init (R Q0 : float) (initial_value : float) : RSSIKalmanFilter :=
  {| kf_R := R; kf_Q := Q0; kf_x := initial_value; kf_P := 1.0%float |}.

(** [filter(measurement)], every operation rounded as the code's is, in the
    order the code makes them. *)
Definition filter (kf : RSSIKalmanFilter) (measurement : option float)
  : RSSIKalmanFilter * float :=
  match measurement with
  | None => (kf, kf_x kf)
  | Some z =>
      let p_pred := (kf_P kf + kf_Q kf)%float in
      let K := (p_pred / (p_pred + kf_R kf))%float in
      let x' := (kf_x kf + K * (z - kf_x kf))%float in
      let P' := ((1 - K) * p_pred)%float in
      ({| kf_R := kf_R kf; kf_Q := kf_Q kf; kf_x := x'; kf_P := P' |}, x')
  end.





End Kalman64.

(** ** What the controllers share: the navigation state and the actuator calls *)

(** [self.state]: one of the strings "SEARCH", "APPROACH", "VERIFY", "AVOID",
    "FINISH". *)
Inductive NavState : Type := SEARCH | APPROACH | VERIFY | AVOID | FINISH.

Definition NavState_eqb (a b : NavState) : bool :=
  match a, b with
  | SEARCH, SEARCH | APPROACH, APPROACH | VERIFY, VERIFY
  | AVOID, AVOID | FINISH, FINISH => true
  | _, _ => false
  end.

(** Calls on the robot ([self.px.*]) and [time.sleep], in the order made. *)
Inductive Cmd : Type :=
| stop
| forward (speed : Z)
| backward (speed : Z)
| set_dir_servo_angle (angle : Q)
| set_cam_pan_angle (angle : Z)
| set_cam_tilt_angle (angle : Z)
| sleep (seconds : Q).

(** How one pass through the body of [while True:] ends: at its last line
    ([Next]), at a [continue], or at [break]. *)
Inductive Flow : Type := Next | Continue | Break.

(** [center_head()] *)
Definition center_head : list Cmd := [set_cam_pan_angle 0; set_cam_tilt_angle 0].

(** ** WiFiSensor.get_averaged_rssi (final_version.py, wifi_bot3.py) *)

Module WiFiSensor.

(** The readings list: the values of the [count] calls of [_read_raw()] that
    were not [None], in order. *)
Fixpoint collect (reads : list (option Q)) : list Q :=
  match reads with
  | [] => []
  | Some val :: reads' => val :: collect reads'
  | None :: reads' => collect reads'
  end.

(** [get_averaged_rssi(count)], [reads] being what the [count] calls of
    [_read_raw()] returned. *)
Definition get_averaged_rssi (reads : list (option Q)) : option Q :=
  let readings := collect reads in
  match readings with
  | [] => None
  | _ =>
      let readings :=
        if (5 <=? length readings)%nat then
          let readings := Py.sort readings in
          let trim_amt := Py.int (Py.len readings * 0.1) in
          if (0 <? trim_amt)%Z
          then Py.slice_both (Z.to_nat trim_amt) readings
          else readings
        else readings in
      match readings with
      | [] => None
      | _ => Some (Py.mean readings)
      end
  end.

End WiFiSensor.

(** ** final_version.py: NavigationController *)

Module FinalVersion.

(** The module-level settings. *)
Record Config : Type := mkConfig {
  TARGET_RSSI : Q;
  APPROACH_THRESHOLD : Q;
  TIME_STRAIGHT : Q;
  TIME_TURN : Q;
  VERIFY_TOTAL_CHECKS : nat;
  VERIFY_REQUIRED_HITS : nat;
  OBSTACLE_DIST_CM : Q;
  SPEED_SEARCH : Z;
  SPEED_APPROACH : Z;
  SPEED_AVOID : Z
}.

(** The values final_version.py sets. *)
Definition settings : Config :=
  {| TARGET_RSSI := -48.5; APPROACH_THRESHOLD := -53;
     TIME_STRAIGHT := 8.0; TIME_TURN := 3.0;
     VERIFY_TOTAL_CHECKS := 20; VERIFY_REQUIRED_HITS := 4;
     OBSTACLE_DIST_CM := 25;
     SPEED_SEARCH := 40; SPEED_APPROACH := 25; SPEED_AVOID := 40 |}.

(** The attributes of [NavigationController] the control loop works on. *)
Record Controller : Type := mkController {
  state : NavState;
  prev_avg_rssi : Q;
  search_start_time : Q;
  consecutive_drops : nat;
  obstacle_counter : nat;
  verify_counter : nat;
  verify_hits : nat
}.

(** [__init__], [now] being the clock at construction. *)
Definition init (now : Q) : Controller :=
  {| state := SEARCH; prev_avg_rssi := -100.0; search_start_time := now;
     consecutive_drops := 0; obstacle_counter := 0;
     verify_counter := 0; verify_hits := 0 |}.

Definition set_state (s : NavState) (c : Controller) : Controller :=
  mkController s (prev_avg_rssi c) (search_start_time c)
    (consecutive_drops c) (obstacle_counter c) (verify_counter c) (verify_hits c).
Definition set_prev_avg_rssi (v : Q) (c : Controller) : Controller :=
  mkController (state c) v (search_start_time c)
    (consecutive_drops c) (obstacle_counter c) (verify_counter c) (verify_hits c).
Definition set_search_start_time (t : Q) (c : Controller) : Controller :=
  mkController (state c) (prev_avg_rssi c) t
    (consecutive_drops c) (obstacle_counter c) (verify_counter c) (verify_hits c).
Definition set_consecutive_drops (n : nat) (c : Controller) : Controller :=
  mkController (state c) (prev_avg_rssi c) (search_start_time c)
    n (obstacle_counter c) (verify_counter c) (verify_hits c).
Definition set_obstacle_counter (n : nat) (c : Controller) : Controller :=
  mkController (state c) (prev_avg_rssi c) (search_start_time c)
    (consecutive_drops c) n (verify_counter c) (verify_hits c).
Definition set_verify_counter (n : nat) (c : Controller) : Controller :=
  mkController (state c) (prev_avg_rssi c) (search_start_time c)
    (consecutive_drops c) (obstacle_counter c) n (verify_hits c).
Definition set_verify_hits (n : nat) (c : Controller) : Controller :=
  mkController (state c) (prev_avg_rssi c) (search_start_time c)
    (consecutive_drops c) (obstacle_counter c) (verify_counter c) n.

(** The lines of [run()] before the loop: [start_val] is what the first
    [get_averaged_rssi()] returned and [now] the clock after it. *)
Definition calibrate (c : Controller) (start_val : option Q) (now : Q)
  : Controller :=
  let c := match start_val with
           | Some v => if Py.truthy v then set_prev_avg_rssi v c else c
           | None => c
           end in
  set_search_start_time now c.

Section Handlers.

Variable cfg : Config.

(** The condition of [check_obstacle]:
    [dist and 0 < dist < OBSTACLE_DIST_CM], [dist] being what
    [ultrasonic.read()] returned ([None] when it returned nothing). *)
Definition close (dist : option Q) : bool :=
  match dist with
  | None => false
  | Some d => Py.truthy d && Py.ltb 0 d && Py.ltb d (OBSTACLE_DIST_CM cfg)
  end.

(** [check_obstacle()] *)
Definition check_obstacle (c : Controller) (dist : option Q)
  : Controller * bool :=
  let c := if close dist
           then set_obstacle_counter (obstacle_counter c + 1) c
           else set_obstacle_counter 0 c in
  (c, (2 <=? obstacle_counter c)%nat).

(** [avoid_obstacle()], [now] being the clock after the maneuver. *)
Definition avoid_obstacle (c : Controller) (now : Q)
  : Controller * list Cmd :=
  (set_search_start_time now (set_state SEARCH c),
   [stop; set_dir_servo_angle 0; backward (SPEED_AVOID cfg); sleep 1.0;
    set_dir_servo_angle (-35); forward (SPEED_AVOID cfg); sleep 0.8]).

(** [handle_search(curr_rssi)] *)
Definition handle_search (c : Controller) (curr_rssi now : Q)
  : Controller * list Cmd :=
  if Py.gtb curr_rssi (APPROACH_THRESHOLD cfg) then
    (set_consecutive_drops 0 (set_state APPROACH c), [])
  else
    let elapsed := now - search_start_time c in
    let cycle_duration := TIME_STRAIGHT cfg + TIME_TURN cfg in
    let phase_time := Py.fmod elapsed cycle_duration in
    if Py.ltb phase_time (TIME_STRAIGHT cfg) then
      (c, [set_dir_servo_angle 0; forward (SPEED_SEARCH cfg)])
    else
      (c, [set_dir_servo_angle (-35); forward (SPEED_SEARCH cfg)]).

(** [handle_approach(curr_rssi, delta)] *)
Definition handle_approach (c : Controller) (curr_rssi delta : Q)
  : Controller * list Cmd :=
  if Py.geb curr_rssi (TARGET_RSSI cfg) then
    (set_verify_hits 0 (set_verify_counter 0 (set_state VERIFY c)), [stop])
  else if Py.geb delta 0 then
    (set_consecutive_drops 0 c,
     [set_dir_servo_angle 0; forward (SPEED_APPROACH cfg)])
  else
    let c := set_consecutive_drops (consecutive_drops c + 1) c in
    if (3 <=? consecutive_drops c)%nat then
      (set_consecutive_drops 0 c,
       [stop; backward (SPEED_APPROACH cfg); set_dir_servo_angle (-30);
        sleep 0.8])
    else
      (c, [set_dir_servo_angle (-20); forward (SPEED_APPROACH cfg)]).

(** [handle_verify(curr_rssi)], [now] being the clock after the back-off. *)
Definition handle_verify (c : Controller) (curr_rssi now : Q)
  : Controller * list Cmd :=
  let c := set_verify_counter (verify_counter c + 1) c in
  let c := if Py.geb curr_rssi (TARGET_RSSI cfg)
           then set_verify_hits (verify_hits c + 1) c else c in
  if (VERIFY_TOTAL_CHECKS cfg <=? verify_counter c)%nat then
    if (VERIFY_REQUIRED_HITS cfg <=? verify_hits c)%nat then
      (set_state FINISH c, [])
    else
      (set_search_start_time now (set_state SEARCH c),
       [backward (SPEED_APPROACH cfg); set_dir_servo_angle (-30); sleep 1.0])
  else (c, []).

(** What one pass of the loop of [run()] reads. *)
Record Input : Type := mkInput {
  curr_rssi : option Q;  (* self.wifi.get_averaged_rssi(BURST_SAMPLES) *)
  dist : option Q;       (* self.px.ultrasonic.read(), when it is read *)
  now : Q                (* time.time(), when it is read *)
}.

(** One pass through the body of [while True:] in [run()]. *)
Definition iteration (c : Controller) (i : Input)
  : Controller * list Cmd * Flow :=
  match curr_rssi i with
  | None => (c, [], Continue)
  | Some curr =>
      let rssi_delta := curr - prev_avg_rssi c in
      let '(c, obstacle) :=
        if negb (NavState_eqb (state c) FINISH)
        then check_obstacle c (dist i) else (c, false) in
      if obstacle then
        let '(c, out) := avoid_obstacle c (now i) in (c, out, Continue)
      else
        match state c with
        | SEARCH =>
            let '(c, out) := handle_search c curr (now i) in
            (set_prev_avg_rssi curr c, out, Next)
        | APPROACH =>
            let '(c, out) := handle_approach c curr rssi_delta in
            (set_prev_avg_rssi curr c, out, Next)
        | VERIFY =>
            let '(c, out) := handle_verify c curr (now i) in
            (set_prev_avg_rssi curr c, out, Next)
        | FINISH => (c, [stop; stop; sleep 5], Break)
        | AVOID => (set_prev_avg_rssi curr c, [], Next)
        end
  end.

(** The loop of [run()] over the inputs of successive passes: the
    controller after each pass, until [break]. *)
Fixpoint run (c : Controller) (inputs : list Input) : list Controller :=
  match inputs with
  | [] => []
  | i :: inputs' =>
      match iteration c i with
      | (c', _, Break) => [c']
      | (c', _, _) => c' :: run c' inputs'
      end
  end.

(** The verification gate on its own: [handle_verify] called with the
    sample of each tick for as long as the state is VERIFY. *)
Fixpoint verify_feed (c : Controller) (samples : list Q) (now : Q)
  : Controller :=
  match samples with
  | [] => c
  | s :: samples' =>
      match state c with
      | VERIFY => verify_feed (fst (handle_verify c s now)) samples' now
      | _ => c
      end
  end.

(** The obstacle monitor on its own: [check_obstacle] called with
    successive readings; the values it returned, oldest first. *)
Fixpoint obstacle_feed (c : Controller) (dists : list (option Q))
  : Controller * list bool :=
  match dists with
  | [] => (c, [])
  | d :: dists' =>
      let '(c1, r) := check_obstacle c d in
      let '(c2, rs) := obstacle_feed c1 dists' in
      (c2, r :: rs)
  end.

(** The controllers the loop of [run()] can be in when a pass begins:
    [__init__] and the calibration first, then pass after pass until [break]. *)
Inductive reachable : Controller -> Prop :=
| reach_start t0 start_val t1 : reachable (calibrate (init t0) start_val t1)
| reach_pass c i c' out flow :
    reachable c -> iteration c i = (c', out, flow) -> flow <> Break ->
    reachable c'.

End Handlers.

End FinalVersion.

(** ** wifi_bot3.py: NavigationController *)

Module WifiBot3.

Record Config : Type := mkConfig {
  TARGET_RSSI : Q;
  APPROACH_THRESHOLD : Q;
  VERIFY_TOTAL_CHECKS : nat;
  VERIFY_REQUIRED_HITS : nat;
  OBSTACLE_DIST_CM : Q;
  SPEED_SEARCH : Z;
  SPEED_APPROACH : Z;
  SPEED_AVOID : Z
}.

(** The values wifi_bot3.py sets. *)
Definition settings : Config :=
  {| TARGET_RSSI := -45; APPROACH_THRESHOLD := -58;
     VERIFY_TOTAL_CHECKS := 30; VERIFY_REQUIRED_HITS := 5;
     OBSTACLE_DIST_CM := 25;
     SPEED_SEARCH := 40; SPEED_APPROACH := 25; SPEED_AVOID := 40 |}.

Record Controller : Type := mkController {
  state : NavState;
  prev_avg_rssi : Q;
  spiral_angle : Q;
  consecutive_drops : nat;
  obstacle_counter : nat;
  verify_counter : nat;
  verify_hits : nat
}.

(** [__init__] *)
Definition init : Controller :=
  {| state := SEARCH; prev_avg_rssi := -100.0; spiral_angle := -30;
     consecutive_drops := 0; obstacle_counter := 0;
     verify_counter := 0; verify_hits := 0 |}.

Definition set_state (s : NavState) (c : Controller) : Controller :=
  mkController s (prev_avg_rssi c) (spiral_angle c)
    (consecutive_drops c) (obstacle_counter c) (verify_counter c) (verify_hits c).
Definition set_prev_avg_rssi (v : Q) (c : Controller) : Controller :=
  mkController (state c) v (spiral_angle c)
    (consecutive_drops c) (obstacle_counter c) (verify_counter c) (verify_hits c).
Definition set_spiral_angle (a : Q) (c : Controller) : Controller :=
  mkController (state c) (prev_avg_rssi c) a
    (consecutive_drops c) (obstacle_counter c) (verify_counter c) (verify_hits c).
Definition set_consecutive_drops (n : nat) (c : Controller) : Controller :=
  mkController (state c) (prev_avg_rssi c) (spiral_angle c)
    n (obstacle_counter c) (verify_counter c) (verify_hits c).
Definition set_obstacle_counter (n : nat) (c : Controller) : Controller :=
  mkController (state c) (prev_avg_rssi c) (spiral_angle c)
    (consecutive_drops c) n (verify_counter c) (verify_hits c).
Definition set_verify_counter (n : nat) (c : Controller) : Controller :=
  mkController (state c) (prev_avg_rssi c) (spiral_angle c)
    (consecutive_drops c) (obstacle_counter c) n (verify_hits c).
Definition set_verify_hits (n : nat) (c : Controller) : Controller :=
  mkController (state c) (prev_avg_rssi c) (spiral_angle c)
    (consecutive_drops c) (obstacle_counter c) (verify_counter c) n.

(** The lines of [run()] before the loop: [start_val] is what the first
    [get_averaged_rssi()] returned. *)
Definition calibrate (c : Controller) (start_val : option Q) : Controller :=
  match start_val with
  | Some v => if Py.truthy v then set_prev_avg_rssi v c else c
  | None => c
  end.

Section Handlers.

Variable cfg : Config.

(** The condition of [check_obstacle]:
    [dist and 0 < dist < OBSTACLE_DIST_CM]. *)
Definition close (dist : option Q) : bool :=
  match dist with
  | None => false
  | Some d => Py.truthy d && Py.ltb 0 d && Py.ltb d (OBSTACLE_DIST_CM cfg)
  end.

(** [check_obstacle()] *)
Definition check_obstacle (c : Controller) (dist : option Q)
  : Controller * bool :=
  let c := if close dist
           then set_obstacle_counter (obstacle_counter c + 1) c
           else set_obstacle_counter 0 c in
  (c, (2 <=? obstacle_counter c)%nat).

(** [self.px.ultrasonic.read() or 0] *)
Definition read_or_0 (d : option Q) : Q :=
  match d with
  | Some v => if Py.truthy v then v else 0
  | None => 0
  end.

(** [avoid_obstacle()], with the two readings of its look-around. *)
Definition avoid_obstacle (c : Controller) (left right : option Q)
  : Controller * list Cmd :=
  let dist_left := read_or_0 left in
  let dist_right := read_or_0 right in
  let turn_angle := if Py.gtb dist_left dist_right then 35 else -35 in
  (set_state SEARCH c,
   [stop; set_dir_servo_angle 0; backward (SPEED_AVOID cfg); sleep 1;
    set_cam_pan_angle (-30); sleep 0.5; set_cam_pan_angle 30; sleep 0.5]
   ++ center_head
   ++ [set_dir_servo_angle turn_angle; forward (SPEED_AVOID cfg); sleep 0.8]).

(** [handle_search(curr_rssi)] *)
Definition handle_search (c : Controller) (curr_rssi : Q)
  : Controller * list Cmd :=
  if Py.gtb curr_rssi (APPROACH_THRESHOLD cfg) then
    (set_consecutive_drops 0 (set_state APPROACH c), [])
  else
    let out := [forward (SPEED_SEARCH cfg);
                set_dir_servo_angle (spiral_angle c)] in
    if Py.ltb (spiral_angle c) 0
    then (set_spiral_angle (spiral_angle c + 0.5) c, out)
    else (set_spiral_angle (-35) c, out).

(** [handle_approach(curr_rssi, delta)] *)
Definition handle_approach (c : Controller) (curr_rssi delta : Q)
  : Controller * list Cmd :=
  if Py.geb curr_rssi (TARGET_RSSI cfg) then
    (set_verify_hits 0 (set_verify_counter 0 (set_state VERIFY c)), [stop])
  else if Py.geb delta 0 then
    (set_consecutive_drops 0 c,
     [set_dir_servo_angle 0; forward (SPEED_APPROACH cfg)])
  else
    let c := set_consecutive_drops (consecutive_drops c + 1) c in
    if (3 <=? consecutive_drops c)%nat then
      (set_consecutive_drops 0 c,
       [stop; backward (SPEED_APPROACH cfg); set_dir_servo_angle 30;
        sleep 0.8])
    else
      (c, [set_dir_servo_angle 15; forward (SPEED_APPROACH cfg)]).

(** [handle_verify(curr_rssi)] *)
Definition handle_verify (c : Controller) (curr_rssi : Q)
  : Controller * list Cmd :=
  let c := set_verify_counter (verify_counter c + 1) c in
  let c := if Py.geb curr_rssi (TARGET_RSSI cfg)
           then set_verify_hits (verify_hits c + 1) c else c in
  if (VERIFY_TOTAL_CHECKS cfg <=? verify_counter c)%nat then
    if (VERIFY_REQUIRED_HITS cfg <=? verify_hits c)%nat then
      (set_state FINISH c, [])
    else
      (set_spiral_angle (-35) (set_state SEARCH c),
       [backward (SPEED_APPROACH cfg); sleep 1.0])
  else (c, []).

(** What one pass of the loop of [run()] reads. *)
Record Input : Type := mkInput {
  curr_rssi : option Q;   (* self.wifi.get_averaged_rssi(BURST_SAMPLES) *)
  dist : option Q;        (* ultrasonic.read() of check_obstacle *)
  dist_left : option Q;   (* ultrasonic.read() of avoid_obstacle, head left *)
  dist_right : option Q   (* ultrasonic.read() of avoid_obstacle, head right *)
}.

(** One pass through the body of [while True:] in [run()]. *)
Definition iteration (c : Controller) (i : Input)
  : Controller * list Cmd * Flow :=
  match curr_rssi i with
  | None => (c, [], Continue)
  | Some curr =>
      let rssi_delta := curr - prev_avg_rssi c in
      let '(c, obstacle) :=
        if negb (NavState_eqb (state c) FINISH)
        then check_obstacle c (dist i) else (c, false) in
      if obstacle then
        let '(c, out) := avoid_obstacle c (dist_left i) (dist_right i) in
        (c, out, Continue)
      else
        match state c with
        | SEARCH =>
            let '(c, out) := handle_search c curr in
            (set_prev_avg_rssi curr c, out, Next)
        | APPROACH =>
            let '(c, out) := handle_approach c curr rssi_delta in
            (set_prev_avg_rssi curr c, out, Next)
        | VERIFY =>
            let '(c, out) := handle_verify c curr in
            (set_prev_avg_rssi curr c, out, Next)
        | FINISH => (c, [stop], Break)
        | AVOID => (set_prev_avg_rssi curr c, [], Next)
        end
  end.

(** The verification gate on its own: [handle_verify] called with the
    sample of each tick for as long as the state is VERIFY. *)
Fixpoint verify_feed (c : Controller) (samples : list Q) : Controller :=
  match samples with
  | [] => c
  | s :: samples' =>
      match state c with
      | VERIFY => verify_feed (fst (handle_verify c s)) samples'
      | _ => c
      end
  end.

(** The obstacle monitor on its own: [check_obstacle] called with
    successive readings; the values it returned, oldest first. *)
Fixpoint obstacle_feed (c : Controller) (dists : list (option Q))
  : Controller * list bool :=
  match dists with
  | [] => (c, [])
  | d :: dists' =>
      let '(c1, r) := check_obstacle c d in
      let '(c2, rs) := obstacle_feed c1 dists' in
      (c2, r :: rs)
  end.

(** The controllers the loop of [run()] can be in when a pass begins. *)
Inductive reachable : Controller -> Prop :=
| reach_start start_val : reachable (calibrate init start_val)
| reach_pass c i c' out flow :
    reachable c -> iteration c i = (c', out, flow) -> flow <> Break ->
    reachable c'.

End Handlers.

End WifiBot3.

(** ** test12.py: NavigationController (Kalman filter, immediate avoidance) *)

Module Test12.

Definition TARGET_RSSI : Q := -46.
Definition APPROACH_THRESHOLD : Q := -50.
Definition PROCESS_NOISE_Q : Q := 0.05.
Definition MEASUREMENT_NOISE_R : Q := 2.0.
Definition MAX_STEER_ANGLE : Q := 35.
Definition OBSTACLE_DIST_CM : Q := 25.
Definition SPEED_SEARCH : Z := 40.
Definition SPEED_APPROACH : Z := 30.

Record Controller : Type := mkController {
  kf : Kalman.RSSIKalmanFilter;
  state : NavState;
  last_rssi : Q;
  spiral_angle : Q
}.

(** [__init__] *)
Definition init : Controller :=
  {| kf := Kalman.init MEASUREMENT_NOISE_R PROCESS_NOISE_Q (-70);
     state := SEARCH; last_rssi := -100.0;
     spiral_angle := - MAX_STEER_ANGLE |}.

Definition set_kf (k : Kalman.RSSIKalmanFilter) (c : Controller) : Controller :=
  mkController k (state c) (last_rssi c) (spiral_angle c).
Definition set_state (s : NavState) (c : Controller) : Controller :=
  mkController (kf c) s (last_rssi c) (spiral_angle c).
Definition set_last_rssi (v : Q) (c : Controller) : Controller :=
  mkController (kf c) (state c) v (spiral_angle c).
Definition set_spiral_angle (a : Q) (c : Controller) : Controller :=
  mkController (kf c) (state c) (last_rssi c) a.

(** What one pass of the loop of [run()] reads. *)
Record Input : Type := mkInput {
  raw_rssi : option Q;    (* self.wifi.get_rssi() *)
  dist : option Q;        (* self.px.ultrasonic.read() *)
  dist_left : option Q;   (* ultrasonic.read() of scan_surroundings, head left *)
  dist_right : option Q   (* ultrasonic.read() of scan_surroundings, head right *)
}.

(** [x if x is not None else 0] *)
Definition or_0 (d : option Q) : Q :=
  match d with Some v => v | None => 0 end.

(** [scan_surroundings()]: the direction returned and the calls made. *)
Definition scan_surroundings (left right : option Q) : Q * list Cmd :=
  (if Py.gtb (or_0 left) (or_0 right) then -1 else 1,
   [stop; sleep 0.2; set_cam_pan_angle (-45); sleep 0.3;
    set_cam_pan_angle 45; sleep 0.3] ++ center_head ++ [sleep 0.2]).

(** Step 1 of the loop body: the filtered signal [rssi] of this tick. *)
Definition sense (c : Controller) (raw : option Q) : Controller * Q :=
  match raw with
  | Some z => let '(k, rssi) := Kalman.filter (kf c) (Some z) in (set_kf k c, rssi)
  | None => (c, last_rssi c)
  end.

(** Step 2: the obstacle check. *)
Definition obstacle_check (c : Controller) (dist : option Q) : Controller :=
  match dist with
  | Some d =>
      if Py.gtb d 0 && Py.ltb d OBSTACLE_DIST_CM
         && negb (NavState_eqb (state c) FINISH)
      then set_state AVOID c else c
  | None => c
  end.

(** Step 3: the branch of the current state, [rssi] being the filtered
    signal of the tick. *)
Definition dispatch (c : Controller) (rssi : Q) (i : Input)
  : Controller * list Cmd * Flow :=
  match state c with
  | AVOID =>
      let '(direction, scan) := scan_surroundings (dist_left i) (dist_right i) in
      let turn_angle := direction * MAX_STEER_ANGLE in
      (set_last_rssi rssi (set_state SEARCH (set_last_rssi rssi c)),
       scan ++ [set_dir_servo_angle 0; backward SPEED_SEARCH; sleep 0.8;
                set_dir_servo_angle turn_angle; forward SPEED_SEARCH; sleep 0.5;
                sleep 0.05],
       Next)
  | SEARCH =>
      if Py.gtb rssi APPROACH_THRESHOLD then
        (set_state APPROACH c, [set_dir_servo_angle 0], Continue)
      else
        let out := [forward SPEED_SEARCH;
                    set_dir_servo_angle (inject_Z (Py.int (spiral_angle c)));
                    sleep 0.05] in
        let c := if Py.ltb (spiral_angle c) 0
                 then set_spiral_angle (spiral_angle c + 0.05) c
                 else set_spiral_angle (- MAX_STEER_ANGLE) c in
        (set_last_rssi rssi c, out, Next)
  | APPROACH =>
      if Py.geb rssi TARGET_RSSI then
        (set_state FINISH c, [], Continue)
      else
        let delta := rssi - last_rssi c in
        if Py.geb delta 0 then
          (set_last_rssi rssi c,
           [set_dir_servo_angle 0; forward SPEED_APPROACH; sleep 0.05], Next)
        else
          (set_last_rssi rssi c,
           [set_dir_servo_angle 20; forward SPEED_APPROACH; sleep 0.05], Next)
  | FINISH => (c, [stop; set_dir_servo_angle 0], Break)
  | VERIFY => (set_last_rssi rssi c, [sleep 0.05], Next)
  end.

(** One pass through the body of [while True:] in [run()]. *)
Definition tick (c : Controller) (i : Input) : Controller * list Cmd * Flow :=
  let '(c, rssi) := sense c (raw_rssi i) in
  let c := obstacle_check c (dist i) in
  dispatch c rssi i.

(** The [finally:] block of [run()]. *)
Definition shutdown : list Cmd := [stop; set_dir_servo_angle 0] ++ center_head.

(** The loop over the inputs of successive passes: the controller it ends
    in and every call made, the [finally:] block included when the loop
    ends at [break]. *)
Fixpoint run (c : Controller) (inputs : list Input) : Controller * list Cmd :=
  match inputs with
  | [] => (c, [])
  | i :: inputs' =>
      match tick c i with
      | (c', out, Break) => (c', out ++ shutdown)
      | (c', out, _) => let '(c'', out') := run c' inputs' in (c'', out ++ out')
      end
  end.

(** The controllers the loop can be in when a pass begins. *)
Inductive reachable : Controller -> Prop :=
| reach_init : reachable init
| reach_tick c i c' out flow :
    reachable c -> tick c i = (c', out, flow) -> flow <> Break -> reachable c'.

End Test12.

(** ** test24.py: NavigationController (test12 with vision-assisted steering) *)

Module Test24.

Definition TARGET_RSSI : Q := -46.
Definition APPROACH_THRESHOLD : Q := -50.
Definition PROCESS_NOISE_Q : Q := 0.05.
Definition MEASUREMENT_NOISE_R : Q := 2.0.
Definition MAX_STEER_ANGLE : Q := 35.
Definition OBSTACLE_DIST_CM : Q := 25.
Definition SPEED_SEARCH : Z := 40.
Definition SPEED_APPROACH : Z := 30.
Definition VISION_FREE_AHEAD_MIN : Q := 0.55.
Definition VISION_STEER_GAIN : Q := 1.35.

(** [clamp(x, lo, hi)] *)
Definition clamp (x lo hi : Q) : Q :=
  if Py.ltb x lo then lo else if Py.gtb x hi then hi else x.

(** The dictionary [vision_step()] returns when it returns one. *)
Record Scores : Type := mkScores {
  free_left : Q;
  free_right : Q;
  free_ahead : Q;
  window_risk : bool   (* scores.get("window_risk", False) *)
}.

Record Controller : Type := mkController {
  kf : Kalman.RSSIKalmanFilter;
  state : NavState;
  last_rssi : Q;
  spiral_angle : Q
}.

(** [__init__] *)
Definition init : Controller :=
  {| kf := Kalman.init MEASUREMENT_NOISE_R PROCESS_NOISE_Q (-70.0);
     state := SEARCH; last_rssi := -100.0;
     spiral_angle := - MAX_STEER_ANGLE |}.

Definition set_kf (k : Kalman.RSSIKalmanFilter) (c : Controller) : Controller :=
  mkController k (state c) (last_rssi c) (spiral_angle c).
Definition set_state (s : NavState) (c : Controller) : Controller :=
  mkController (kf c) s (last_rssi c) (spiral_angle c).
Definition set_last_rssi (v : Q) (c : Controller) : Controller :=
  mkController (kf c) (state c) v (spiral_angle c).
Definition set_spiral_angle (a : Q) (c : Controller) : Controller :=
  mkController (kf c) (state c) (last_rssi c) a.

(** What one pass of the loop of [run()] reads. *)
Record Input : Type := mkInput {
  raw_rssi : option Q;     (* self.wifi.get_rssi() *)
  dist_cm : option Q;      (* self.px.ultrasonic.read() *)
  scores : option Scores;  (* self.vision_step() *)
  dist_left : option Q;    (* ultrasonic.read() of scan_surroundings, head left *)
  dist_right : option Q    (* ultrasonic.read() of scan_surroundings, head right *)
}.

Definition or_0 (d : option Q) : Q :=
  match d with Some v => v | None => 0 end.

(** [scan_surroundings()]: the direction returned and the calls made. *)
Definition scan_surroundings (left right : option Q) : Q * list Cmd :=
  (if Py.gtb (or_0 left) (or_0 right) then -1 else 1,
   [stop; sleep 0.2; set_cam_pan_angle (-45); sleep 0.25;
    set_cam_pan_angle 45; sleep 0.25] ++ center_head ++ [sleep 0.1]).

(** 1) the filtered signal [rssi] of this tick. *)
Definition sense (c : Controller) (raw : option Q) : Controller * Q :=
  match raw with
  | Some z => let '(k, rssi) := Kalman.filter (kf c) (Some z) in (set_kf k c, rssi)
  | None => (c, last_rssi c)
  end.

(** 2) hard safety (ultrasonic). *)
Definition hard_safety (c : Controller) (dist : option Q) : Controller :=
  match dist with
  | Some d =>
      if Py.gtb d 0 && Py.ltb d OBSTACLE_DIST_CM
         && negb (NavState_eqb (state c) FINISH)
      then set_state AVOID c else c
  | None => c
  end.

(** 3) soft safety and steering from vision. *)
Definition soft_safety (c : Controller) (sc : option Scores)
  : Controller * list Cmd :=
  match sc with
  | Some s =>
      if NavState_eqb (state c) SEARCH || NavState_eqb (state c) APPROACH then
        if Py.ltb (free_ahead s) VISION_FREE_AHEAD_MIN || window_risk s then
          (set_state AVOID c, [])
        else
          let bias := free_right s - free_left s in
          let steer := VISION_STEER_GAIN * bias * MAX_STEER_ANGLE in
          let steer := Py.int (clamp steer (- MAX_STEER_ANGLE) MAX_STEER_ANGLE) in
          (c, [set_dir_servo_angle (inject_Z steer)])
      else (c, [])
  | None => (c, [])
  end.

(** 4) the branch of the current state. *)
Definition dispatch (c : Controller) (rssi : Q) (i : Input)
  : Controller * list Cmd * Flow :=
  match state c with
  | AVOID =>
      let '(direction, scan) :=
        match scores i with
        | Some s => (if Py.gtb (free_left s) (free_right s) then -1 else 1, [])
        | None => scan_surroundings (dist_left i) (dist_right i)
        end in
      let turn_angle := Py.int (direction * MAX_STEER_ANGLE) in
      (set_last_rssi rssi (set_state SEARCH (set_last_rssi rssi c)),
       scan ++ [set_dir_servo_angle 0; backward SPEED_SEARCH; sleep 0.8;
                set_dir_servo_angle (inject_Z turn_angle);
                forward SPEED_SEARCH; sleep 0.6; sleep 0.05],
       Next)
  | SEARCH =>
      if Py.gtb rssi APPROACH_THRESHOLD then
        (set_state APPROACH c, [set_dir_servo_angle 0], Continue)
      else
        let out := [forward SPEED_SEARCH;
                    set_dir_servo_angle (inject_Z (Py.int (spiral_angle c)));
                    sleep 0.05] in
        let c := if Py.ltb (spiral_angle c) 0
                 then set_spiral_angle (spiral_angle c + 0.05) c
                 else set_spiral_angle (- MAX_STEER_ANGLE) c in
        (set_last_rssi rssi c, out, Next)
  | APPROACH =>
      if Py.geb rssi TARGET_RSSI then
        (set_state FINISH c, [], Continue)
      else
        let delta := rssi - last_rssi c in
        if Py.geb delta 0 then
          (set_last_rssi rssi c, [forward SPEED_APPROACH; sleep 0.05], Next)
        else
          (set_last_rssi rssi c,
           [set_dir_servo_angle
              (inject_Z (Py.int (clamp 20 (- MAX_STEER_ANGLE) MAX_STEER_ANGLE)));
            forward SPEED_APPROACH; sleep 0.05], Next)
  | FINISH => (c, [stop; set_dir_servo_angle 0], Break)
  | VERIFY => (set_last_rssi rssi c, [sleep 0.05], Next)
  end.

(** One pass through the body of [while True:] in [run()]. *)
Definition tick (c : Controller) (i : Input) : Controller * list Cmd * Flow :=
  let '(c, rssi) := sense c (raw_rssi i) in
  let c := hard_safety c (dist_cm i) in
  let '(c, steer) := soft_safety c (scores i) in
  let '(c, out, flow) := dispatch c rssi i in
  (c, steer ++ out, flow).

(** The [finally:] block of [run()]. *)
Definition shutdown : list Cmd := [stop; set_dir_servo_angle 0] ++ center_head.

(** The loop over the inputs of successive passes: the controller it ends
    in and every call made, the [finally:] block included when the loop
    ends at [break]. *)
Fixpoint run (c : Controller) (inputs : list Input) : Controller * list Cmd :=
  match inputs with
  | [] => (c, [])
  | i :: inputs' =>
      match tick c i with
      | (c', out, Break) => (c', out ++ shutdown)
      | (c', out, _) => let '(c'', out') := run c' inputs' in (c'', out ++ out')
      end
  end.

(** The controllers the loop can be in when a pass begins. *)
Inductive reachable : Controller -> Prop :=
| reach_init : reachable init
| reach_tick c i c' out flow :
    reachable c -> tick c i = (c', out, flow) -> flow <> Break -> reachable c'.

End Test24.

(** ** test25.py: NavigationController (debounced obstacles, timed VERIFY) *)

Module Test25.

Definition TARGET_RSSI : Q := -46.
Definition APPROACH_THRESHOLD : Q := -50.
Definition PROCESS_NOISE_Q : Q := 0.05.
Definition MEASUREMENT_NOISE_R : Q := 2.0.
Definition MAX_STEER_ANGLE : Q := 35.
Definition OBSTACLE_DIST_CM : Q := 25.
Definition SPEED_SEARCH : Z := 40.
Definition SPEED_APPROACH : Z := 30.
Definition OBSTACLE_CONFIRM_COUNT : nat := 3.
Definition VERIFY_DURATION : Q := 20.
Definition VERIFY_REQUIRED_HITS : nat := 4.

Record Controller : Type := mkController {
  kf : Kalman.RSSIKalmanFilter;
  state : NavState;
  last_rssi : Q;
  spiral_angle : Q;
  obstacle_counter : nat;
  verify_start_time : Q;
  verify_hits : nat
}.

(** [__init__] *)
Definition init : Controller :=
  {| kf := Kalman.init MEASUREMENT_NOISE_R PROCESS_NOISE_Q (-70);
     state := SEARCH; last_rssi := -100.0;
     spiral_angle := - MAX_STEER_ANGLE;
     obstacle_counter := 0; verify_start_time := 0; verify_hits := 0 |}.

Definition set_kf (k : Kalman.RSSIKalmanFilter) (c : Controller) : Controller :=
  mkController k (state c) (last_rssi c) (spiral_angle c)
    (obstacle_counter c) (verify_start_time c) (verify_hits c).
Definition set_state (s : NavState) (c : Controller) : Controller :=
  mkController (kf c) s (last_rssi c) (spiral_angle c)
    (obstacle_counter c) (verify_start_time c) (verify_hits c).
Definition set_last_rssi (v : Q) (c : Controller) : Controller :=
  mkController (kf c) (state c) v (spiral_angle c)
    (obstacle_counter c) (verify_start_time c) (verify_hits c).
Definition set_spiral_angle (a : Q) (c : Controller) : Controller :=
  mkController (kf c) (state c) (last_rssi c) a
    (obstacle_counter c) (verify_start_time c) (verify_hits c).
Definition set_obstacle_counter (n : nat) (c : Controller) : Controller :=
  mkController (kf c) (state c) (last_rssi c) (spiral_angle c)
    n (verify_start_time c) (verify_hits c).
Definition set_verify_start_time (t : Q) (c : Controller) : Controller :=
  mkController (kf c) (state c) (last_rssi c) (spiral_angle c)
    (obstacle_counter c) t (verify_hits c).
Definition set_verify_hits (n : nat) (c : Controller) : Controller :=
  mkController (kf c) (state c) (last_rssi c) (spiral_angle c)
    (obstacle_counter c) (verify_start_time c) n.

(** What one pass of the loop of [run()] reads. *)
Record Input : Type := mkInput {
  raw_rssi : option Q;    (* self.wifi.get_stable_rssi(samples=BURST_SAMPLES) *)
  dist : option Q;        (* self.px.ultrasonic.read() *)
  now : Q;                (* time.time(), when it is read *)
  dist_left : option Q;   (* ultrasonic.read() of scan_surroundings, head left *)
  dist_right : option Q   (* ultrasonic.read() of scan_surroundings, head right *)
}.

Definition or_0 (d : option Q) : Q :=
  match d with Some v => v | None => 0 end.

(** [scan_surroundings()]: the direction returned and the calls made. *)
Definition scan_surroundings (left right : option Q) : Q * list Cmd :=
  (if Py.gtb (or_0 left) (or_0 right) then -1 else 1,
   [stop; sleep 0.2; set_cam_pan_angle (-45); sleep 0.3;
    set_cam_pan_angle 45; sleep 0.3] ++ center_head).

(** 1. the filtered signal [rssi] of this tick. *)
Definition sense (c : Controller) (raw : option Q) : Controller * Q :=
  match raw with
  | Some z => let '(k, rssi) := Kalman.filter (kf c) (Some z) in (set_kf k c, rssi)
  | None => (c, last_rssi c)
  end.

(** The condition on a reading that counts toward an obstacle. *)
Definition close (dist : option Q) : bool :=
  match dist with
  | Some d => Py.gtb d 0 && Py.ltb d OBSTACLE_DIST_CM
  | None => false
  end.

(** 2. the obstacle filter (debounce). *)
Definition obstacle_filter (c : Controller) (dist : option Q) : Controller :=
  if negb (NavState_eqb (state c) FINISH || NavState_eqb (state c) VERIFY) then
    let c := if close dist
             then set_obstacle_counter (obstacle_counter c + 1) c
             else set_obstacle_counter 0 c in
    if (OBSTACLE_CONFIRM_COUNT <=? obstacle_counter c)%nat
    then set_obstacle_counter 0 (set_state AVOID c)
    else c
  else c.

(** 3. the branch of the current state. *)
Definition dispatch (c : Controller) (rssi : Q) (i : Input)
  : Controller * list Cmd * Flow :=
  match state c with
  | AVOID =>
      let '(direction, scan) := scan_surroundings (dist_left i) (dist_right i) in
      let turn := direction * MAX_STEER_ANGLE in
      (set_last_rssi rssi (set_state SEARCH (set_last_rssi rssi c)),
       scan ++ [set_dir_servo_angle 0; backward SPEED_SEARCH; sleep 0.8;
                set_dir_servo_angle turn; forward SPEED_SEARCH; sleep 0.5;
                sleep 0.01],
       Next)
  | SEARCH =>
      if Py.gtb rssi APPROACH_THRESHOLD then
        (set_state APPROACH c, [set_dir_servo_angle 0], Continue)
      else
        let out := [forward SPEED_SEARCH;
                    set_dir_servo_angle (inject_Z (Py.int (spiral_angle c)));
                    sleep 0.01] in
        let c := if Py.ltb (spiral_angle c) 0
                 then set_spiral_angle (spiral_angle c + 0.05) c
                 else set_spiral_angle (- MAX_STEER_ANGLE) c in
        (set_last_rssi rssi c, out, Next)
  | APPROACH =>
      if Py.geb rssi TARGET_RSSI then
        (set_verify_hits 0 (set_verify_start_time (now i) (set_state VERIFY c)),
         [stop; set_dir_servo_angle 0], Continue)
      else
        let delta := rssi - last_rssi c in
        if Py.geb delta 0 then
          (set_last_rssi rssi c,
           [set_dir_servo_angle 0; forward SPEED_APPROACH; sleep 0.01], Next)
        else
          (set_last_rssi rssi c,
           [set_dir_servo_angle 20; forward SPEED_APPROACH; sleep 0.01], Next)
  | VERIFY =>
      let elapsed := now i - verify_start_time c in
      let c := if Py.geb rssi TARGET_RSSI
               then set_verify_hits (verify_hits c + 1) c else c in
      if Py.gtb elapsed VERIFY_DURATION then
        if (VERIFY_REQUIRED_HITS <=? verify_hits c)%nat then
          (set_last_rssi rssi (set_state FINISH c), [sleep 0.01], Next)
        else
          (set_last_rssi rssi (set_state APPROACH c),
           [backward SPEED_APPROACH; sleep 1.0; sleep 0.01], Next)
      else (set_last_rssi rssi c, [sleep 0.01], Next)
  | FINISH => (c, [stop], Break)
  end.

(** One pass through the body of [while True:] in [run()]. *)
Definition tick (c : Controller) (i : Input) : Controller * list Cmd * Flow :=
  let '(c, rssi) := sense c (raw_rssi i) in
  let c := obstacle_filter c (dist i) in
  dispatch c rssi i.

(** [WiFiSensor.get_stable_rssi(samples)], [reads] being what the [samples]
    calls of [_read_single_rssi()] returned. *)
Definition get_stable_rssi (reads : list (option Q)) : option Q :=
  let readings := WiFiSensor.collect reads in
  match readings with
  | [] => None
  | _ =>
      let readings :=
        if (3 <=? length readings)%nat
        then Py.slice_both 1 (Py.sort readings)
        else readings in
      match readings with
      | [] => None
      | _ => Some (Py.sum readings / Py.len readings)
      end
  end.

(** The lines of [run()] before the loop: [start_val] is what
    [get_stable_rssi(samples=10)] returned. *)
Definition calibrate (c : Controller) (start_val : option Q) : Controller :=
  match start_val with
  | Some v =>
      if Py.truthy v
      then set_kf (Kalman.mkKF (Kalman.kf_R (kf c)) (Kalman.kf_Q (kf c)) v
                     (Kalman.kf_P (kf c))) c
      else c
  | None => c
  end.

(** The controllers the loop of [run()] can be in when a pass begins. *)
Inductive reachable : Controller -> Prop :=
| reach_start start_val : reachable (calibrate init start_val)
| reach_tick c i c' out flow :
    reachable c -> tick c i = (c', out, flow) -> flow <> Break -> reachable c'.

End Test25.

(** * The vocabulary of the properties *)

(** A list of numbers that never goes up from one entry to the next. *)
Fixpoint nonincreasing (l : list Q) : Prop :=
  match l with
  | a :: (b :: _) as l' => b <= a /\ nonincreasing l'
  | _ => True
  end.

(** Where the variance stands relative to the fixed point of its
    recurrence: at or above it exactly when [Q*R <= P*P + Q*P]. *)
Definition above_steady (kf : Kalman.RSSIKalmanFilter) : Prop :=
  0 < Kalman.kf_P kf /\
  Kalman.kf_Q kf * Kalman.kf_R kf
  <= Kalman.kf_P kf * Kalman.kf_P kf + Kalman.kf_Q kf * Kalman.kf_P kf.

(** The number of samples at or above the target. *)
Definition hits (target : Q) (samples : list Q) : nat :=
  length (filter (fun s => Py.geb s target) samples).

(** What the gate has done after being called once for each of [samples]:
    [checks_done] and [hits_seen] are its two counters and [st] the state of
    the controller.  It has counted every call and every sample at or above
    the target; before the [total]-th call the controller is still in VERIFY;
    at the [total]-th call it is in FINISH exactly when at least [required]
    samples were hits, and back in SEARCH otherwise. *)
Definition gate_contract (total required : nat) (target : Q)
  (samples : list Q) (st : NavState) (checks_done hits_seen : nat) : Prop :=
  checks_done = length samples /\
  hits_seen = hits target samples /\
  ((length samples < total)%nat -> st = VERIFY) /\
  (length samples = total ->
   ((required <= hits target samples)%nat -> st = FINISH) /\
   ((hits target samples < required)%nat -> st = SEARCH)).

(** The settings of final_version.py with the gate of the specification's
    test scenario: 30 checks, 4 hits required. *)
Definition gate_30_4 : FinalVersion.Config :=
  FinalVersion.mkConfig (-48.5) (-53) 8.0 3.0 30 4 25 40 25 40.

(** Thirty samples, five of them (the 3rd, 9th, 17th, 22nd and 30th) at or
    above the target of -48.5. *)
Definition thirty_samples : list Q :=
  [-50; -51; -48; -52; -50; -49; -53; -50; -47; -50;
   -51; -50; -49; -52; -50; -51; -48; -50; -49; -50;
   -52; -46; -50; -51; -49; -50; -53; -50; -49; -45].

(** The length of the run of entries satisfying [p] at the head of [l]. *)
Fixpoint run_length {A} (p : A -> bool) (l : list A) : nat :=
  match l with
  | [] => 0
  | a :: l' => if p a then S (run_length p l') else 0
  end.

(** The streak of readings satisfying [p] that ends at the last of [ds]. *)
Definition streak {A} (p : A -> bool) (ds : list A) : nat :=
  run_length p (rev ds).

(** What debouncing with threshold 2 means for a monitor that starts from
    controller [c]: [close] holds of exactly the readings with
    [0 < d < limit]; every value the monitor returns says whether the streak
    of close readings ending at that reading has reached 2; one reading
    followed by readings that are not close never returns true; and two close
    readings in a row return true on the second, whatever came before. *)
Definition debounce_contract {C : Type} (limit : Q)
  (close : option Q -> bool)
  (feed : C -> list (option Q) -> C * list bool)
  (check : C -> option Q -> C * bool) (c : C) : Prop :=
  (forall dist, close dist = true <->
                exists d, dist = Some d /\ 0 < d /\ d < limit) /\
  (forall ds k r,
     nth_error (snd (feed c ds)) k = Some r ->
     r = (2 <=? streak close (firstn (S k) ds))%nat) /\
  (forall d fars,
     Forall (fun f => close f = false) fars ->
     Forall (fun r => r = false) (snd (feed c (d :: fars)))) /\
  (forall c1 d1 d2,
     close d1 = true -> close d2 = true ->
     snd (check (fst (check c1 d1)) d2) = true).

(** A reading the monitors do not count as close: none at all, zero or
    below, or at or above the limit, however large. *)
Definition out_of_range (limit : Q) (dist : option Q) : Prop :=
  match dist with
  | None => True
  | Some d => d <= 0 \/ limit <= d
  end.

(** The readings averaged from a burst with [n >= 5] valid readings: the
    sorted readings without [n / 10] of them at each end. *)
Definition kept (readings : list Q) : list Q :=
  let k := (length readings / 10)%nat in
  if (0 <? k)%nat then Py.slice_both k (Py.sort readings) else Py.sort readings.

(** The states the loop of [run()] of final_version.py passes through. *)
Definition states_of (cs : list FinalVersion.Controller) : list NavState :=
  map FinalVersion.state cs.

(** The settings of final_version.py with the thresholds of the
    specification's end-to-end scenario: APPROACH_THRESHOLD = -55,
    TARGET_RSSI = -46. *)
Definition thresholds_55_46 : FinalVersion.Config :=
  FinalVersion.mkConfig (-46) (-55) 8.0 3.0 20 4 25 40 25 40.

(** The filtered signal of that scenario, one sample per pass. *)
Definition signal_sequence : list Q := [-70; -68; -60; -52; -44; -44; -44; -44].

(** One pass per sample, the [k]-th pass reading distance [dist_at k] and
    clock [now_at k]. *)
Fixpoint passes (samples : list Q) (dist_at : nat -> option Q)
  (now_at : nat -> Q) (k : nat) : list FinalVersion.Input :=
  match samples with
  | [] => []
  | s :: samples' =>
      FinalVersion.mkInput (Some s) (dist_at k) (now_at k)
      :: passes samples' dist_at now_at (S k)
  end.

(** [i] with its rangefinder reading replaced. *)
Definition t25_with_dist (d : option Q) (i : Test25.Input) : Test25.Input :=
  Test25.mkInput (Test25.raw_rssi i) d (Test25.now i)
    (Test25.dist_left i) (Test25.dist_right i).

(** The calls of [avoid_obstacle()] of final_version.py. *)
Definition fv_avoid_calls (cfg : FinalVersion.Config) : list Cmd :=
  [stop; set_dir_servo_angle 0; backward (FinalVersion.SPEED_AVOID cfg);
   sleep 1.0; set_dir_servo_angle (-35); forward (FinalVersion.SPEED_AVOID cfg);
   sleep 0.8].

(** What a confirmed obstacle does in each of the two controllers.
    final_version.py, pass [i] from controller [c]: outside FINISH the pass
    is the avoidance maneuver and ends in SEARCH (from SEARCH, from APPROACH
    and from VERIFY alike); in FINISH the pass is the final stop.
    test25.py, pass [i25] from controller [c25]: in SEARCH and APPROACH the
    state is AVOID before the branches are looked at and SEARCH at the end of
    the pass; in VERIFY and FINISH the obstacle filter changes nothing, the
    pass is the same for every rangefinder reading, and it ends in VERIFY,
    FINISH or APPROACH. *)
Definition preemption_rules (cfg : FinalVersion.Config)
  (c : FinalVersion.Controller) (i : FinalVersion.Input)
  (c25 : Test25.Controller) (i25 : Test25.Input) : Prop :=
  (FinalVersion.state c <> FINISH ->
   FinalVersion.iteration cfg c i
   = (FinalVersion.set_search_start_time (FinalVersion.now i)
        (FinalVersion.set_state SEARCH
           (fst (FinalVersion.check_obstacle cfg c (FinalVersion.dist i)))),
      fv_avoid_calls cfg, Continue)) /\
  (FinalVersion.state c = FINISH ->
   FinalVersion.iteration cfg c i = (c, [stop; stop; sleep 5], Break)) /\
  (Test25.state c25 = SEARCH \/ Test25.state c25 = APPROACH ->
   Test25.state
     (Test25.obstacle_filter (fst (Test25.sense c25 (Test25.raw_rssi i25)))
        (Test25.dist i25)) = AVOID /\
   Test25.state (fst (fst (Test25.tick c25 i25))) = SEARCH /\
   snd (Test25.tick c25 i25) = Next) /\
  (Test25.state c25 = VERIFY \/ Test25.state c25 = FINISH ->
   (forall d, Test25.obstacle_filter c25 d = c25) /\
   (forall d, Test25.tick c25 (t25_with_dist d i25) = Test25.tick c25 i25) /\
   (Test25.state (fst (fst (Test25.tick c25 i25))) = VERIFY \/
    Test25.state (fst (fst (Test25.tick c25 i25))) = FINISH \/
    Test25.state (fst (fst (Test25.tick c25 i25))) = APPROACH)).

(** A controller of final_version.py in the middle of a verification, one
    close reading already counted, and a pass that reads 10 cm. *)
Definition fv_verifying : FinalVersion.Controller :=
  FinalVersion.mkController VERIFY (-47) 0 0 1 3 2.

Definition fv_pass_10cm : FinalVersion.Input :=
  FinalVersion.mkInput (Some (-47)) (Some 10) 5.

(** A controller of test25.py in VERIFY and a pass that reads 10 cm. *)
Definition t25_verifying : Test25.Controller :=
  Test25.mkController (Kalman.init 2.0 0.05 (-47)) VERIFY (-47) (-35) 2 0 1.

Definition t25_pass_10cm : Test25.Input :=
  Test25.mkInput (Some (-47)) (Some 10) 5 None None.

(** A call that sets the steering servo stays within [-limit, limit]. *)
Definition steer_ok (limit : Q) (cmd : Cmd) : Prop :=
  match cmd with
  | set_dir_servo_angle a => - limit <= a /\ a <= limit
  | _ => True
  end.

(** The band the SEARCH branch keeps the spiral angle in (test24.py,
    test12.py). *)
Definition spiral_in_band (c : Test24.Controller) : Prop :=
  - Test24.MAX_STEER_ANGLE <= Test24.spiral_angle c /\
  Test24.spiral_angle c < 0.05.

Definition spiral_in_band12 (c : Test12.Controller) : Prop :=
  - Test12.MAX_STEER_ANGLE <= Test12.spiral_angle c /\
  Test12.spiral_angle c < 0.05.

(** A pass of test24.py with vision scores that ask for the hardest right
    turn, and a pass of test12.py in the spiral. *)
Definition t24_pass_hard_right : Test24.Input :=
  Test24.mkInput (Some (-70)) (Some 100)
    (Some (Test24.mkScores 0 1 1 false)) None None.

Definition t12_pass_spiral : Test12.Input :=
  Test12.mkInput (Some (-70)) (Some 100) None None.

(** ** Vocabulary of the further properties *)

(** [lo <= x <= hi]. *)
Definition within (lo hi x : Q) : Prop := lo <= x /\ x <= hi.

(** How many of the readings lie below [lo], and how many above [hi]. *)
Definition count_below (lo : Q) (l : list Q) : nat :=
  length (filter (fun x => Py.ltb x lo) l).

Definition count_above (hi : Q) (l : list Q) : nat :=
  length (filter (fun x => Py.gtb x hi) l).

(** What holds of the controller of final_version.py whenever a pass of
    the loop begins: the state is one the file assigns, three drops in a row
    have been answered, the hits are among the checks, a verification under
    way is short of its last check, and FINISH stands on a completed one. *)
Definition fv_loop_invariant (cfg : FinalVersion.Config)
  (c : FinalVersion.Controller) : Prop :=
  FinalVersion.state c <> AVOID /\
  (FinalVersion.consecutive_drops c <= 2)%nat /\
  (FinalVersion.verify_hits c <= FinalVersion.verify_counter c)%nat /\
  (FinalVersion.state c = VERIFY ->
   (FinalVersion.verify_counter c < FinalVersion.VERIFY_TOTAL_CHECKS cfg)%nat) /\
  (FinalVersion.state c = FINISH ->
   FinalVersion.verify_counter c = FinalVersion.VERIFY_TOTAL_CHECKS cfg /\
   (FinalVersion.VERIFY_REQUIRED_HITS cfg <= FinalVersion.verify_hits c)%nat).

(** The same of the controller of wifi_bot3.py. *)
Definition wb_loop_invariant (cfg : WifiBot3.Config)
  (c : WifiBot3.Controller) : Prop :=
  WifiBot3.state c <> AVOID /\
  (WifiBot3.consecutive_drops c <= 2)%nat /\
  (WifiBot3.verify_hits c <= WifiBot3.verify_counter c)%nat /\
  (WifiBot3.state c = VERIFY ->
   (WifiBot3.verify_counter c < WifiBot3.VERIFY_TOTAL_CHECKS cfg)%nat) /\
  (WifiBot3.state c = FINISH ->
   WifiBot3.verify_counter c = WifiBot3.VERIFY_TOTAL_CHECKS cfg /\
   (WifiBot3.VERIFY_REQUIRED_HITS cfg <= WifiBot3.verify_hits c)%nat).

(** Passes of final_version.py and of wifi_bot3.py that read no obstacle,
    one per signal sample. *)
Definition fv_clear_passes (samples : list Q) : list FinalVersion.Input :=
  map (fun s => FinalVersion.mkInput (Some s) None 0) samples.

Definition wb_clear_passes (samples : list Q) : list WifiBot3.Input :=
  map (fun s => WifiBot3.mkInput (Some s) None None None) samples.

(** The loop of wifi_bot3.py over the inputs of successive passes: the
    controller after each pass, until [break]. *)
Fixpoint wb_run (cfg : WifiBot3.Config) (c : WifiBot3.Controller)
  (inputs : list WifiBot3.Input) : list WifiBot3.Controller :=
  match inputs with
  | [] => []
  | i :: inputs' =>
      match WifiBot3.iteration cfg c i with
      | (c', _, Break) => [c']
      | (c', _, _) => c' :: wb_run cfg c' inputs'
      end
  end.

(** The band [handle_search] of wifi_bot3.py keeps the spiral angle in. *)
Definition wb_spiral_in_band (c : WifiBot3.Controller) : Prop :=
  -35 <= WifiBot3.spiral_angle c /\ WifiBot3.spiral_angle c < 0.5.

(** What holds of the controller of test25.py whenever a pass of the loop
    begins: no avoidance is pending, fewer than OBSTACLE_CONFIRM_COUNT close
    readings are counted, and FINISH stands on VERIFY_REQUIRED_HITS hits. *)
Definition t25_loop_invariant (c : Test25.Controller) : Prop :=
  Test25.state c <> AVOID /\
  (Test25.obstacle_counter c < Test25.OBSTACLE_CONFIRM_COUNT)%nat /\
  (Test25.state c = FINISH ->
   (Test25.VERIFY_REQUIRED_HITS <= Test25.verify_hits c)%nat).


(** The band the SEARCH branch of test25.py keeps the spiral angle in. *)
Definition spiral_in_band25 (c : Test25.Controller) : Prop :=
  - Test25.MAX_STEER_ANGLE <= Test25.spiral_angle c /\
  Test25.spiral_angle c < 0.05.

(** A pass of test25.py that reads a weak signal and a wall at 10 cm. *)
Definition t25_pass_wall : Test25.Input :=
  Test25.mkInput (Some (-70)) (Some 10) 0 None None.

(** The states the controllers of test12.py and test24.py can be in when a
    pass begins: an avoidance never outlasts its pass, and VERIFY is never
    assigned. *)
Definition between_passes (s : NavState) : Prop :=
  s = SEARCH \/ s = APPROACH \/ s = FINISH.

(** What a pass that read a close obstacle did: it ended in SEARCH at the
    last line of the loop body, having backed up, with the signal of the pass
    stored. *)
Definition avoided (state_after : NavState) (out : list Cmd) (flow : Flow)
  (last_rssi_after rssi : Q) (speed : Z) : Prop :=
  state_after = SEARCH /\ flow = Next /\ In (backward speed) out /\
  last_rssi_after = rssi.

(** * Properties *)

(** ** Python comparisons as propositions *)

Lemma ltb_true (a b : Q) : Py.ltb a b = true <-> a < b.
Proof.
  unfold Py.ltb. rewrite negb_true_iff, <- not_true_iff_false, Qle_bool_iff.
  split; [apply Qnot_le_lt | apply Qlt_not_le].
Qed.

Lemma ltb_false (a b : Q) : Py.ltb a b = false <-> b <= a.
Proof.
  unfold Py.ltb. rewrite negb_false_iff. apply Qle_bool_iff.
Qed.

Lemma leb_true (a b : Q) : Py.leb a b = true <-> a <= b.
Proof. apply Qle_bool_iff. Qed.

Lemma leb_false (a b : Q) : Py.leb a b = false <-> b < a.
Proof.
  unfold Py.leb. rewrite <- not_true_iff_false, Qle_bool_iff.
  split; [apply Qnot_le_lt | apply Qlt_not_le].
Qed.

Lemma gtb_true (a b : Q) : Py.gtb a b = true <-> b < a.
Proof. apply ltb_true. Qed.

Lemma gtb_false (a b : Q) : Py.gtb a b = false <-> a <= b.
Proof. apply ltb_false. Qed.

Lemma geb_true (a b : Q) : Py.geb a b = true <-> b <= a.
Proof. apply leb_true. Qed.

Lemma geb_false (a b : Q) : Py.geb a b = false <-> a < b.
Proof. apply leb_false. Qed.

(** ** The Kalman filter *)

Section KalmanFacts.

Import Kalman.


Lemma filter_keeps_noise kf m :
  kf_R (fst (filter kf m)) = kf_R kf /\ kf_Q (fst (filter kf m)) = kf_Q kf.
Proof. destruct m; simpl; auto. Qed.

(** The value [filter] returns is the estimate it leaves in [self.x]. *)
Lemma filter_returns_x kf m : snd (filter kf m) = kf_x (fst (filter kf m)).
Proof. destruct m; reflexivity. Qed.

(** The variance after an update, in closed form. *)
Lemma filter_P_closed kf z :
  0 < kf_P kf + kf_Q kf + kf_R kf ->
  kf_P (fst (filter kf (Some z)))
  == (kf_P kf + kf_Q kf) * kf_R kf / (kf_P kf + kf_Q kf + kf_R kf).
Proof. intros H. simpl. field. lra. Qed.

Lemma update_stays_above kf z :
  0 < kf_R kf -> 0 < kf_Q kf -> above_steady kf ->
  above_steady (fst (filter kf (Some z))).
Proof.
  intros HR HQ [HP Hinv].
  assert (HD : 0 < kf_P kf + kf_Q kf + kf_R kf) by lra.
  pose proof (filter_P_closed kf z HD) as HP'.
  destruct (filter_keeps_noise kf (Some z)) as [ER EQ].
  unfold above_steady. rewrite ER, EQ.
  set (P' := kf_P (fst (filter kf (Some z)))) in *.
  destruct kf as [R Q0 x P]; simpl in *.
  set (D := P + Q0 + R) in *.
  assert (HP'pos : 0 < P').
  { rewrite HP'. apply Qlt_shift_div_l; [exact HD | nra]. }
  split; [exact HP'pos |].
  assert (E : P' * P' + Q0 * P' - Q0 * R
              == R * R * (P * P + Q0 * P - Q0 * R) / (D * D)).
  { rewrite HP'. unfold D. field. lra. }
  assert (0 <= R * R * (P * P + Q0 * P - Q0 * R) / (D * D)).
  { apply Qle_shift_div_l; [nra | nra]. }
  lra.
Qed.

Lemma update_lowers_variance kf z :
  0 < kf_R kf -> 0 < kf_Q kf -> above_steady kf ->
  kf_P (fst (filter kf (Some z))) <= kf_P kf.
Proof.
  intros HR HQ [HP Hinv].
  assert (HD : 0 < kf_P kf + kf_Q kf + kf_R kf) by lra.
  rewrite (filter_P_closed kf z HD).
  destruct kf as [R Q0 x P]; simpl in *.
  apply Qle_shift_div_r; [exact HD | nra].
Qed.

(** From a variance at or above the steady one, the variances reported over
    any run of updates never go up. *)
Lemma variance_nonincreasing_from kf zs :
  0 < kf_R kf -> 0 < kf_Q kf -> above_steady kf ->
  nonincreasing (map kf_P (kf :: trace kf (map Some zs))).
Proof.
  revert kf. induction zs as [| z zs IH]; intros kf HR HQ Hinv.
  - simpl. exact I.
  - change (kf_P (fst (filter kf (Some z))) <= kf_P kf /\
            nonincreasing (map kf_P (fst (filter kf (Some z))
                                     :: trace (fst (filter kf (Some z)))
                                              (map Some zs)))).
    split.
    + apply update_lowers_variance; assumption.
    + destruct (filter_keeps_noise kf (Some z)) as [ER EQ].
      apply IH.
      * rewrite ER; exact HR.
      * rewrite EQ; exact HQ.
      * apply update_stays_above; assumption.
Qed.

End KalmanFacts.

(** C7.  From the initial state of the filter (any initial estimate [x0],
    variance 1.0) with measurement noise R = 2.0 and process noise Q = 0.05,
    and a measurement present on every tick, the variances the filter
    reports (the initial one first) never increase from one tick to the
    next. *)
Theorem variance_nonincreasing (x0 : Q) (zs : list Q) :
  let kf0 := Kalman.init 2.0 0.05 x0 in
  nonincreasing
    (map Kalman.kf_P (kf0 :: Kalman.trace kf0 (map Some zs))).
Proof.
  intros kf0. apply variance_nonincreasing_from.
  - reflexivity.
  - reflexivity.
  - split; [reflexivity | discriminate].
Qed.




(** ** The verification gate ([handle_verify]) *)

Lemma hits_cons target s samples :
  hits target (s :: samples)
  = ((if Py.geb s target then 1 else 0) + hits target samples)%nat.
Proof. unfold hits. simpl. destruct (Py.geb s target); reflexivity. Qed.

Ltac case_nat_leb :=
  match goal with
  | |- context [(?a <=? ?b)%nat] =>
      let E := fresh "E" in
      destruct (a <=? b)%nat eqn:E;
      [apply Nat.leb_le in E | apply Nat.leb_gt in E]
  end.

Section GateFinalVersion.

Import FinalVersion.
Variable cfg : Config.

(** One call of [handle_verify]: the counters and the state it leaves. *)
Lemma fv_handle_verify_step c s now :
  let c' := fst (handle_verify cfg c s now) in
  verify_counter c' = (verify_counter c + 1)%nat /\
  verify_hits c'
  = (verify_hits c + (if Py.geb s (TARGET_RSSI cfg) then 1 else 0))%nat /\
  state c'
  = if (VERIFY_TOTAL_CHECKS cfg <=? verify_counter c')%nat
    then if (VERIFY_REQUIRED_HITS cfg <=? verify_hits c')%nat
         then FINISH else SEARCH
    else state c.
Proof.
  unfold handle_verify.
  destruct (Py.geb s (TARGET_RSSI cfg)); simpl;
    repeat (case_nat_leb; simpl); repeat split; lia.
Qed.

Lemma fv_verify_feed_spec samples : forall c now,
  state c = VERIFY ->
  let c' := verify_feed cfg c samples now in
  ((verify_counter c + length samples < VERIFY_TOTAL_CHECKS cfg)%nat ->
   state c' = VERIFY /\
   verify_counter c' = (verify_counter c + length samples)%nat /\
   verify_hits c' = (verify_hits c + hits (TARGET_RSSI cfg) samples)%nat) /\
  (samples <> [] ->
   (verify_counter c + length samples = VERIFY_TOTAL_CHECKS cfg)%nat ->
   verify_counter c' = VERIFY_TOTAL_CHECKS cfg /\
   verify_hits c' = (verify_hits c + hits (TARGET_RSSI cfg) samples)%nat /\
   state c' = if (VERIFY_REQUIRED_HITS cfg <=? verify_hits c')%nat
              then FINISH else SEARCH).
Proof.
  induction samples as [| s t IH]; intros c now Hst; simpl.
  - split; [intros _; repeat split; auto with arith | intros H; congruence].
  - rewrite Hst.
    destruct (fv_handle_verify_step c s now) as (Hn & Hh & Hs).
    set (c1 := fst (handle_verify cfg c s now)) in *.
    rewrite hits_cons.
    split.
    + intros Hlt.
      assert (Hst1 : state c1 = VERIFY).
      { rewrite Hs. case_nat_leb; [lia | exact Hst]. }
      destruct (IH c1 now Hst1) as [IH1 _].
      destruct IH1 as (A & B & C); [lia |].
      repeat split; [exact A | lia | lia].
    + intros _ Heq. destruct t as [| s' t'].
      * unfold hits; simpl in *. repeat split; [lia | lia |].
        rewrite Hs. case_nat_leb; [reflexivity | lia].
      * assert (Hst1 : state c1 = VERIFY).
        { rewrite Hs. case_nat_leb; [simpl in Heq; lia | exact Hst]. }
        destruct (IH c1 now Hst1) as [_ IH2].
        destruct IH2 as (A & B & C); [discriminate | simpl in *; lia |].
        repeat split; [exact A | lia | exact C].
Qed.

End GateFinalVersion.

Section GateWifiBot3.

Import WifiBot3.
Variable cfg : Config.

Lemma wb_handle_verify_step c s :
  let c' := fst (handle_verify cfg c s) in
  verify_counter c' = (verify_counter c + 1)%nat /\
  verify_hits c'
  = (verify_hits c + (if Py.geb s (TARGET_RSSI cfg) then 1 else 0))%nat /\
  state c'
  = if (VERIFY_TOTAL_CHECKS cfg <=? verify_counter c')%nat
    then if (VERIFY_REQUIRED_HITS cfg <=? verify_hits c')%nat
         then FINISH else SEARCH
    else state c.
Proof.
  unfold handle_verify.
  destruct (Py.geb s (TARGET_RSSI cfg)); simpl;
    repeat (case_nat_leb; simpl); repeat split; lia.
Qed.

Lemma wb_verify_feed_spec samples : forall c,
  state c = VERIFY ->
  let c' := verify_feed cfg c samples in
  ((verify_counter c + length samples < VERIFY_TOTAL_CHECKS cfg)%nat ->
   state c' = VERIFY /\
   verify_counter c' = (verify_counter c + length samples)%nat /\
   verify_hits c' = (verify_hits c + hits (TARGET_RSSI cfg) samples)%nat) /\
  (samples <> [] ->
   (verify_counter c + length samples = VERIFY_TOTAL_CHECKS cfg)%nat ->
   verify_counter c' = VERIFY_TOTAL_CHECKS cfg /\
   verify_hits c' = (verify_hits c + hits (TARGET_RSSI cfg) samples)%nat /\
   state c' = if (VERIFY_REQUIRED_HITS cfg <=? verify_hits c')%nat
              then FINISH else SEARCH).
Proof.
  induction samples as [| s t IH]; intros c Hst; simpl.
  - split; [intros _; repeat split; auto with arith | intros H; congruence].
  - rewrite Hst.
    destruct (wb_handle_verify_step c s) as (Hn & Hh & Hs).
    set (c1 := fst (handle_verify cfg c s)) in *.
    rewrite hits_cons.
    split.
    + intros Hlt.
      assert (Hst1 : state c1 = VERIFY).
      { rewrite Hs. case_nat_leb; [lia | exact Hst]. }
      destruct (IH c1 Hst1) as [IH1 _].
      destruct IH1 as (A & B & C); [lia |].
      repeat split; [exact A | lia | lia].
    + intros _ Heq. destruct t as [| s' t'].
      * unfold hits; simpl in *. repeat split; [lia | lia |].
        rewrite Hs. case_nat_leb; [reflexivity | lia].
      * assert (Hst1 : state c1 = VERIFY).
        { rewrite Hs. case_nat_leb; [simpl in Heq; lia | exact Hst]. }
        destruct (IH c1 Hst1) as [_ IH2].
        destruct IH2 as (A & B & C); [discriminate | simpl in *; lia |].
        repeat split; [exact A | lia | exact C].
Qed.

End GateWifiBot3.

Lemma fv_enter_verify cfg c curr delta :
  FinalVersion.TARGET_RSSI cfg <= curr ->
  let c0 := fst (FinalVersion.handle_approach cfg c curr delta) in
  FinalVersion.state c0 = VERIFY /\
  FinalVersion.verify_counter c0 = 0%nat /\
  FinalVersion.verify_hits c0 = 0%nat.
Proof.
  intros H. unfold FinalVersion.handle_approach.
  apply geb_true in H. rewrite H. simpl. auto.
Qed.

Lemma wb_enter_verify cfg c curr delta :
  WifiBot3.TARGET_RSSI cfg <= curr ->
  let c0 := fst (WifiBot3.handle_approach cfg c curr delta) in
  WifiBot3.state c0 = VERIFY /\
  WifiBot3.verify_counter c0 = 0%nat /\
  WifiBot3.verify_hits c0 = 0%nat.
Proof.
  intros H. unfold WifiBot3.handle_approach.
  apply geb_true in H. rewrite H. simpl. auto.
Qed.

Lemma fv_gate_from_entry cfg c0 samples now :
  (1 <= FinalVersion.VERIFY_TOTAL_CHECKS cfg)%nat ->
  FinalVersion.state c0 = VERIFY ->
  FinalVersion.verify_counter c0 = 0%nat ->
  FinalVersion.verify_hits c0 = 0%nat ->
  (length samples <= FinalVersion.VERIFY_TOTAL_CHECKS cfg)%nat ->
  let c' := FinalVersion.verify_feed cfg c0 samples now in
  gate_contract (FinalVersion.VERIFY_TOTAL_CHECKS cfg)
    (FinalVersion.VERIFY_REQUIRED_HITS cfg) (FinalVersion.TARGET_RSSI cfg)
    samples
    (FinalVersion.state c') (FinalVersion.verify_counter c')
    (FinalVersion.verify_hits c').
Proof.
  intros Htot Hst Hn Hh Hlen c'.
  destruct (fv_verify_feed_spec cfg samples c0 now Hst) as [Hlt Heq].
  fold c' in Hlt, Heq. rewrite Hn, Hh in *. simpl in *.
  unfold gate_contract.
  destruct (Nat.eq_dec (length samples) (FinalVersion.VERIFY_TOTAL_CHECKS cfg))
    as [E | NE].
  - assert (Hne : samples <> []) by (intros ->; simpl in E; lia).
    destruct (Heq Hne E) as (A & B & C). rewrite B in C.
    repeat split; try lia.
    + intros Hreq. rewrite C. apply Nat.leb_le in Hreq. rewrite Hreq. reflexivity.
    + intros Hreq. rewrite C. apply Nat.leb_gt in Hreq. rewrite Hreq. reflexivity.
  - destruct Hlt as (A & B & C); [lia |].
    repeat split; try lia; intros; auto; lia.
Qed.

Lemma wb_gate_from_entry cfg c0 samples :
  (1 <= WifiBot3.VERIFY_TOTAL_CHECKS cfg)%nat ->
  WifiBot3.state c0 = VERIFY ->
  WifiBot3.verify_counter c0 = 0%nat ->
  WifiBot3.verify_hits c0 = 0%nat ->
  (length samples <= WifiBot3.VERIFY_TOTAL_CHECKS cfg)%nat ->
  let c' := WifiBot3.verify_feed cfg c0 samples in
  gate_contract (WifiBot3.VERIFY_TOTAL_CHECKS cfg)
    (WifiBot3.VERIFY_REQUIRED_HITS cfg) (WifiBot3.TARGET_RSSI cfg)
    samples
    (WifiBot3.state c') (WifiBot3.verify_counter c') (WifiBot3.verify_hits c').
Proof.
  intros Htot Hst Hn Hh Hlen c'.
  destruct (wb_verify_feed_spec cfg samples c0 Hst) as [Hlt Heq].
  fold c' in Hlt, Heq. rewrite Hn, Hh in *. simpl in *.
  unfold gate_contract.
  destruct (Nat.eq_dec (length samples) (WifiBot3.VERIFY_TOTAL_CHECKS cfg))
    as [E | NE].
  - assert (Hne : samples <> []) by (intros ->; simpl in E; lia).
    destruct (Heq Hne E) as (A & B & C). rewrite B in C.
    repeat split; try lia.
    + intros Hreq. rewrite C. apply Nat.leb_le in Hreq. rewrite Hreq. reflexivity.
    + intros Hreq. rewrite C. apply Nat.leb_gt in Hreq. rewrite Hreq. reflexivity.
  - destruct Hlt as (A & B & C); [lia |].
    repeat split; try lia; intros; auto; lia.
Qed.

(** C1 (final_version.py).  From the tick on which [handle_approach] hands
    over to VERIFY, the gate called once per tick counts every call in
    [verify_counter] and every sample at or above TARGET_RSSI in
    [verify_hits]; on every tick before the VERIFY_TOTAL_CHECKS-th the
    controller stays in VERIFY, and on the VERIFY_TOTAL_CHECKS-th it moves to
    FINISH when the hits reached VERIFY_REQUIRED_HITS (to SEARCH when they did
    not). *)
Theorem verification_gate (cfg : FinalVersion.Config)
  (c : FinalVersion.Controller) (curr delta now : Q) (samples : list Q) :
  (1 <= FinalVersion.VERIFY_TOTAL_CHECKS cfg)%nat ->
  FinalVersion.TARGET_RSSI cfg <= curr ->
  (length samples <= FinalVersion.VERIFY_TOTAL_CHECKS cfg)%nat ->
  let c0 := fst (FinalVersion.handle_approach cfg c curr delta) in
  let c' := FinalVersion.verify_feed cfg c0 samples now in
  gate_contract (FinalVersion.VERIFY_TOTAL_CHECKS cfg)
    (FinalVersion.VERIFY_REQUIRED_HITS cfg) (FinalVersion.TARGET_RSSI cfg)
    samples
    (FinalVersion.state c') (FinalVersion.verify_counter c')
    (FinalVersion.verify_hits c').
Proof.
  intros Htot Hcurr Hlen c0 c'.
  destruct (fv_enter_verify cfg c curr delta Hcurr) as (Hst & Hn & Hh).
  apply fv_gate_from_entry; assumption.
Qed.

(** The same gate in wifi_bot3.py. *)
Lemma verification_gate_wifi_bot3 (cfg : WifiBot3.Config)
  (c : WifiBot3.Controller) (curr delta : Q) (samples : list Q) :
  (1 <= WifiBot3.VERIFY_TOTAL_CHECKS cfg)%nat ->
  WifiBot3.TARGET_RSSI cfg <= curr ->
  (length samples <= WifiBot3.VERIFY_TOTAL_CHECKS cfg)%nat ->
  let c0 := fst (WifiBot3.handle_approach cfg c curr delta) in
  let c' := WifiBot3.verify_feed cfg c0 samples in
  gate_contract (WifiBot3.VERIFY_TOTAL_CHECKS cfg)
    (WifiBot3.VERIFY_REQUIRED_HITS cfg) (WifiBot3.TARGET_RSSI cfg)
    samples
    (WifiBot3.state c') (WifiBot3.verify_counter c') (WifiBot3.verify_hits c').
Proof.
  intros Htot Hcurr Hlen c0 c'.
  destruct (wb_enter_verify cfg c curr delta Hcurr) as (Hst & Hn & Hh).
  apply wb_gate_from_entry; assumption.
Qed.

(** The scenario of the specification, for every sequence of 30 samples with
    exactly 5 hits: with 4 hits required out of 30 checks the controller is in
    FINISH after the 30th call and in VERIFY after each earlier one. *)
Lemma gate_30_samples_5_hits (cfg : FinalVersion.Config)
  (c : FinalVersion.Controller) (curr delta now : Q) (samples : list Q) :
  FinalVersion.VERIFY_TOTAL_CHECKS cfg = 30%nat ->
  FinalVersion.VERIFY_REQUIRED_HITS cfg = 4%nat ->
  FinalVersion.TARGET_RSSI cfg <= curr ->
  length samples = 30%nat ->
  hits (FinalVersion.TARGET_RSSI cfg) samples = 5%nat ->
  let c0 := fst (FinalVersion.handle_approach cfg c curr delta) in
  FinalVersion.state (FinalVersion.verify_feed cfg c0 samples now) = FINISH /\
  forall k, (k < 30)%nat ->
    FinalVersion.state (FinalVersion.verify_feed cfg c0 (firstn k samples) now)
    = VERIFY.
Proof.
  intros Htot Hreq Hcurr Hlen Hhits c0.
  destruct (fv_enter_verify cfg c curr delta Hcurr) as (Hst & Hn & Hh).
  fold c0 in Hst, Hn, Hh.
  split.
  - destruct (fv_gate_from_entry cfg c0 samples now) as (_ & _ & _ & Hend);
      try assumption; try lia.
    destruct Hend as [Hfin _]; [lia |]. apply Hfin. lia.
  - intros k Hk.
    assert (Hlenk : length (firstn k samples) = k)
      by (rewrite length_firstn; lia).
    destruct (fv_gate_from_entry cfg c0 (firstn k samples) now)
      as (_ & _ & Hearly & _); try assumption; try lia.
    apply Hearly. lia.
Qed.

Lemma verification_gate_witness :
  (1 <= FinalVersion.VERIFY_TOTAL_CHECKS gate_30_4)%nat /\
  FinalVersion.TARGET_RSSI gate_30_4 <= -47 /\
  (length thirty_samples <= FinalVersion.VERIFY_TOTAL_CHECKS gate_30_4)%nat /\
  let c0 := fst (FinalVersion.handle_approach gate_30_4
                   (FinalVersion.init 0) (-47) 0) in
  let c' := FinalVersion.verify_feed gate_30_4 c0 thirty_samples 0 in
  gate_contract 30 4 (-48.5) thirty_samples
    (FinalVersion.state c') (FinalVersion.verify_counter c')
    (FinalVersion.verify_hits c').
Proof.
  assert (H1 : (1 <= FinalVersion.VERIFY_TOTAL_CHECKS gate_30_4)%nat)
    by (simpl; lia).
  assert (H2 : FinalVersion.TARGET_RSSI gate_30_4 <= -47)
    by (vm_compute; discriminate).
  assert (H3 : (length thirty_samples
                <= FinalVersion.VERIFY_TOTAL_CHECKS gate_30_4)%nat)
    by (simpl; lia).
  split; [exact H1 | split; [exact H2 | split; [exact H3 |]]].
  exact (verification_gate gate_30_4 (FinalVersion.init 0) (-47) 0 0
           thirty_samples H1 H2 H3).
Defined.

(** The run of the scenario, evaluated: in VERIFY with 29 checks and 4 hits
    after the 29th sample, in FINISH with 30 checks and 5 hits after the
    30th. *)
Example thirty_samples_run :
  let c0 := fst (FinalVersion.handle_approach gate_30_4
                   (FinalVersion.init 0) (-47) 0) in
  let c29 := FinalVersion.verify_feed gate_30_4 c0 (firstn 29 thirty_samples) 0 in
  let c30 := FinalVersion.verify_feed gate_30_4 c0 thirty_samples 0 in
  hits (-48.5) thirty_samples = 5%nat /\
  (FinalVersion.state c29, FinalVersion.verify_counter c29,
   FinalVersion.verify_hits c29) = (VERIFY, 29%nat, 4%nat) /\
  (FinalVersion.state c30, FinalVersion.verify_counter c30,
   FinalVersion.verify_hits c30) = (FINISH, 30%nat, 5%nat).
Proof. vm_compute. repeat split. Qed.

(** ** The obstacle monitor ([check_obstacle]) *)

Lemma streak_snoc {A} (p : A -> bool) ds d :
  streak p (ds ++ [d]) = if p d then S (streak p ds) else 0%nat.
Proof. unfold streak. rewrite rev_app_distr. reflexivity. Qed.

Lemma firstn_snoc_short {A} (l : list A) a k :
  (k <= length l)%nat -> firstn k (l ++ [a]) = firstn k l.
Proof.
  intros H. rewrite firstn_app.
  replace (k - length l)%nat with 0%nat by lia.
  simpl. apply app_nil_r.
Qed.

Section MonitorFinalVersion.

Import FinalVersion.
Variable cfg : Config.

Lemma fv_obstacle_feed_snoc ds : forall c d,
  obstacle_feed cfg c (ds ++ [d])
  = let '(c1, rs) := obstacle_feed cfg c ds in
    let '(c2, r) := check_obstacle cfg c1 d in
    (c2, rs ++ [r]).
Proof.
  induction ds as [| a ds IH]; intros c d; cbn [obstacle_feed app].
  - destruct (check_obstacle cfg c d). reflexivity.
  - destruct (check_obstacle cfg c a) as [c1 r1].
    rewrite IH.
    destruct (obstacle_feed cfg c1 ds) as [c2 rs].
    destruct (check_obstacle cfg c2 d). reflexivity.
Qed.

Lemma fv_obstacle_feed_length ds : forall c,
  length (snd (obstacle_feed cfg c ds)) = length ds.
Proof.
  induction ds as [| a ds IH]; intros c; cbn [obstacle_feed]; [reflexivity |].
  destruct (check_obstacle cfg c a) as [c1 r1].
  specialize (IH c1). destruct (obstacle_feed cfg c1 ds). simpl in *. lia.
Qed.

(** The counter is the current streak of close readings. *)
Lemma fv_counter_is_streak ds : forall c,
  obstacle_counter c = 0%nat ->
  obstacle_counter (fst (obstacle_feed cfg c ds)) = streak (close cfg) ds.
Proof.
  induction ds as [| d ds IH] using rev_ind; intros c Hc.
  - exact Hc.
  - rewrite fv_obstacle_feed_snoc, streak_snoc.
    specialize (IH c Hc).
    destruct (obstacle_feed cfg c ds) as [c1 rs]. simpl in IH.
    unfold check_obstacle. destruct (close cfg d); simpl; lia.
Qed.

Lemma fv_returns_follow_streak ds : forall c k r,
  obstacle_counter c = 0%nat ->
  nth_error (snd (obstacle_feed cfg c ds)) k = Some r ->
  r = (2 <=? streak (close cfg) (firstn (S k) ds))%nat.
Proof.
  induction ds as [| d ds IH] using rev_ind; intros c k r Hc Hk.
  - destruct k; discriminate.
  - pose proof (fv_counter_is_streak (ds ++ [d]) c Hc) as Hlast.
    pose proof (fv_obstacle_feed_length ds c) as Hlen.
    rewrite fv_obstacle_feed_snoc in Hk, Hlast.
    specialize (IH c).
    destruct (obstacle_feed cfg c ds) as [c1 rs]. simpl in Hlen, IH.
    destruct (check_obstacle cfg c1 d) as [c2 r2] eqn:E. simpl in Hk, Hlast.
    destruct (Nat.lt_ge_cases k (length ds)) as [Hlt | Hge].
    + rewrite nth_error_app1 in Hk by lia.
      rewrite firstn_snoc_short by lia. apply IH; assumption.
    + assert (Hkn : nth_error (rs ++ [r2]) k <> None) by congruence.
      apply nth_error_Some in Hkn. rewrite length_app in Hkn. simpl in Hkn.
      assert (k = length ds) by lia. subst k.
      rewrite nth_error_app2 in Hk by lia.
      replace (length ds - length rs)%nat with 0%nat in Hk by lia.
      simpl in Hk. injection Hk as <-.
      rewrite firstn_all2 by (rewrite length_app; simpl; lia).
      rewrite <- Hlast. unfold check_obstacle in E. injection E as <- <-.
      reflexivity.
Qed.

(** After one reading from a zero counter, readings that are not close keep
    the monitor silent. *)
Lemma fv_single_reading_silent fars : forall c,
  (obstacle_counter c <= 1)%nat ->
  Forall (fun f => close cfg f = false) fars ->
  Forall (fun r => r = false) (snd (obstacle_feed cfg c fars)).
Proof.
  induction fars as [| f fars IH]; intros c Hc Hf; cbn [obstacle_feed].
  - constructor.
  - inversion Hf as [| ? ? Hf1 Hf2]; subst.
    unfold check_obstacle. rewrite Hf1.
    specialize (IH (set_obstacle_counter 0 c)).
    destruct (obstacle_feed cfg (set_obstacle_counter 0 c) fars) as [c2 rs].
    simpl in *. constructor; [reflexivity | apply IH; [lia | assumption]].
Qed.

End MonitorFinalVersion.

Section MonitorWifiBot3.

Import WifiBot3.
Variable cfg : Config.

Lemma wb_obstacle_feed_snoc ds : forall c d,
  obstacle_feed cfg c (ds ++ [d])
  = let '(c1, rs) := obstacle_feed cfg c ds in
    let '(c2, r) := check_obstacle cfg c1 d in
    (c2, rs ++ [r]).
Proof.
  induction ds as [| a ds IH]; intros c d; cbn [obstacle_feed app].
  - destruct (check_obstacle cfg c d). reflexivity.
  - destruct (check_obstacle cfg c a) as [c1 r1].
    rewrite IH.
    destruct (obstacle_feed cfg c1 ds) as [c2 rs].
    destruct (check_obstacle cfg c2 d). reflexivity.
Qed.

Lemma wb_obstacle_feed_length ds : forall c,
  length (snd (obstacle_feed cfg c ds)) = length ds.
Proof.
  induction ds as [| a ds IH]; intros c; cbn [obstacle_feed]; [reflexivity |].
  destruct (check_obstacle cfg c a) as [c1 r1].
  specialize (IH c1). destruct (obstacle_feed cfg c1 ds). simpl in *. lia.
Qed.

(** The counter is the current streak of close readings. *)
Lemma wb_counter_is_streak ds : forall c,
  obstacle_counter c = 0%nat ->
  obstacle_counter (fst (obstacle_feed cfg c ds)) = streak (close cfg) ds.
Proof.
  induction ds as [| d ds IH] using rev_ind; intros c Hc.
  - exact Hc.
  - rewrite wb_obstacle_feed_snoc, streak_snoc.
    specialize (IH c Hc).
    destruct (obstacle_feed cfg c ds) as [c1 rs]. simpl in IH.
    unfold check_obstacle. destruct (close cfg d); simpl; lia.
Qed.

Lemma wb_returns_follow_streak ds : forall c k r,
  obstacle_counter c = 0%nat ->
  nth_error (snd (obstacle_feed cfg c ds)) k = Some r ->
  r = (2 <=? streak (close cfg) (firstn (S k) ds))%nat.
Proof.
  induction ds as [| d ds IH] using rev_ind; intros c k r Hc Hk.
  - destruct k; discriminate.
  - pose proof (wb_counter_is_streak (ds ++ [d]) c Hc) as Hlast.
    pose proof (wb_obstacle_feed_length ds c) as Hlen.
    rewrite wb_obstacle_feed_snoc in Hk, Hlast.
    specialize (IH c).
    destruct (obstacle_feed cfg c ds) as [c1 rs]. simpl in Hlen, IH.
    destruct (check_obstacle cfg c1 d) as [c2 r2] eqn:E. simpl in Hk, Hlast.
    destruct (Nat.lt_ge_cases k (length ds)) as [Hlt | Hge].
    + rewrite nth_error_app1 in Hk by lia.
      rewrite firstn_snoc_short by lia. apply IH; assumption.
    + assert (Hkn : nth_error (rs ++ [r2]) k <> None) by congruence.
      apply nth_error_Some in Hkn. rewrite length_app in Hkn. simpl in Hkn.
      assert (k = length ds) by lia. subst k.
      rewrite nth_error_app2 in Hk by lia.
      replace (length ds - length rs)%nat with 0%nat in Hk by lia.
      simpl in Hk. injection Hk as <-.
      rewrite firstn_all2 by (rewrite length_app; simpl; lia).
      rewrite <- Hlast. unfold check_obstacle in E. injection E as <- <-.
      reflexivity.
Qed.

(** After one reading from a zero counter, readings that are not close keep
    the monitor silent. *)
Lemma wb_single_reading_silent fars : forall c,
  (obstacle_counter c <= 1)%nat ->
  Forall (fun f => close cfg f = false) fars ->
  Forall (fun r => r = false) (snd (obstacle_feed cfg c fars)).
Proof.
  induction fars as [| f fars IH]; intros c Hc Hf; cbn [obstacle_feed].
  - constructor.
  - inversion Hf as [| ? ? Hf1 Hf2]; subst.
    unfold check_obstacle. rewrite Hf1.
    specialize (IH (set_obstacle_counter 0 c)).
    destruct (obstacle_feed cfg (set_obstacle_counter 0 c) fars) as [c2 rs].
    simpl in *. constructor; [reflexivity | apply IH; [lia | assumption]].
Qed.

End MonitorWifiBot3.

Lemma fv_close_spec cfg dist :
  FinalVersion.close cfg dist = true <->
  exists d, dist = Some d /\ 0 < d /\ d < FinalVersion.OBSTACLE_DIST_CM cfg.
Proof.
  unfold FinalVersion.close. destruct dist as [d |].
  - rewrite !andb_true_iff, !ltb_true. unfold Py.truthy.
    rewrite negb_true_iff, <- not_true_iff_false, Qeq_bool_iff.
    split.
    + intros [[_ H0] HT]. exists d. auto.
    + intros (d' & E & H0 & HT). injection E as <-.
      repeat split; try assumption. intros Hz. rewrite Hz in H0.
      exact (Qlt_irrefl 0 H0).
  - split; [discriminate | intros (d & E & _); discriminate].
Qed.

Lemma wb_close_spec cfg dist :
  WifiBot3.close cfg dist = true <->
  exists d, dist = Some d /\ 0 < d /\ d < WifiBot3.OBSTACLE_DIST_CM cfg.
Proof.
  unfold WifiBot3.close. destruct dist as [d |].
  - rewrite !andb_true_iff, !ltb_true. unfold Py.truthy.
    rewrite negb_true_iff, <- not_true_iff_false, Qeq_bool_iff.
    split.
    + intros [[_ H0] HT]. exists d. auto.
    + intros (d' & E & H0 & HT). injection E as <-.
      repeat split; try assumption. intros Hz. rewrite Hz in H0.
      exact (Qlt_irrefl 0 H0).
  - split; [discriminate | intros (d & E & _); discriminate].
Qed.

(** C4 (final_version.py).  Started with its counter at zero, the obstacle
    monitor returns true exactly when the readings with
    0 < distance < OBSTACLE_DIST_CM that end at the current reading are at
    least 2 in a row (2 is its debounce threshold); a single reading followed
    by readings outside that range never returns true, and 2 readings in a
    row inside it return true on the 2nd. *)
Theorem obstacle_monitor_debounce (cfg : FinalVersion.Config)
  (c : FinalVersion.Controller) :
  FinalVersion.obstacle_counter c = 0%nat ->
  debounce_contract (FinalVersion.OBSTACLE_DIST_CM cfg)
    (FinalVersion.close cfg) (FinalVersion.obstacle_feed cfg)
    (FinalVersion.check_obstacle cfg) c.
Proof.
  intros Hc. unfold debounce_contract. repeat split.
  - apply fv_close_spec.
  - apply fv_close_spec.
  - intros ds k r. apply fv_returns_follow_streak. exact Hc.
  - intros d fars Hf. cbn [FinalVersion.obstacle_feed].
    destruct (FinalVersion.check_obstacle cfg c d) as [c1 r] eqn:E.
    assert (Hc1 : (FinalVersion.obstacle_counter c1 <= 1)%nat /\ r = false).
    { unfold FinalVersion.check_obstacle in E. injection E as <- <-.
      destruct (FinalVersion.close cfg d); simpl; rewrite ?Hc; split;
        (reflexivity || lia). }
    pose proof (fv_single_reading_silent cfg fars c1 (proj1 Hc1) Hf) as H.
    destruct (FinalVersion.obstacle_feed cfg c1 fars) as [c2 rs]. simpl in *.
    constructor; [apply Hc1 | exact H].
  - intros c1 d1 d2 H1 H2. unfold FinalVersion.check_obstacle.
    rewrite H1, H2. cbn [snd fst FinalVersion.obstacle_counter
                          FinalVersion.set_obstacle_counter].
    apply Nat.leb_le. lia.
Qed.

Lemma obstacle_monitor_debounce_witness :
  FinalVersion.obstacle_counter (FinalVersion.init 0) = 0%nat /\
  debounce_contract 25
    (FinalVersion.close FinalVersion.settings)
    (FinalVersion.obstacle_feed FinalVersion.settings)
    (FinalVersion.check_obstacle FinalVersion.settings) (FinalVersion.init 0).
Proof.
  split; [reflexivity |].
  apply (obstacle_monitor_debounce FinalVersion.settings (FinalVersion.init 0)).
  reflexivity.
Defined.

(** The same monitor in wifi_bot3.py. *)
Lemma obstacle_monitor_debounce_wifi_bot3 (cfg : WifiBot3.Config)
  (c : WifiBot3.Controller) :
  WifiBot3.obstacle_counter c = 0%nat ->
  debounce_contract (WifiBot3.OBSTACLE_DIST_CM cfg)
    (WifiBot3.close cfg) (WifiBot3.obstacle_feed cfg)
    (WifiBot3.check_obstacle cfg) c.
Proof.
  intros Hc. unfold debounce_contract. repeat split.
  - apply wb_close_spec.
  - apply wb_close_spec.
  - intros ds k r. apply wb_returns_follow_streak. exact Hc.
  - intros d fars Hf. cbn [WifiBot3.obstacle_feed].
    destruct (WifiBot3.check_obstacle cfg c d) as [c1 r] eqn:E.
    assert (Hc1 : (WifiBot3.obstacle_counter c1 <= 1)%nat /\ r = false).
    { unfold WifiBot3.check_obstacle in E. injection E as <- <-.
      destruct (WifiBot3.close cfg d); simpl; rewrite ?Hc; split;
        (reflexivity || lia). }
    pose proof (wb_single_reading_silent cfg fars c1 (proj1 Hc1) Hf) as H.
    destruct (WifiBot3.obstacle_feed cfg c1 fars) as [c2 rs]. simpl in *.
    constructor; [apply Hc1 | exact H].
  - intros c1 d1 d2 H1 H2. unfold WifiBot3.check_obstacle.
    rewrite H1, H2. cbn [snd fst WifiBot3.obstacle_counter
                          WifiBot3.set_obstacle_counter].
    apply Nat.leb_le. lia.
Qed.

(** The readings 40, 40, 15, 15, 15 cm: the monitor of final_version.py
    confirms the obstacle on the 4th, the second close reading in a row. *)
Example monitor_40_40_15_15_15 :
  snd (FinalVersion.obstacle_feed FinalVersion.settings (FinalVersion.init 0)
         [Some 40; Some 40; Some 15; Some 15; Some 15])
  = [false; false; false; true; true].
Proof. reflexivity. Qed.

(** ** Readings outside (0, OBSTACLE_DIST_CM) *)

Lemma fv_out_of_range_not_close cfg dist :
  out_of_range (FinalVersion.OBSTACLE_DIST_CM cfg) dist ->
  FinalVersion.close cfg dist = false.
Proof.
  intros H. apply not_true_iff_false. rewrite fv_close_spec.
  intros (d & -> & H0 & HT). simpl in H. destruct H as [H | H].
  - exact (Qlt_irrefl 0 (Qlt_le_trans _ _ _ H0 H)).
  - exact (Qlt_irrefl d (Qlt_le_trans _ _ _ HT H)).
Qed.

Lemma t25_out_of_range_not_close dist :
  out_of_range Test25.OBSTACLE_DIST_CM dist -> Test25.close dist = false.
Proof.
  destruct dist as [d |]; simpl; [| reflexivity].
  intros [H | H]; apply andb_false_iff.
  - left. apply gtb_false. exact H.
  - right. apply ltb_false. exact H.
Qed.

(** C5, as the code has it.  A distance of 0 (as any missing or non-positive
    reading, and any reading at or above OBSTACLE_DIST_CM: there is no upper
    ceiling) is never counted as close: it does not increment the debounce
    counter.  It is not left out of the count either: it takes the [else]
    branch, which resets the counter to 0, in [check_obstacle] of
    final_version.py (which then returns false) and in the obstacle filter of
    test25.py (which runs in every state but FINISH and VERIFY). *)
Theorem out_of_range_reading_resets (cfg : FinalVersion.Config)
  (c : FinalVersion.Controller) (c25 : Test25.Controller) (dist : option Q) :
  out_of_range (FinalVersion.OBSTACLE_DIST_CM cfg) dist ->
  out_of_range Test25.OBSTACLE_DIST_CM dist ->
  Test25.state c25 <> FINISH -> Test25.state c25 <> VERIFY ->
  FinalVersion.check_obstacle cfg c dist
  = (FinalVersion.set_obstacle_counter 0 c, false) /\
  Test25.obstacle_filter c25 dist = Test25.set_obstacle_counter 0 c25.
Proof.
  intros Hfv H25 HF HV. split.
  - unfold FinalVersion.check_obstacle.
    rewrite (fv_out_of_range_not_close cfg dist Hfv). reflexivity.
  - unfold Test25.obstacle_filter.
    rewrite (t25_out_of_range_not_close dist H25).
    destruct (Test25.state c25); try contradiction; reflexivity.
Qed.

Lemma out_of_range_reading_resets_witness :
  out_of_range (FinalVersion.OBSTACLE_DIST_CM FinalVersion.settings) (Some 0) /\
  out_of_range Test25.OBSTACLE_DIST_CM (Some 0) /\
  Test25.state Test25.init <> FINISH /\ Test25.state Test25.init <> VERIFY /\
  FinalVersion.check_obstacle FinalVersion.settings (FinalVersion.init 0) (Some 0)
  = (FinalVersion.set_obstacle_counter 0 (FinalVersion.init 0), false) /\
  Test25.obstacle_filter Test25.init (Some 0)
  = Test25.set_obstacle_counter 0 Test25.init.
Proof.
  assert (H1 : out_of_range
                 (FinalVersion.OBSTACLE_DIST_CM FinalVersion.settings) (Some 0))
    by (left; vm_compute; discriminate).
  assert (H2 : out_of_range Test25.OBSTACLE_DIST_CM (Some 0))
    by (left; vm_compute; discriminate).
  assert (H3 : Test25.state Test25.init <> FINISH) by (simpl; discriminate).
  assert (H4 : Test25.state Test25.init <> VERIFY) by (simpl; discriminate).
  split; [exact H1 | split; [exact H2 | split; [exact H3 | split; [exact H4 |]]]].
  exact (out_of_range_reading_resets FinalVersion.settings (FinalVersion.init 0)
           Test25.init (Some 0) H1 H2 H3 H4).
Defined.

(** C5 as stated fails.  After one close reading (15 cm) the counter of
    final_version.py stands at 1; a reading of 0 then puts it back to 0
    rather than leaving it alone, and so does a reading of 100000 cm; hence
    15, 0, 15 does not confirm an obstacle, which it would if the 0 were left
    out of both branches.  The obstacle filter of test25.py resets in the same
    way. *)
Lemma zero_reading_is_not_excluded :
  let cfg := FinalVersion.settings in
  let c1 := fst (FinalVersion.check_obstacle cfg (FinalVersion.init 0) (Some 15)) in
  FinalVersion.obstacle_counter c1 = 1%nat /\
  FinalVersion.obstacle_counter
    (fst (FinalVersion.check_obstacle cfg c1 (Some 0))) = 0%nat /\
  FinalVersion.obstacle_counter
    (fst (FinalVersion.check_obstacle cfg c1 (Some 100000))) = 0%nat /\
  snd (FinalVersion.obstacle_feed cfg (FinalVersion.init 0)
         [Some 15; Some 0; Some 15]) = [false; false; false] /\
  snd (FinalVersion.obstacle_feed cfg (FinalVersion.init 0)
         [Some 15; Some 15]) = [false; true] /\
  let d1 := Test25.obstacle_filter Test25.init (Some 15) in
  Test25.obstacle_counter d1 = 1%nat /\
  Test25.obstacle_counter (Test25.obstacle_filter d1 (Some 0)) = 0%nat.
Proof. vm_compute. repeat split. Qed.

(** ** Burst sampling ([get_averaged_rssi]) *)

Lemma insert_perm a l : Permutation (Py.insert a l) (a :: l).
Proof.
  induction l as [| b l IH]; simpl; [apply Permutation_refl |].
  destruct (Py.leb a b); [apply Permutation_refl |].
  apply perm_trans with (b :: a :: l); [| apply perm_swap].
  apply perm_skip. exact IH.
Qed.

Lemma sort_perm l : Permutation (Py.sort l) l.
Proof.
  induction l as [| a l IH]; simpl; [apply perm_nil |].
  apply perm_trans with (a :: Py.sort l); [apply insert_perm |].
  apply perm_skip. exact IH.
Qed.

Lemma sort_length l : length (Py.sort l) = length l.
Proof. apply Permutation_length, sort_perm. Qed.

Lemma insert_sorted a l : Sorted Qle l -> Sorted Qle (Py.insert a l).
Proof.
  induction 1 as [| b l Hs IH Hb]; simpl.
  - repeat constructor.
  - destruct (Py.leb a b) eqn:E.
    + apply leb_true in E. repeat constructor; assumption.
    + apply leb_false in E. constructor; [exact IH |].
      destruct l as [| b' l']; simpl.
      * constructor. apply Qlt_le_weak, E.
      * inversion Hb; subst.
        destruct (Py.leb a b'); constructor;
          [apply Qlt_le_weak, E | assumption].
Qed.

(** [sort] leaves the readings in ascending order. *)
Lemma sort_sorted l : Sorted Qle (Py.sort l).
Proof.
  induction l as [| a l IH]; simpl; [constructor | apply insert_sorted, IH].
Qed.

Lemma fold_plus_shift l : forall x, fold_left Qplus l x == x + fold_left Qplus l 0.
Proof.
  induction l as [| a l IH]; intros x; simpl.
  - ring.
  - rewrite (IH (x + a)), (IH (0 + a)). ring.
Qed.

Lemma sum_cons a l : Py.sum (a :: l) == a + Py.sum l.
Proof. unfold Py.sum. simpl. rewrite fold_plus_shift. ring. Qed.

Lemma sum_perm l l' : Permutation l l' -> Py.sum l == Py.sum l'.
Proof.
  induction 1 as [| a l l' _ IH | a b l | l l' l'' _ IH1 _ IH2].
  - reflexivity.
  - rewrite !sum_cons, IH. reflexivity.
  - rewrite !sum_cons. ring.
  - rewrite IH1. exact IH2.
Qed.

(** The mean does not depend on the order of the readings. *)
Lemma mean_perm l l' : Permutation l l' -> Py.mean l == Py.mean l'.
Proof.
  intros H. unfold Py.mean, Py.len.
  rewrite (sum_perm l l' H), (Permutation_length H). reflexivity.
Qed.

(** [int(len(readings) * 0.1)] is the tenth of the length, rounded down. *)
Lemma trim_amt_tenth {A} (l : list A) :
  Py.int (Py.len l * 0.1) = Z.of_nat (length l / 10).
Proof.
  unfold Py.int, Py.len. cbn [Qnum Qden Qmult inject_Z Pos.mul].
  rewrite Z.mul_1_r, Z.quot_div_nonneg by lia.
  rewrite (Nat2Z.inj_div (length l) 10). reflexivity.
Qed.

Lemma slice_both_length {A} k (l : list A) :
  length (Py.slice_both k l) = (length l - k - k)%nat.
Proof.
  unfold Py.slice_both. rewrite length_skipn, length_firstn. lia.
Qed.

Lemma collect_nonempty_some l :
  l <> [] -> forall (f : list Q -> Q),
  match l with [] => None | _ => Some (f l) end = Some (f l).
Proof. destruct l; [congruence | reflexivity]. Qed.

Lemma kept_length readings :
  length (kept readings)
  = (length readings - length readings / 10 - length readings / 10)%nat.
Proof.
  unfold kept. destruct (0 <? length readings / 10)%nat eqn:E.
  - rewrite slice_both_length, sort_length. reflexivity.
  - apply Nat.ltb_ge in E. rewrite sort_length. lia.
Qed.

Lemma get_averaged_rssi_at_least_5 reads :
  (5 <= length (WiFiSensor.collect reads))%nat ->
  WiFiSensor.get_averaged_rssi reads
  = Some (Py.mean (kept (WiFiSensor.collect reads))).
Proof.
  intros H5. unfold WiFiSensor.get_averaged_rssi.
  set (readings := WiFiSensor.collect reads) in *.
  destruct readings as [| r0 rs] eqn:Er; [simpl in H5; lia |].
  rewrite <- Er in *. clear Er r0 rs.
  apply Nat.leb_le in H5 as H5b. rewrite H5b.
  rewrite trim_amt_tenth, sort_length.
  assert (Ek : (if (0 <? Z.of_nat (length readings / 10))%Z
                then Py.slice_both (Z.to_nat (Z.of_nat (length readings / 10)))
                       (Py.sort readings)
                else Py.sort readings) = kept readings).
  { unfold kept. rewrite Nat2Z.id.
    destruct (0 <? length readings / 10)%nat eqn:E.
    - apply Nat.ltb_lt in E.
      destruct (0 <? Z.of_nat (length readings / 10))%Z eqn:E'; [reflexivity |].
      apply Z.ltb_ge in E'. lia.
    - apply Nat.ltb_ge in E.
      destruct (0 <? Z.of_nat (length readings / 10))%Z eqn:E'; [| reflexivity].
      apply Z.ltb_lt in E'. lia. }
  rewrite Ek.
  apply collect_nonempty_some.
  intros Hnil. pose proof (kept_length readings) as L. rewrite Hnil in L.
  change (length (@nil Q)) with 0%nat in L.
  assert (length readings / 10 * 10 <= length readings)%nat
    by (rewrite Nat.mul_comm; apply Nat.Div0.mul_div_le).
  lia.
Qed.

Lemma slice_both_nth {A} k (l : list A) i :
  (i < length l - k - k)%nat ->
  nth_error (Py.slice_both k l) i = nth_error l (k + i).
Proof.
  intros H. unfold Py.slice_both.
  rewrite nth_error_skipn, nth_error_firstn.
  destruct (k + i <? length l - k)%nat eqn:E; [reflexivity |].
  apply Nat.ltb_ge in E. lia.
Qed.

Lemma kept_nth readings i :
  (i < length readings - length readings / 10 - length readings / 10)%nat ->
  nth_error (kept readings) i
  = nth_error (Py.sort readings) (length readings / 10 + i).
Proof.
  intros H. unfold kept. destruct (0 <? length readings / 10)%nat eqn:E.
  - apply slice_both_nth. rewrite sort_length. exact H.
  - apply Nat.ltb_ge in E.
    replace (length readings / 10)%nat with 0%nat by lia. reflexivity.
Qed.

Lemma kept_all_below_10 readings :
  (length readings < 10)%nat -> kept readings = Py.sort readings.
Proof.
  intros H. unfold kept. rewrite (Nat.div_small _ _ H). reflexivity.
Qed.

(** C6, as the code has it.  For a burst with [n >= 5] valid readings,
    [get_averaged_rssi] sorts them ascending and averages the sorted readings
    without the [n / 10] smallest and the [n / 10] largest ([int(n * 0.1)]
    from each end).  For [5 <= n <= 9] that discards nothing and the estimate
    is the plain mean of the valid readings; from [n = 10] on at least one
    reading goes at each end. *)
Theorem burst_trims_a_tenth (reads : list (option Q)) :
  let readings := WiFiSensor.collect reads in
  let n := length readings in
  let k := (n / 10)%nat in
  (5 <= n)%nat ->
  Sorted Qle (Py.sort readings) /\
  Permutation (Py.sort readings) readings /\
  WiFiSensor.get_averaged_rssi reads = Some (Py.mean (kept readings)) /\
  length (kept readings) = (n - k - k)%nat /\
  (forall i, (i < n - k - k)%nat ->
     nth_error (kept readings) i = nth_error (Py.sort readings) (k + i)) /\
  ((n < 10)%nat -> k = 0%nat /\ Py.mean (kept readings) == Py.mean readings) /\
  ((10 <= n)%nat -> (1 <= k)%nat).
Proof.
  intros readings n k H5. repeat split.
  - apply sort_sorted.
  - apply sort_perm.
  - apply get_averaged_rssi_at_least_5. exact H5.
  - apply kept_length.
  - intros i Hi. apply kept_nth. exact Hi.
  - apply Nat.div_small. assumption.
  - rewrite kept_all_below_10 by assumption. apply mean_perm, sort_perm.
  - intros H10. apply (Nat.div_le_lower_bound n 10 1); lia.
Qed.

Lemma burst_trims_a_tenth_witness :
  let reads := [Some (-52); Some (-90); None; Some (-49); Some (-51); Some (-50);
                Some (-48); Some (-53); Some (-20); Some (-50); Some (-51);
                Some (-49)] in
  let readings := WiFiSensor.collect reads in
  let n := length readings in
  let k := (n / 10)%nat in
  (5 <= n)%nat /\
  (Sorted Qle (Py.sort readings) /\
   Permutation (Py.sort readings) readings /\
   WiFiSensor.get_averaged_rssi reads = Some (Py.mean (kept readings)) /\
   length (kept readings) = (n - k - k)%nat /\
   (forall i, (i < n - k - k)%nat ->
      nth_error (kept readings) i = nth_error (Py.sort readings) (k + i)) /\
   ((n < 10)%nat -> k = 0%nat /\ Py.mean (kept readings) == Py.mean readings) /\
   ((10 <= n)%nat -> (1 <= k)%nat)).
Proof.
  intros reads readings n k.
  assert (H5 : (5 <= n)%nat) by (vm_compute; lia).
  split; [exact H5 |].
  exact (burst_trims_a_tenth reads H5).
Defined.

(** A burst of 11 valid readings with two outliers: one reading is dropped
    at each end and the estimate is the mean of the other nine. *)
Example burst_of_11 :
  let reads := [Some (-52); Some (-90); None; Some (-49); Some (-51); Some (-50);
                Some (-48); Some (-53); Some (-20); Some (-50); Some (-51);
                Some (-49)] in
  kept (WiFiSensor.collect reads)
  = [-53; -52; -51; -51; -50; -50; -49; -49; -48] /\
  exists m, WiFiSensor.get_averaged_rssi reads = Some m /\ m == -453 / 9.
Proof.
  split; [reflexivity |]. eexists. split; [reflexivity |].
  vm_compute. reflexivity.
Qed.

(** C6 as stated fails.  Five valid readings, one of them an outlier at -90:
    the estimate is their plain mean, -58; nothing was discarded.  Leaving
    out one reading at each end (or two) would give -50. *)
Lemma five_readings_are_not_trimmed :
  let reads := [Some (-50); Some (-90); Some (-50); Some (-50); Some (-50)] in
  let readings := WiFiSensor.collect reads in
  length readings = 5%nat /\
  Py.sort readings = [-90; -50; -50; -50; -50] /\
  WiFiSensor.get_averaged_rssi reads = Some (Py.mean (Py.sort readings)) /\
  Py.mean (Py.sort readings) == -58 /\
  Py.mean (Py.sort readings) == Py.mean readings /\
  Py.mean (Py.slice_both 1 (Py.sort readings)) == -50 /\
  Py.mean (Py.slice_both 2 (Py.sort readings)) == -50 /\
  ~ Py.mean (Py.sort readings) == -50.
Proof.
  vm_compute. repeat split; intros H; discriminate H.
Qed.

(** ** Transitions of the state machine of final_version.py *)

Section TransitionsFinalVersion.

Import FinalVersion.
Variable cfg : Config.

(** A pass with a reading that is not close, outside FINISH: the monitor
    resets its counter and the branch of the state runs. *)
Lemma pass_without_obstacle c s d t :
  close cfg d = false -> state c <> FINISH ->
  iteration cfg c (mkInput (Some s) d t)
  = let c := set_obstacle_counter 0 c in
    match state c with
    | SEARCH =>
        let '(c, out) := handle_search cfg c s t in
        (set_prev_avg_rssi s c, out, Next)
    | APPROACH =>
        let '(c, out) := handle_approach cfg c s (s - prev_avg_rssi c) in
        (set_prev_avg_rssi s c, out, Next)
    | VERIFY =>
        let '(c, out) := handle_verify cfg c s t in
        (set_prev_avg_rssi s c, out, Next)
    | FINISH => (c, [stop; stop; sleep 5], Break)
    | AVOID => (set_prev_avg_rssi s c, [], Next)
    end.
Proof.
  intros Hd Hst. unfold iteration, check_obstacle.
  cbn [curr_rssi dist now]. rewrite Hd.
  destruct (state c) eqn:E; try contradiction; reflexivity.
Qed.

(** SEARCH stays SEARCH while the signal is at or below APPROACH_THRESHOLD. *)
Lemma pass_search_stays c s d t :
  state c = SEARCH -> close cfg d = false -> s <= APPROACH_THRESHOLD cfg ->
  exists c' out,
    iteration cfg c (mkInput (Some s) d t) = (c', out, Next) /\
    state c' = SEARCH.
Proof.
  intros Hst Hd Hs.
  rewrite pass_without_obstacle by (congruence || assumption).
  cbn zeta. cbn [state set_obstacle_counter]. rewrite Hst.
  unfold handle_search. apply gtb_false in Hs. rewrite Hs.
  match goal with
  | |- context [if ?b then _ else _] => destruct b
  end; do 2 eexists; (split; [reflexivity | exact Hst]).
Qed.

(** SEARCH -> APPROACH once the signal exceeds APPROACH_THRESHOLD. *)
Lemma pass_search_to_approach c s d t :
  state c = SEARCH -> close cfg d = false -> APPROACH_THRESHOLD cfg < s ->
  exists c' out,
    iteration cfg c (mkInput (Some s) d t) = (c', out, Next) /\
    state c' = APPROACH.
Proof.
  intros Hst Hd Hs.
  rewrite pass_without_obstacle by (congruence || assumption).
  cbn zeta. cbn [state set_obstacle_counter]. rewrite Hst.
  unfold handle_search. apply gtb_true in Hs. rewrite Hs.
  do 2 eexists. split; reflexivity.
Qed.

(** APPROACH -> VERIFY on the first signal at or above TARGET_RSSI, with the
    gate's counters at zero. *)
Lemma pass_approach_to_verify c s d t :
  state c = APPROACH -> close cfg d = false -> TARGET_RSSI cfg <= s ->
  exists c' out,
    iteration cfg c (mkInput (Some s) d t) = (c', out, Next) /\
    state c' = VERIFY /\ verify_counter c' = 0%nat /\ verify_hits c' = 0%nat.
Proof.
  intros Hst Hd Hs.
  rewrite pass_without_obstacle by (congruence || assumption).
  cbn zeta. cbn [state set_obstacle_counter]. rewrite Hst.
  unfold handle_approach. apply geb_true in Hs. rewrite Hs.
  do 2 eexists. repeat split; reflexivity.
Qed.

(** VERIFY stays VERIFY before the last check. *)
Lemma pass_verify_continues c s d t :
  state c = VERIFY -> close cfg d = false ->
  (verify_counter c + 1 < VERIFY_TOTAL_CHECKS cfg)%nat ->
  exists c' out,
    iteration cfg c (mkInput (Some s) d t) = (c', out, Next) /\
    state c' = VERIFY /\ verify_counter c' = (verify_counter c + 1)%nat.
Proof.
  intros Hst Hd Hn.
  rewrite pass_without_obstacle by (congruence || assumption).
  cbn zeta. cbn [state set_obstacle_counter]. rewrite Hst.
  destruct (fv_handle_verify_step cfg (set_obstacle_counter 0 c) s t)
    as (A & B & C).
  destruct (handle_verify cfg (set_obstacle_counter 0 c) s t) as [c1 out].
  cbn [fst] in A, B, C. cbn [verify_counter set_obstacle_counter] in A.
  do 2 eexists. split; [reflexivity |].
  cbn [state verify_counter set_prev_avg_rssi]. split; [| exact A].
  rewrite C, A.
  apply Nat.leb_gt in Hn. rewrite Hn. exact Hst.
Qed.

End TransitionsFinalVersion.

(** A comparison of two given numbers. *)
Ltac qcmp := vm_compute; (reflexivity || discriminate).

Lemma run_cons_next cfg c i c' out rest :
  FinalVersion.iteration cfg c i = (c', out, Next) ->
  FinalVersion.run cfg c (i :: rest) = c' :: FinalVersion.run cfg c' rest.
Proof. intros E. cbn [FinalVersion.run]. rewrite E. reflexivity. Qed.

(** C9, as the code has it.  The signal sequence
    -70, -68, -60, -52, -44, -44, -44, -44 fed pass by pass to a controller
    in SEARCH, with APPROACH_THRESHOLD = -55, TARGET_RSSI = -46 and no
    reading of the rangefinder close: the controller moves
    SEARCH -> APPROACH on the 4th sample and APPROACH -> VERIFY on the 5th,
    the first sample at or above the target, and is still in VERIFY after the
    8th. *)
Theorem scenario_transitions (c0 : FinalVersion.Controller)
  (dist_at : nat -> option Q) (now_at : nat -> Q) :
  FinalVersion.state c0 = SEARCH ->
  (forall k, FinalVersion.close thresholds_55_46 (dist_at k) = false) ->
  states_of
    (FinalVersion.run thresholds_55_46 c0
       (passes signal_sequence dist_at now_at 0))
  = [SEARCH; SEARCH; SEARCH; APPROACH; VERIFY; VERIFY; VERIFY; VERIFY].
Proof.
  intros S0 Hd. unfold signal_sequence. cbn [passes].
  set (cfg := thresholds_55_46).
  destruct (pass_search_stays cfg c0 (-70) (dist_at 0%nat) (now_at 0%nat))
    as (c1 & o1 & E1 & S1); [exact S0 | apply Hd | qcmp |].
  destruct (pass_search_stays cfg c1 (-68) (dist_at 1%nat) (now_at 1%nat))
    as (c2 & o2 & E2 & S2); [exact S1 | apply Hd | qcmp |].
  destruct (pass_search_stays cfg c2 (-60) (dist_at 2%nat) (now_at 2%nat))
    as (c3 & o3 & E3 & S3); [exact S2 | apply Hd | qcmp |].
  destruct (pass_search_to_approach cfg c3 (-52) (dist_at 3%nat) (now_at 3%nat))
    as (c4 & o4 & E4 & S4); [exact S3 | apply Hd | qcmp |].
  destruct (pass_approach_to_verify cfg c4 (-44) (dist_at 4%nat) (now_at 4%nat))
    as (c5 & o5 & E5 & S5 & N5 & _); [exact S4 | apply Hd | qcmp |].
  destruct (pass_verify_continues cfg c5 (-44) (dist_at 5%nat) (now_at 5%nat))
    as (c6 & o6 & E6 & S6 & N6); [exact S5 | apply Hd | rewrite N5; simpl; lia |].
  destruct (pass_verify_continues cfg c6 (-44) (dist_at 6%nat) (now_at 6%nat))
    as (c7 & o7 & E7 & S7 & N7);
    [exact S6 | apply Hd | rewrite N6, N5; simpl; lia |].
  destruct (pass_verify_continues cfg c7 (-44) (dist_at 7%nat) (now_at 7%nat))
    as (c8 & o8 & E8 & S8 & N8);
    [exact S7 | apply Hd | rewrite N7, N6, N5; simpl; lia |].
  rewrite (run_cons_next _ _ _ _ _ _ E1), (run_cons_next _ _ _ _ _ _ E2),
    (run_cons_next _ _ _ _ _ _ E3), (run_cons_next _ _ _ _ _ _ E4),
    (run_cons_next _ _ _ _ _ _ E5), (run_cons_next _ _ _ _ _ _ E6),
    (run_cons_next _ _ _ _ _ _ E7), (run_cons_next _ _ _ _ _ _ E8).
  unfold states_of. cbn [map FinalVersion.run].
  rewrite S1, S2, S3, S4, S5, S6, S7, S8. reflexivity.
Qed.

Lemma scenario_transitions_witness :
  FinalVersion.state (FinalVersion.init 0) = SEARCH /\
  (forall k : nat,
     FinalVersion.close thresholds_55_46 ((fun _ => Some 100) k) = false) /\
  states_of
    (FinalVersion.run thresholds_55_46 (FinalVersion.init 0)
       (passes signal_sequence (fun _ => Some 100)
          (fun k => inject_Z (Z.of_nat k)) 0))
  = [SEARCH; SEARCH; SEARCH; APPROACH; VERIFY; VERIFY; VERIFY; VERIFY].
Proof.
  assert (H : forall k : nat,
             FinalVersion.close thresholds_55_46 ((fun _ => Some 100) k) = false)
    by (intros k; reflexivity).
  split; [reflexivity | split; [exact H |]].
  exact (scenario_transitions (FinalVersion.init 0) (fun _ => Some 100)
           (fun k => inject_Z (Z.of_nat k)) eq_refl H).
Defined.

(** C9 as stated fails.  The run of the scenario with no rangefinder reading:
    after the 4th sample the state is APPROACH, after the 5th it is VERIFY
    already, and it is VERIFY before and after the 7th, so the 7th sample
    makes no transition out of APPROACH.  The thresholds final_version.py
    itself sets (-53, -48.5) give the same states. *)
Lemma verify_is_entered_on_the_5th_sample :
  let inputs := passes signal_sequence (fun _ => None) (fun _ => 0) 0 in
  let states := states_of
                  (FinalVersion.run thresholds_55_46 (FinalVersion.init 0) inputs) in
  nth_error states 3 = Some APPROACH /\
  nth_error states 4 = Some VERIFY /\
  nth_error states 5 = Some VERIFY /\
  nth_error states 6 = Some VERIFY /\
  states_of (FinalVersion.run FinalVersion.settings (FinalVersion.init 0) inputs)
  = states.
Proof. vm_compute. repeat split. Qed.

(** ** Obstacles against the state machine *)

Lemma t25_sense_keeps c raw :
  Test25.state (fst (Test25.sense c raw)) = Test25.state c /\
  Test25.obstacle_counter (fst (Test25.sense c raw)) = Test25.obstacle_counter c.
Proof. destruct raw; simpl; auto. Qed.

(** final_version.py: in every state but FINISH a confirmed obstacle runs
    [avoid_obstacle()] and ends the pass in SEARCH, the branch of the state
    skipped. *)
Lemma fv_obstacle_preempts cfg c i s :
  FinalVersion.curr_rssi i = Some s ->
  snd (FinalVersion.check_obstacle cfg c (FinalVersion.dist i)) = true ->
  FinalVersion.state c <> FINISH ->
  FinalVersion.iteration cfg c i
  = (FinalVersion.set_search_start_time (FinalVersion.now i)
       (FinalVersion.set_state SEARCH
          (fst (FinalVersion.check_obstacle cfg c (FinalVersion.dist i)))),
     fv_avoid_calls cfg, Continue).
Proof.
  intros Hs Hob Hst. unfold FinalVersion.iteration. rewrite Hs.
  destruct (FinalVersion.state c) eqn:E; try contradiction;
    cbn [NavState_eqb negb];
    destruct (FinalVersion.check_obstacle cfg c (FinalVersion.dist i))
      as [c1 ob]; cbn [snd fst] in *; subst ob; reflexivity.
Qed.

(** final_version.py: in FINISH the monitor is not consulted. *)
Lemma fv_finish_ignores_obstacle cfg c i s :
  FinalVersion.curr_rssi i = Some s ->
  FinalVersion.state c = FINISH ->
  FinalVersion.iteration cfg c i = (c, [stop; stop; sleep 5], Break).
Proof.
  intros Hs Hst. unfold FinalVersion.iteration. rewrite Hs, Hst. simpl.
  rewrite Hst. reflexivity.
Qed.

(** test25.py: in SEARCH and APPROACH the third close reading in a row sets
    the state to AVOID before the branches are looked at; the AVOID branch
    runs in the same pass and leaves the controller in SEARCH. *)
Lemma t25_obstacle_preempts c i :
  Test25.state c = SEARCH \/ Test25.state c = APPROACH ->
  Test25.close (Test25.dist i) = true ->
  (3 <= Test25.obstacle_counter c + 1)%nat ->
  let c1 := fst (Test25.sense c (Test25.raw_rssi i)) in
  let rssi := snd (Test25.sense c (Test25.raw_rssi i)) in
  let c2 := Test25.obstacle_filter c1 (Test25.dist i) in
  Test25.state c2 = AVOID /\
  Test25.tick c i = Test25.dispatch c2 rssi i /\
  Test25.state (fst (fst (Test25.tick c i))) = SEARCH /\
  snd (Test25.tick c i) = Next.
Proof.
  intros Hst Hd Hn c1 rssi c2.
  destruct (t25_sense_keeps c (Test25.raw_rssi i)) as [Es En].
  fold c1 in Es, En.
  assert (H2 : Test25.state c2 = AVOID).
  { unfold c2, Test25.obstacle_filter. rewrite Es, Hd.
    cbn [Test25.obstacle_counter Test25.set_obstacle_counter]. rewrite En.
    assert (Hb : (Test25.OBSTACLE_CONFIRM_COUNT
                  <=? Test25.obstacle_counter c + 1)%nat = true)
      by (apply Nat.leb_le; exact Hn).
    destruct Hst as [-> | ->]; cbn [NavState_eqb orb negb]; rewrite Hb;
      reflexivity. }
  assert (Ht : Test25.tick c i = Test25.dispatch c2 rssi i).
  { unfold Test25.tick, c2, c1, rssi.
    destruct (Test25.sense c (Test25.raw_rssi i)). reflexivity. }
  split; [exact H2 |]. split; [exact Ht |].
  rewrite Ht. unfold Test25.dispatch. rewrite H2.
  destruct (Test25.scan_surroundings (Test25.dist_left i) (Test25.dist_right i)).
  split; reflexivity.
Qed.

(** test25.py: in VERIFY and FINISH the obstacle filter is skipped; the pass
    does not depend on the rangefinder reading, and VERIFY is left only for
    FINISH or APPROACH (by the branch of VERIFY). *)
Lemma t25_verify_finish_exempt c i :
  Test25.state c = VERIFY \/ Test25.state c = FINISH ->
  (forall d, Test25.obstacle_filter c d = c) /\
  (forall d, Test25.tick c (t25_with_dist d i) = Test25.tick c i) /\
  (Test25.state (fst (fst (Test25.tick c i))) = VERIFY \/
   Test25.state (fst (fst (Test25.tick c i))) = FINISH \/
   Test25.state (fst (fst (Test25.tick c i))) = APPROACH).
Proof.
  intros Hst.
  assert (Hf : forall c' d, Test25.state c' = Test25.state c ->
                            Test25.obstacle_filter c' d = c').
  { intros c' d E. unfold Test25.obstacle_filter. rewrite E.
    destruct Hst as [-> | ->]; reflexivity. }
  split; [intros d; apply Hf; reflexivity |].
  destruct (t25_sense_keeps c (Test25.raw_rssi i)) as [Es _].
  split.
  - intros d. unfold Test25.tick. cbn [t25_with_dist Test25.raw_rssi Test25.dist].
    destruct (Test25.sense c (Test25.raw_rssi i)) as [c1 rssi].
    cbn [fst] in Es. rewrite (Hf c1 d Es), (Hf c1 (Test25.dist i) Es).
    unfold Test25.dispatch. rewrite Es.
    destruct Hst as [-> | ->]; reflexivity.
  - unfold Test25.tick.
    destruct (Test25.sense c (Test25.raw_rssi i)) as [c1 rssi].
    cbn [fst] in Es. rewrite (Hf c1 (Test25.dist i) Es).
    unfold Test25.dispatch.
    destruct Hst as [Hv | Hfin].
    + rewrite Hv in Es. rewrite Es.
      destruct (Py.geb rssi Test25.TARGET_RSSI);
        destruct (Py.gtb _ Test25.VERIFY_DURATION);
        try (match goal with
             | |- context [(?a <=? ?b)%nat] => destruct (a <=? b)%nat
             end); cbn; rewrite ?Es; auto.
    + rewrite Hfin in Es. rewrite Es. right; left. exact Es.
Qed.

(** C3, as the code has it.  On a pass where the obstacle is confirmed (in
    final_version.py: [check_obstacle()] would return true; in test25.py: the
    reading is close and is the third in a row), the obstacle preempts SEARCH
    and APPROACH before the branch of the state runs, and never moves the
    controller out of FINISH.  VERIFY is exempt in test25.py only; in
    final_version.py the check runs in VERIFY as well and a confirmed obstacle
    there runs the avoidance maneuver and puts the controller in SEARCH. *)
Theorem obstacle_preemption (cfg : FinalVersion.Config)
  (c : FinalVersion.Controller) (i : FinalVersion.Input) (s : Q)
  (c25 : Test25.Controller) (i25 : Test25.Input) :
  FinalVersion.curr_rssi i = Some s ->
  snd (FinalVersion.check_obstacle cfg c (FinalVersion.dist i)) = true ->
  Test25.close (Test25.dist i25) = true ->
  (3 <= Test25.obstacle_counter c25 + 1)%nat ->
  preemption_rules cfg c i c25 i25.
Proof.
  intros Hs Hob Hd Hn. unfold preemption_rules.
  split; [| split; [| split]].
  - apply (fv_obstacle_preempts cfg c i s); assumption.
  - apply (fv_finish_ignores_obstacle cfg c i s); assumption.
  - intros Hst.
    destruct (t25_obstacle_preempts c25 i25 Hst Hd Hn) as (A & _ & B & C).
    auto.
  - apply t25_verify_finish_exempt.
Qed.

Lemma obstacle_preemption_witness :
  FinalVersion.curr_rssi fv_pass_10cm = Some (-47) /\
  snd (FinalVersion.check_obstacle FinalVersion.settings fv_verifying
         (FinalVersion.dist fv_pass_10cm)) = true /\
  Test25.close (Test25.dist t25_pass_10cm) = true /\
  (3 <= Test25.obstacle_counter t25_verifying + 1)%nat /\
  preemption_rules FinalVersion.settings fv_verifying fv_pass_10cm
    t25_verifying t25_pass_10cm.
Proof.
  assert (H1 : FinalVersion.curr_rssi fv_pass_10cm = Some (-47))
    by reflexivity.
  assert (H2 : snd (FinalVersion.check_obstacle FinalVersion.settings
                      fv_verifying (FinalVersion.dist fv_pass_10cm)) = true)
    by reflexivity.
  assert (H3 : Test25.close (Test25.dist t25_pass_10cm) = true) by reflexivity.
  assert (H4 : (3 <= Test25.obstacle_counter t25_verifying + 1)%nat)
    by (simpl; lia).
  split; [exact H1 | split; [exact H2 | split; [exact H3 | split; [exact H4 |]]]].
  exact (obstacle_preemption FinalVersion.settings fv_verifying fv_pass_10cm
           (-47) t25_verifying t25_pass_10cm H1 H2 H3 H4).
Defined.

(** C3 as stated fails for VERIFY in final_version.py.  Four passes from the
    initial controller, the signal at -40 throughout: the first two take it
    to APPROACH and to VERIFY; the rangefinder then reads 10 cm twice.  On
    the second of these the obstacle is confirmed and the controller leaves
    VERIFY for SEARCH with one verification check made out of 20, driving the
    avoidance maneuver. *)
Lemma obstacle_preempts_verify :
  let cfg := FinalVersion.settings in
  let inputs := [FinalVersion.mkInput (Some (-40)) (Some 100) 1;
                 FinalVersion.mkInput (Some (-40)) (Some 100) 2;
                 FinalVersion.mkInput (Some (-40)) (Some 10) 3;
                 FinalVersion.mkInput (Some (-40)) (Some 10) 4] in
  let cs := FinalVersion.run cfg (FinalVersion.init 0) inputs in
  states_of cs = [APPROACH; VERIFY; VERIFY; SEARCH] /\
  map FinalVersion.verify_counter cs = [0; 0; 1; 1]%nat /\
  map FinalVersion.obstacle_counter cs = [0; 0; 1; 2]%nat /\
  exists c3, nth_error cs 2 = Some c3 /\
    FinalVersion.state c3 = VERIFY /\
    snd (FinalVersion.check_obstacle cfg c3 (Some 10)) = true /\
    FinalVersion.iteration cfg c3 (FinalVersion.mkInput (Some (-40)) (Some 10) 4)
    = (FinalVersion.mkController SEARCH (-40) 4 0 2 1 1,
       [stop; set_dir_servo_angle 0; backward 40; sleep 1.0;
        set_dir_servo_angle (-35); forward 40; sleep 0.8], Continue).
Proof.
  cbv zeta. split; [reflexivity |]. split; [reflexivity |].
  split; [reflexivity |]. eexists. split; [reflexivity |].
  repeat split.
Qed.

(** ** Steering angles *)

(** [int] keeps a number between the integers it lies between. *)
Lemma int_between (q : Q) (a b : Z) :
  inject_Z a <= q -> q <= inject_Z b -> (a <= Py.int q <= b)%Z.
Proof.
  destruct q as [n d]. unfold Qle, Py.int. simpl.
  rewrite !Z.mul_1_r. intros Ha Hb.
  destruct (Z.le_gt_cases 0 n) as [Hn | Hn].
  - rewrite Z.quot_div_nonneg by lia. split.
    + apply Z.div_le_lower_bound; lia.
    + apply Z.div_le_upper_bound; lia.
  - replace n with (- (- n))%Z by lia.
    rewrite Z.quot_opp_l by lia.
    rewrite Z.quot_div_nonneg by lia. split.
    + assert ((- n) / Z.pos d <= - a)%Z
        by (apply Z.div_le_upper_bound; lia). lia.
    + assert (- b <= (- n) / Z.pos d)%Z
        by (apply Z.div_le_lower_bound; lia). lia.
Qed.

Lemma int_steer_ok (q : Q) :
  -35 <= q -> q <= 35 -> steer_ok 35 (set_dir_servo_angle (inject_Z (Py.int q))).
Proof.
  intros Hlo Hhi. destruct (int_between q (-35) 35 Hlo Hhi) as [A B].
  simpl. split.
  - change (- (35)) with (inject_Z (-35)). rewrite <- Zle_Qle. exact A.
  - change 35 with (inject_Z 35). rewrite <- Zle_Qle. exact B.
Qed.

Lemma clamp_between x lo hi :
  lo <= hi -> lo <= Test24.clamp x lo hi /\ Test24.clamp x lo hi <= hi.
Proof.
  intros H. unfold Test24.clamp.
  destruct (Py.ltb x lo) eqn:E1.
  - split; [apply Qle_refl | exact H].
  - apply ltb_false in E1. destruct (Py.gtb x hi) eqn:E2.
    + split; [exact H | apply Qle_refl].
    + apply gtb_false in E2. split; assumption.
Qed.

Ltac steer_list :=
  repeat (apply Forall_app; split);
  repeat (apply Forall_cons || apply Forall_nil);
  try exact I;
  try (split; vm_compute; discriminate).

Section SteeringTest24.

Import Test24.

Lemma t24_sense_spiral c raw : spiral_angle (fst (sense c raw)) = spiral_angle c.
Proof. destruct raw; reflexivity. Qed.

Lemma t24_hard_safety_spiral c d : spiral_angle (hard_safety c d) = spiral_angle c.
Proof.
  unfold hard_safety. destruct d as [d |]; [| reflexivity].
  destruct (_ && _); reflexivity.
Qed.

Lemma t24_soft_safety_steer c sc :
  spiral_angle (fst (soft_safety c sc)) = spiral_angle c /\
  Forall (steer_ok MAX_STEER_ANGLE) (snd (soft_safety c sc)).
Proof.
  unfold soft_safety. destruct sc as [s |]; [| split; [reflexivity | constructor]].
  destruct (_ || _); [| split; [reflexivity | constructor]].
  destruct (_ || _); [split; [reflexivity | constructor] |].
  split; [reflexivity |]. constructor; [| constructor].
  destruct (clamp_between
              (VISION_STEER_GAIN * (free_right s - free_left s) * MAX_STEER_ANGLE)
              (- MAX_STEER_ANGLE) MAX_STEER_ANGLE) as [A B];
    [vm_compute; discriminate |].
  apply int_steer_ok; assumption.
Qed.

Lemma t24_dispatch_steer c rssi i :
  spiral_in_band c ->
  Forall (steer_ok MAX_STEER_ANGLE) (snd (fst (dispatch c rssi i))) /\
  spiral_in_band (fst (fst (dispatch c rssi i))).
Proof.
  intros [Hlo Hhi]. unfold dispatch, spiral_in_band.
  destruct (state c).
  - (* SEARCH *)
    destruct (Py.gtb rssi APPROACH_THRESHOLD); cbn [fst snd].
    + split; [steer_list | split; assumption].
    + split.
      * steer_list. apply int_steer_ok; [exact Hlo |].
        apply Qlt_le_weak, (Qlt_trans _ _ _ Hhi). reflexivity.
      * destruct (Py.ltb (spiral_angle c) 0) eqn:E;
          cbn [spiral_angle set_last_rssi set_spiral_angle].
        -- apply ltb_true in E. unfold MAX_STEER_ANGLE in *. split; lra.
        -- split; [apply Qle_refl | reflexivity].
  - (* APPROACH *)
    destruct (Py.geb rssi TARGET_RSSI); cbn [fst snd].
    + split; [steer_list | split; assumption].
    + destruct (Py.geb (rssi - last_rssi c) 0); cbn [fst snd];
        (split; [steer_list | split; assumption]).
  - (* VERIFY: no branch *)
    cbn [fst snd]. split; [steer_list | split; assumption].
  - (* AVOID *)
    destruct (scores i) as [s |].
    + destruct (Py.gtb (free_left s) (free_right s)); cbn [fst snd];
        (split; [steer_list | split; assumption]).
    + unfold scan_surroundings.
      destruct (Py.gtb (or_0 (dist_left i)) (or_0 (dist_right i)));
        cbn [fst snd]; (split; [unfold center_head; steer_list | split; assumption]).
  - (* FINISH *)
    cbn [fst snd]. split; [steer_list | split; assumption].
Qed.

Lemma t24_tick_steer c i :
  spiral_in_band c ->
  Forall (steer_ok MAX_STEER_ANGLE) (snd (fst (tick c i))) /\
  spiral_in_band (fst (fst (tick c i))).
Proof.
  intros Hband. unfold tick.
  pose proof (t24_sense_spiral c (raw_rssi i)) as E1.
  destruct (sense c (raw_rssi i)) as [c1 rssi]. cbn [fst] in E1.
  pose proof (t24_hard_safety_spiral c1 (dist_cm i)) as E2.
  destruct (t24_soft_safety_steer (hard_safety c1 (dist_cm i)) (scores i))
    as [E3 Hsteer].
  destruct (soft_safety (hard_safety c1 (dist_cm i)) (scores i)) as [c3 steer].
  cbn [fst snd] in E3, Hsteer.
  assert (Hband3 : spiral_in_band c3).
  { unfold spiral_in_band in *. rewrite E3, E2, E1. exact Hband. }
  destruct (t24_dispatch_steer c3 rssi i Hband3) as [Hout Hband'].
  destruct (dispatch c3 rssi i) as [[c4 out] flow]. cbn [fst snd] in *.
  split; [apply Forall_app; split; assumption | exact Hband'].
Qed.

Lemma t24_reachable_in_band c : reachable c -> spiral_in_band c.
Proof.
  induction 1 as [| c i c' out flow _ IH Ht _].
  - split; [apply Qle_refl | reflexivity].
  - destruct (t24_tick_steer c i IH) as [_ H']. rewrite Ht in H'. exact H'.
Qed.

End SteeringTest24.

Section SteeringTest12.

Import Test12.

Lemma t12_sense_spiral c raw : spiral_angle (fst (sense c raw)) = spiral_angle c.
Proof. destruct raw; reflexivity. Qed.

Lemma t12_obstacle_check_spiral c d :
  spiral_angle (obstacle_check c d) = spiral_angle c.
Proof.
  unfold obstacle_check. destruct d as [d |]; [| reflexivity].
  destruct (_ && _); reflexivity.
Qed.

Lemma t12_dispatch_steer c rssi i :
  spiral_in_band12 c ->
  Forall (steer_ok MAX_STEER_ANGLE) (snd (fst (dispatch c rssi i))) /\
  spiral_in_band12 (fst (fst (dispatch c rssi i))).
Proof.
  intros [Hlo Hhi]. unfold dispatch, spiral_in_band12.
  destruct (state c).
  - (* SEARCH *)
    destruct (Py.gtb rssi APPROACH_THRESHOLD); cbn [fst snd].
    + split; [steer_list | split; assumption].
    + split.
      * steer_list. apply int_steer_ok; [exact Hlo |].
        apply Qlt_le_weak, (Qlt_trans _ _ _ Hhi). reflexivity.
      * destruct (Py.ltb (spiral_angle c) 0) eqn:E;
          cbn [spiral_angle set_last_rssi set_spiral_angle].
        -- apply ltb_true in E. unfold MAX_STEER_ANGLE in *. split; lra.
        -- split; [apply Qle_refl | reflexivity].
  - (* APPROACH *)
    destruct (Py.geb rssi TARGET_RSSI); cbn [fst snd].
    + split; [steer_list | split; assumption].
    + destruct (Py.geb (rssi - last_rssi c) 0); cbn [fst snd];
        (split; [steer_list | split; assumption]).
  - (* VERIFY: no branch *)
    cbn [fst snd]. split; [steer_list | split; assumption].
  - (* AVOID *)
    unfold scan_surroundings.
    destruct (Py.gtb (or_0 (dist_left i)) (or_0 (dist_right i)));
      cbn [fst snd]; (split; [unfold center_head; steer_list | split; assumption]).
  - (* FINISH *)
    cbn [fst snd]. split; [steer_list | split; assumption].
Qed.

Lemma t12_tick_steer c i :
  spiral_in_band12 c ->
  Forall (steer_ok MAX_STEER_ANGLE) (snd (fst (tick c i))) /\
  spiral_in_band12 (fst (fst (tick c i))).
Proof.
  intros Hband. unfold tick.
  pose proof (t12_sense_spiral c (raw_rssi i)) as E1.
  destruct (sense c (raw_rssi i)) as [c1 rssi]. cbn [fst] in E1.
  pose proof (t12_obstacle_check_spiral c1 (dist i)) as E2.
  apply t12_dispatch_steer.
  unfold spiral_in_band12 in *. rewrite E2, E1. exact Hband.
Qed.

Lemma t12_reachable_in_band c : reachable c -> spiral_in_band12 c.
Proof.
  induction 1 as [| c i c' out flow _ IH Ht _].
  - split; [apply Qle_refl | reflexivity].
  - destruct (t12_tick_steer c i IH) as [_ H']. rewrite Ht in H'. exact H'.
Qed.

End SteeringTest12.

Lemma t24_shutdown_steer :
  Forall (steer_ok Test24.MAX_STEER_ANGLE) Test24.shutdown.
Proof. unfold Test24.shutdown, center_head. steer_list. Qed.

Lemma t12_shutdown_steer :
  Forall (steer_ok Test12.MAX_STEER_ANGLE) Test12.shutdown.
Proof. unfold Test12.shutdown, center_head. steer_list. Qed.

(** Every call a whole run of the loop of test24.py makes, the [finally:]
    block included, keeps the steering angle within the limits. *)
Lemma t24_run_steer inputs : forall c,
  spiral_in_band c ->
  Forall (steer_ok Test24.MAX_STEER_ANGLE) (snd (Test24.run c inputs)).
Proof.
  induction inputs as [| i inputs IH]; intros c Hband; cbn [Test24.run].
  - constructor.
  - destruct (t24_tick_steer c i Hband) as [Hout Hband'].
    destruct (Test24.tick c i) as [[c' out] flow]. cbn [fst snd] in *.
    destruct flow;
      [| | cbn [snd]; apply Forall_app; split;
           [exact Hout | apply t24_shutdown_steer]];
      (specialize (IH c' Hband');
       destruct (Test24.run c' inputs) as [c'' out']; cbn [snd] in *;
       apply Forall_app; split; assumption).
Qed.

Lemma t12_run_steer inputs : forall c,
  spiral_in_band12 c ->
  Forall (steer_ok Test12.MAX_STEER_ANGLE) (snd (Test12.run c inputs)).
Proof.
  induction inputs as [| i inputs IH]; intros c Hband; cbn [Test12.run].
  - constructor.
  - destruct (t12_tick_steer c i Hband) as [Hout Hband'].
    destruct (Test12.tick c i) as [[c' out] flow]. cbn [fst snd] in *.
    destruct flow;
      [| | cbn [snd]; apply Forall_app; split;
           [exact Hout | apply t12_shutdown_steer]];
      (specialize (IH c' Hband');
       destruct (Test12.run c' inputs) as [c'' out']; cbn [snd] in *;
       apply Forall_app; split; assumption).
Qed.

(** From the initial controllers: whatever the loop reads, pass after pass,
    no call of a whole run steers outside the limits. *)
Lemma whole_run_steer (inputs24 : list Test24.Input)
  (inputs12 : list Test12.Input) :
  Forall (steer_ok Test24.MAX_STEER_ANGLE)
    (snd (Test24.run Test24.init inputs24)) /\
  Forall (steer_ok Test12.MAX_STEER_ANGLE)
    (snd (Test12.run Test12.init inputs12)).
Proof.
  split.
  - apply t24_run_steer, t24_reachable_in_band, Test24.reach_init.
  - apply t12_run_steer, t12_reachable_in_band, Test12.reach_init.
Qed.

(** C2.  In test24.py and in test12.py, from any controller the loop can
    reach and for any inputs of the pass (signal reading, rangefinder reading,
    look-around readings, vision scores), every steering angle the pass sends
    to the servo lies within [-MAX_STEER_ANGLE, MAX_STEER_ANGLE]; so do the
    angles of the [finally:] block. *)
Theorem steer_angle_within_limits
  (c : Test24.Controller) (i : Test24.Input)
  (c12 : Test12.Controller) (i12 : Test12.Input) :
  Test24.reachable c -> Test12.reachable c12 ->
  Forall (steer_ok Test24.MAX_STEER_ANGLE)
    (snd (fst (Test24.tick c i)) ++ Test24.shutdown) /\
  Forall (steer_ok Test12.MAX_STEER_ANGLE)
    (snd (fst (Test12.tick c12 i12)) ++ Test12.shutdown).
Proof.
  intros H24 H12. split; apply Forall_app; split.
  - apply t24_tick_steer, t24_reachable_in_band, H24.
  - apply t24_shutdown_steer.
  - apply t12_tick_steer, t12_reachable_in_band, H12.
  - apply t12_shutdown_steer.
Qed.

Lemma steer_angle_within_limits_witness :
  Test24.reachable Test24.init /\ Test12.reachable Test12.init /\
  Forall (steer_ok Test24.MAX_STEER_ANGLE)
    (snd (fst (Test24.tick Test24.init t24_pass_hard_right)) ++ Test24.shutdown) /\
  Forall (steer_ok Test12.MAX_STEER_ANGLE)
    (snd (fst (Test12.tick Test12.init t12_pass_spiral)) ++ Test12.shutdown).
Proof.
  split; [exact Test24.reach_init | split; [exact Test12.reach_init |]].
  exact (steer_angle_within_limits Test24.init t24_pass_hard_right
           Test12.init t12_pass_spiral Test24.reach_init Test12.reach_init).
Defined.

(** The calls of those two passes: the vision steer of 1.35 * 1 * 35 = 47.25
    is clamped to 35, and the spiral starts at -35. *)
Example first_pass_calls :
  snd (fst (Test24.tick Test24.init t24_pass_hard_right))
  = [set_dir_servo_angle 35; forward 40; set_dir_servo_angle (-35); sleep 0.05] /\
  snd (fst (Test12.tick Test12.init t12_pass_spiral))
  = [forward 40; set_dir_servo_angle (-35); sleep 0.05].
Proof. vm_compute. split; reflexivity. Qed.

(** ** A pass with no measurement (test12.py) *)

Section MissingMeasurement.

Import Test12.

Lemma t12_obstacle_check_keeps c d :
  kf (obstacle_check c d) = kf c /\ last_rssi (obstacle_check c d) = last_rssi c.
Proof.
  unfold obstacle_check. destruct d as [d |]; [| auto].
  destruct (_ && _); auto.
Qed.

(** No branch of the state machine touches the filter. *)
Lemma t12_dispatch_keeps_kf c rssi i :
  kf (fst (fst (dispatch c rssi i))) = kf c.
Proof.
  unfold dispatch. destruct (state c).
  - destruct (Py.gtb rssi APPROACH_THRESHOLD); [reflexivity |].
    destruct (Py.ltb (spiral_angle c) 0); reflexivity.
  - destruct (Py.geb rssi TARGET_RSSI); [reflexivity |].
    destruct (Py.geb (rssi - last_rssi c) 0); reflexivity.
  - reflexivity.
  - destruct (scan_surroundings (dist_left i) (dist_right i)). reflexivity.
  - reflexivity.
Qed.

(** A branch that runs to the last line of the loop body leaves the signal
    of the pass in [last_rssi]. *)
Lemma t12_dispatch_stores_rssi c rssi i c' out :
  dispatch c rssi i = (c', out, Next) -> last_rssi c' = rssi.
Proof.
  unfold dispatch. destruct (state c).
  - destruct (Py.gtb rssi APPROACH_THRESHOLD); [discriminate |].
    destruct (Py.ltb (spiral_angle c) 0); intros [= <- _]; reflexivity.
  - destruct (Py.geb rssi TARGET_RSSI); [discriminate |].
    destruct (Py.geb (rssi - last_rssi c) 0); intros [= <- _]; reflexivity.
  - intros [= <- _]. reflexivity.
  - destruct (scan_surroundings (dist_left i) (dist_right i)).
    intros [= <- _]. reflexivity.
  - discriminate.
Qed.

Lemma t12_tick_stores_rssi c i c' out :
  tick c i = (c', out, Next) -> last_rssi c' = snd (sense c (raw_rssi i)).
Proof.
  unfold tick. destruct (sense c (raw_rssi i)) as [c1 rssi]. cbn [snd].
  apply t12_dispatch_stores_rssi.
Qed.

Lemma t12_tick_keeps_kf_without_measurement c i :
  raw_rssi i = None -> kf (fst (fst (tick c i))) = kf c.
Proof.
  intros H. unfold tick. rewrite H. cbn [sense].
  rewrite t12_dispatch_keeps_kf. apply t12_obstacle_check_keeps.
Qed.

End MissingMeasurement.

(** X12.  What a missing measurement leaves alone.  [filter(None)] returns
    the estimate and leaves the filter as it was, [x] and [P] included.  On a
    pass of test12.py with no measurement the controller does not call the
    filter: the filter is the same after the pass, and the signal the pass
    works with is the controller's own [last_rssi].  Every pass that runs to
    the last line of the loop body has stored its signal there. *)
Theorem missing_measurement_reuses_last_rssi
  (kf0 : Kalman.RSSIKalmanFilter) (c : Test12.Controller) (i : Test12.Input) :
  Test12.raw_rssi i = None ->
  Kalman.filter kf0 None = (kf0, Kalman.kf_x kf0) /\
  Test12.sense c (Test12.raw_rssi i) = (c, Test12.last_rssi c) /\
  Test12.kf (fst (fst (Test12.tick c i))) = Test12.kf c /\
  (forall c0 i0 out,
     Test12.tick c0 i0 = (c, out, Next) ->
     Test12.last_rssi c = snd (Test12.sense c0 (Test12.raw_rssi i0))).
Proof.
  intros H. split; [reflexivity |]. split; [rewrite H; reflexivity |].
  split; [apply t12_tick_keeps_kf_without_measurement, H |].
  intros c0 i0 out Ht. exact (t12_tick_stores_rssi c0 i0 c out Ht).
Qed.

Lemma missing_measurement_reuses_last_rssi_witness :
  let c := fst (fst (Test12.tick Test12.init
                       (Test12.mkInput (Some (-60)) (Some 100) None None))) in
  let i := Test12.mkInput None (Some 100) None None in
  Test12.raw_rssi i = None /\
  (Kalman.filter (Test12.kf c) None = (Test12.kf c, Kalman.kf_x (Test12.kf c)) /\
   Test12.sense c (Test12.raw_rssi i) = (c, Test12.last_rssi c) /\
   Test12.kf (fst (fst (Test12.tick c i))) = Test12.kf c /\
   (forall c0 i0 out,
      Test12.tick c0 i0 = (c, out, Next) ->
      Test12.last_rssi c = snd (Test12.sense c0 (Test12.raw_rssi i0)))).
Proof.
  intros c i. split; [reflexivity |].
  exact (missing_measurement_reuses_last_rssi (Test12.kf c) c i eq_refl).
Defined.

(** C8.  The code misses the last part of the claim on the pass after a
    [continue].  Every pass that runs to the last line of the loop body
    stores its filtered signal in [last_rssi]; the pass that enters APPROACH
    ends at [continue] and skips that line.  Two passes of test12.py from the
    initial controller read -20 dBm.  The second takes the filtered signal to
    about -43.9, above APPROACH_THRESHOLD: the state becomes APPROACH and the
    pass ends at [continue].  The third pass has no measurement: the signal
    it works with is [last_rssi], about -52.8, the filtered signal of the
    first pass, not the last known one (which is the filter's estimate).  On
    a first pass with no measurement the signal is the preset -100.0, while
    the filter's estimate is -70. *)
Lemma missing_measurement_signal_is_stale :
  let pass z := Test12.mkInput z (Some 100) None None in
  let c1 := fst (fst (Test12.tick Test12.init (pass (Some (-20))))) in
  let c2 := fst (fst (Test12.tick c1 (pass (Some (-20))))) in
  let rssi1 := snd (Test12.sense Test12.init (Some (-20))) in
  let rssi2 := snd (Test12.sense c1 (Some (-20))) in
  let rssi3 := snd (Test12.sense c2 None) in
  snd (Test12.tick c1 (pass (Some (-20)))) = Continue /\
  Test12.state c2 = APPROACH /\
  rssi1 == -3220 # 61 /\
  rssi2 == -146820 # 3341 /\
  Kalman.kf_x (Test12.kf c2) = rssi2 /\
  rssi3 = rssi1 /\
  rssi3 < rssi2 /\
  snd (Test12.sense Test12.init None) = -100.0 /\
  Kalman.kf_x (Test12.kf Test12.init) = -70.
Proof. vm_compute. repeat split. Qed.

(** * Further properties of the code *)

(** ** The Kalman filter beyond the claims *)

Lemma update_keeps_variance_positive kf z :
  0 < Kalman.kf_R kf -> 0 < Kalman.kf_Q kf -> 0 < Kalman.kf_P kf ->
  0 < Kalman.kf_P (fst (Kalman.filter kf (Some z))) /\
  Kalman.kf_P (fst (Kalman.filter kf (Some z))) < Kalman.kf_R kf /\
  Kalman.kf_P (fst (Kalman.filter kf (Some z)))
  < Kalman.kf_P kf + Kalman.kf_Q kf.
Proof.
  intros HR HQ HP.
  assert (HD : 0 < Kalman.kf_P kf + Kalman.kf_Q kf + Kalman.kf_R kf) by lra.
  rewrite (filter_P_closed kf z HD).
  destruct kf as [R Q0 x P]; simpl in *.
  repeat split.
  - apply Qlt_shift_div_l; [exact HD | nra].
  - apply Qlt_shift_div_r; [exact HD | nra].
  - apply Qlt_shift_div_r; [exact HD | nra].
Qed.

Lemma trace_keeps_variance_below ms : forall kf,
  0 < Kalman.kf_R kf -> 0 < Kalman.kf_Q kf ->
  0 < Kalman.kf_P kf -> Kalman.kf_P kf < Kalman.kf_R kf ->
  Forall (fun k => 0 < Kalman.kf_P k /\ Kalman.kf_P k < Kalman.kf_R k /\
                   Kalman.kf_R k = Kalman.kf_R kf /\
                   Kalman.kf_Q k = Kalman.kf_Q kf)
    (Kalman.trace kf ms).
Proof.
  induction ms as [| m ms IH]; intros kf HR HQ HP HPR; cbn [Kalman.trace].
  - constructor.
  - destruct (filter_keeps_noise kf m) as [ER EQ].
    assert (HP' : 0 < Kalman.kf_P (fst (Kalman.filter kf m)) /\
                  Kalman.kf_P (fst (Kalman.filter kf m)) < Kalman.kf_R kf).
    { destruct m as [z |]; [| split; assumption].
      destruct (update_keeps_variance_positive kf z HR HQ HP) as (A & B & _).
      split; assumption. }
    destruct HP' as [A B].
    constructor; [rewrite ER; auto |].
    specialize (IH (fst (Kalman.filter kf m))).
    rewrite ER, EQ in IH. apply IH; assumption.
Qed.

(** X1.  The filter as the controllers construct it (R = 2.0, Q = 0.05,
    variance 1.0, any initial estimate), over any sequence of calls, with or
    without a measurement: the variance stays positive and below R, and R and
    Q stay what they were.  So the divisor [p_pred + R] of [filter] is
    positive on every call: the division never fails. *)
Theorem variance_stays_positive (x0 : Q) (ms : list (option Q)) :
  let kf0 := Kalman.init 2.0 0.05 x0 in
  Forall (fun k => 0 < Kalman.kf_P k /\ Kalman.kf_P k < Kalman.kf_R k /\
                   0 < Kalman.kf_P k + Kalman.kf_Q k + Kalman.kf_R k /\
                   Kalman.kf_R k = 2.0 /\ Kalman.kf_Q k = 0.05)
    (kf0 :: Kalman.trace kf0 ms).
Proof.
  intros kf0.
  assert (H : Forall (fun k => 0 < Kalman.kf_P k /\
                               Kalman.kf_P k < Kalman.kf_R k /\
                               Kalman.kf_R k = Kalman.kf_R kf0 /\
                               Kalman.kf_Q k = Kalman.kf_Q kf0)
                (kf0 :: Kalman.trace kf0 ms)).
  { constructor.
    - repeat split; reflexivity.
    - apply trace_keeps_variance_below; reflexivity. }
  eapply Forall_impl; [| exact H].
  intros k (A & B & C & D). rewrite C, D. cbn [Kalman.kf_R Kalman.kf_Q kf0 Kalman.init].
  repeat split; try assumption; try reflexivity.
  - rewrite C in B. exact B.
  - rewrite C in B. cbn [Kalman.kf_R kf0 Kalman.init] in B. lra.
Qed.

Lemma variance_nonincreasing_any ms : forall kf,
  0 < Kalman.kf_R kf -> 0 < Kalman.kf_Q kf -> above_steady kf ->
  nonincreasing (map Kalman.kf_P (kf :: Kalman.trace kf ms)).
Proof.
  induction ms as [| m ms IH]; intros kf HR HQ Hinv.
  - simpl. exact I.
  - change (Kalman.kf_P (fst (Kalman.filter kf m)) <= Kalman.kf_P kf /\
            nonincreasing
              (map Kalman.kf_P
                 (fst (Kalman.filter kf m)
                  :: Kalman.trace (fst (Kalman.filter kf m)) ms))).
    destruct (filter_keeps_noise kf m) as [ER EQ].
    split.
    + destruct m as [z |]; [| apply Qle_refl].
      apply update_lowers_variance; assumption.
    + apply IH.
      * rewrite ER; exact HR.
      * rewrite EQ; exact HQ.
      * destruct m as [z |]; [| exact Hinv].
        apply update_stays_above; assumption.
Qed.

(** X2.  A call with no measurement leaves the variance where it was (the
    code does not add the process noise on a missed update), so with R = 2.0,
    Q = 0.05 and the initial variance 1.0 the reported variances never
    increase over any sequence of calls, measurements missing or not. *)
Theorem variance_nonincreasing_with_gaps (x0 : Q) (ms : list (option Q)) :
  let kf0 := Kalman.init 2.0 0.05 x0 in
  nonincreasing (map Kalman.kf_P (kf0 :: Kalman.trace kf0 ms)).
Proof.
  intros kf0. apply variance_nonincreasing_any.
  - reflexivity.
  - reflexivity.
  - split; [reflexivity | discriminate].
Qed.

(** X3.  [clamp(x, lo, hi)] with [lo <= hi] returns a value in [[lo, hi]],
    returns [x] itself when [x] is already there, and clamping twice is
    clamping once.  With the bounds the wrong way round ([hi < lo]) it never
    returns [x]: it returns [lo] below [lo] and [hi] otherwise. *)
Theorem clamp_contract (x lo hi : Q) :
  (lo <= hi ->
   within lo hi (Test24.clamp x lo hi) /\
   (within lo hi x -> Test24.clamp x lo hi = x) /\
   Test24.clamp (Test24.clamp x lo hi) lo hi = Test24.clamp x lo hi) /\
  (hi < lo ->
   (x < lo -> Test24.clamp x lo hi = lo) /\
   (lo <= x -> Test24.clamp x lo hi = hi)).
Proof.
  unfold within, Test24.clamp. split.
  - intros H. destruct (Py.ltb x lo) eqn:E1.
    + apply ltb_true in E1. split; [split; [apply Qle_refl | exact H] |].
      split.
      * intros [A _]. exfalso. exact (Qlt_irrefl _ (Qlt_le_trans _ _ _ E1 A)).
      * assert (F1 : Py.ltb lo lo = false) by (apply ltb_false, Qle_refl).
        assert (F2 : Py.gtb lo hi = false) by (apply gtb_false, H).
        rewrite F1, F2. reflexivity.
    + apply ltb_false in E1. destruct (Py.gtb x hi) eqn:E2.
      * apply gtb_true in E2. split; [split; [exact H | apply Qle_refl] |].
        split.
        -- intros [_ B]. exfalso.
           exact (Qlt_irrefl _ (Qlt_le_trans _ _ _ E2 B)).
        -- assert (F1 : Py.ltb hi lo = false) by (apply ltb_false, H).
           assert (F2 : Py.gtb hi hi = false) by (apply gtb_false, Qle_refl).
           rewrite F1, F2. reflexivity.
      * pose proof E2 as E2'. apply gtb_false in E2.
        split; [split; assumption |]. split; [reflexivity |].
        assert (F1 : Py.ltb x lo = false) by (apply ltb_false, E1).
        rewrite F1, E2'. reflexivity.
  - intros H. split.
    + intros Hx. apply ltb_true in Hx. rewrite Hx. reflexivity.
    + intros Hx. assert (F1 : Py.ltb x lo = false) by (apply ltb_false, Hx).
      assert (T2 : Py.gtb x hi = true)
        by (apply gtb_true, (Qlt_le_trans _ _ _ H Hx)).
      rewrite F1, T2. reflexivity.
Qed.

Lemma clamp_contract_witness :
  -35 <= 35 /\
  within (-35) 35 (Test24.clamp 47.25 (-35) 35) /\
  (within (-35) 35 47.25 -> Test24.clamp 47.25 (-35) 35 = 47.25) /\
  Test24.clamp (Test24.clamp 47.25 (-35) 35) (-35) 35
  = Test24.clamp 47.25 (-35) 35.
Proof.
  assert (H : -35 <= 35) by (vm_compute; discriminate).
  split; [exact H |].
  exact (proj1 (clamp_contract 47.25 (-35) 35) H).
Defined.

(** ** Burst estimates beyond the claims *)

Lemma Forall_firstn_of {A} (P : A -> Prop) n (l : list A) :
  Forall P l -> Forall P (firstn n l).
Proof.
  revert l. induction n as [| n IH]; intros l H; [constructor |].
  destruct l as [| a l]; [constructor |].
  inversion H; subst. simpl. constructor; auto.
Qed.

Lemma Forall_skipn_of {A} (P : A -> Prop) n (l : list A) :
  Forall P l -> Forall P (skipn n l).
Proof.
  revert l. induction n as [| n IH]; intros l H; [exact H |].
  destruct l as [| a l]; [constructor |].
  inversion H; subst. simpl. auto.
Qed.

Lemma Forall_slice_both {A} (P : A -> Prop) k (l : list A) :
  Forall P l -> Forall P (Py.slice_both k l).
Proof.
  intros H. unfold Py.slice_both. apply Forall_skipn_of, Forall_firstn_of, H.
Qed.

Lemma len_cons {A} (a : A) l : Py.len (a :: l) == 1 + Py.len l.
Proof.
  unfold Py.len. change (length (a :: l)) with (S (length l)).
  rewrite Nat2Z.inj_succ, <- Z.add_1_l, inject_Z_plus. reflexivity.
Qed.

Lemma len_nonneg {A} (l : list A) : 0 <= Py.len l.
Proof.
  unfold Py.len. change 0 with (inject_Z 0). rewrite <- Zle_Qle. lia.
Qed.

Lemma sum_within lo hi l :
  Forall (within lo hi) l ->
  Py.len l * lo <= Py.sum l /\ Py.sum l <= Py.len l * hi.
Proof.
  induction 1 as [| a l [Ha1 Ha2] _ [IH1 IH2]].
  - change (Py.len (@nil Q)) with 0. change (Py.sum []) with 0. split; lra.
  - rewrite sum_cons, len_cons. split; lra.
Qed.

(** The mean of readings that lie in [[lo, hi]] lies in [[lo, hi]]. *)
Lemma mean_within lo hi l :
  l <> [] -> Forall (within lo hi) l -> within lo hi (Py.mean l).
Proof.
  intros Hne H. destruct (sum_within lo hi l H) as [A B].
  assert (Hlen : 0 < Py.len l).
  { destruct l as [| a l]; [congruence |].
    rewrite len_cons. pose proof (len_nonneg l). lra. }
  unfold within, Py.mean. split.
  - apply Qle_shift_div_l; [exact Hlen | lra].
  - apply Qle_shift_div_r; [exact Hlen | lra].
Qed.

Lemma kept_within lo hi readings :
  Forall (within lo hi) readings -> Forall (within lo hi) (kept readings).
Proof.
  intros H.
  assert (Hs : Forall (within lo hi) (Py.sort readings)).
  { eapply Permutation_Forall; [apply Permutation_sym, sort_perm | exact H]. }
  unfold kept. destruct (0 <? length readings / 10)%nat;
    [apply Forall_slice_both |]; exact Hs.
Qed.

Lemma kept_nonempty readings : (5 <= length readings)%nat -> kept readings <> [].
Proof.
  intros H5 Hnil. pose proof (kept_length readings) as L. rewrite Hnil in L.
  change (length (@nil Q)) with 0%nat in L.
  assert (length readings / 10 * 10 <= length readings)%nat
    by (rewrite Nat.mul_comm; apply Nat.Div0.mul_div_le).
  lia.
Qed.

(** What [get_averaged_rssi] returns, by the number of valid readings. *)
Lemma get_averaged_rssi_cases reads :
  let readings := WiFiSensor.collect reads in
  (readings = [] /\ WiFiSensor.get_averaged_rssi reads = None) \/
  (readings <> [] /\ (length readings < 5)%nat /\
   WiFiSensor.get_averaged_rssi reads = Some (Py.mean readings)) \/
  ((5 <= length readings)%nat /\
   WiFiSensor.get_averaged_rssi reads = Some (Py.mean (kept readings))).
Proof.
  intros readings.
  destruct (Nat.lt_ge_cases (length readings) 5) as [Hlt | Hge].
  - destruct readings as [| r0 rs] eqn:E.
    + left. split; [reflexivity |].
      unfold WiFiSensor.get_averaged_rssi. fold readings. rewrite E. reflexivity.
    + right. left. split; [discriminate |]. split; [exact Hlt |].
      unfold WiFiSensor.get_averaged_rssi.
      change (WiFiSensor.collect reads) with readings. rewrite E.
      apply Nat.leb_gt in Hlt. rewrite Hlt. reflexivity.
  - right. right. split; [exact Hge |].
    apply get_averaged_rssi_at_least_5. exact Hge.
Qed.

(** X4.  [get_averaged_rssi] returns [None] exactly when no read produced a
    value (the second [if not readings] never fires: trimming a tenth from
    each end of five or more readings leaves some), and when every valid
    reading lies in [[lo, hi]] so does the estimate. *)
Theorem burst_estimate_within (reads : list (option Q)) (lo hi : Q) :
  (WiFiSensor.get_averaged_rssi reads = None <-> WiFiSensor.collect reads = []) /\
  (Forall (within lo hi) (WiFiSensor.collect reads) ->
   forall m, WiFiSensor.get_averaged_rssi reads = Some m -> within lo hi m).
Proof.
  destruct (get_averaged_rssi_cases reads) as [[E R] | [(NE & _ & R) | (H5 & R)]].
  - split; [split; auto |]. intros _ m Hm. congruence.
  - split; [split; [congruence | intros; contradiction] |].
    intros H m Hm. rewrite R in Hm. injection Hm as <-.
    apply mean_within; assumption.
  - split.
    + split; [congruence |]. intros E. rewrite E in H5. simpl in H5. lia.
    + intros H m Hm. rewrite R in Hm. injection Hm as <-.
      apply mean_within; [apply kept_nonempty, H5 | apply kept_within, H].
Qed.

Lemma count_perm (p : Q -> bool) l l' :
  Permutation l l' -> length (filter p l) = length (filter p l').
Proof.
  induction 1 as [| a l l' _ IH | a b l | l l' l'' _ IH1 _ IH2]; simpl.
  - reflexivity.
  - destruct (p a); simpl; rewrite IH; reflexivity.
  - destruct (p a), (p b); reflexivity.
  - rewrite IH1. exact IH2.
Qed.

Lemma sort_strongly_sorted l : StronglySorted Qle (Py.sort l).
Proof.
  apply Sorted_StronglySorted; [| apply sort_sorted].
  intros x y z. apply Qle_trans.
Qed.

(** In a sorted list with at most [k] entries below [lo], everything after
    the first [k] entries is at or above [lo]. *)
Lemma sorted_skip_low lo s : forall k,
  StronglySorted Qle s -> (count_below lo s <= k)%nat ->
  Forall (fun x => lo <= x) (skipn k s).
Proof.
  unfold count_below.
  induction s as [| a t IH]; intros k Hs Hc.
  - rewrite skipn_nil. constructor.
  - inversion Hs as [| ? ? Ht Ha]; subst.
    destruct (Py.ltb a lo) eqn:E.
    + simpl in Hc. rewrite E in Hc. simpl in Hc.
      destruct k as [| k]; [lia |]. simpl. apply IH; [exact Ht | lia].
    + apply ltb_false in E. apply Forall_skipn_of.
      constructor; [exact E |].
      eapply Forall_impl; [| exact Ha]. intros x Hx.
      exact (Qle_trans _ _ _ E Hx).
Qed.

(** In a sorted list with at most [k] entries above [hi], everything before
    the last [k] entries is at or below [hi]. *)
Lemma sorted_drop_high hi s : forall k,
  StronglySorted Qle s -> (count_above hi s <= k)%nat ->
  Forall (fun x => x <= hi) (firstn (length s - k) s).
Proof.
  unfold count_above.
  induction s as [| a t IH]; intros k Hs Hc.
  - constructor.
  - inversion Hs as [| ? ? Ht Ha]; subst.
    destruct (Nat.le_gt_cases (length (a :: t)) k) as [Hk | Hk].
    + replace (length (a :: t) - k)%nat with 0%nat by lia. constructor.
    + assert (Hlen : (length (a :: t) - k = S (length t - k))%nat)
        by (cbn [length] in *; lia).
      rewrite Hlen. cbn [firstn]. destruct (Py.gtb a hi) eqn:E.
      * exfalso. apply gtb_true in E.
        assert (Hall : Forall (fun x => Py.gtb x hi = true) (a :: t)).
        { constructor; [apply gtb_true, E |].
          eapply Forall_impl; [| exact Ha]. intros x Hx.
          apply gtb_true. exact (Qlt_le_trans _ _ _ E Hx). }
        assert (Hf : filter (fun x => Py.gtb x hi) (a :: t) = a :: t).
        { apply forallb_filter_id. apply forallb_forall.
          apply Forall_forall. exact Hall. }
        rewrite Hf in Hc. cbn [length] in *. lia.
      * pose proof E as E'. apply gtb_false in E. constructor; [exact E |].
        apply IH; [exact Ht |].
        cbn [filter] in Hc. rewrite E' in Hc. exact Hc.
Qed.

(** Trimming [k] entries from each end of the sorted readings leaves only
    readings in [[lo, hi]] when at most [k] readings lie below [lo] and at
    most [k] above [hi]. *)
Lemma trimmed_within lo hi k readings :
  (count_below lo readings <= k)%nat -> (count_above hi readings <= k)%nat ->
  Forall (within lo hi) (Py.slice_both k (Py.sort readings)).
Proof.
  intros Hlo Hhi.
  pose proof (sort_strongly_sorted readings) as Hs.
  pose proof (sort_perm readings) as Hp.
  unfold count_below in Hlo. unfold count_above in Hhi.
  rewrite <- (count_perm (fun x => Py.ltb x lo) _ _ Hp) in Hlo.
  rewrite <- (count_perm (fun x => Py.gtb x hi) _ _ Hp) in Hhi.
  pose proof (sorted_skip_low lo _ k Hs Hlo) as A.
  pose proof (sorted_drop_high hi _ k Hs Hhi) as B.
  unfold Py.slice_both.
  assert (A' : Forall (fun x => lo <= x)
                 (skipn k (firstn (length (Py.sort readings) - k)
                             (Py.sort readings)))).
  { rewrite skipn_firstn_comm. apply Forall_firstn_of. exact A. }
  assert (B' : Forall (fun x => x <= hi)
                 (skipn k (firstn (length (Py.sort readings) - k)
                             (Py.sort readings)))).
  { apply Forall_skipn_of. exact B. }
  apply Forall_forall. intros x Hx. split.
  - exact (proj1 (Forall_forall _ _) A' x Hx).
  - exact (proj1 (Forall_forall _ _) B' x Hx).
Qed.

(** X5.  Outlier rejection of [get_averaged_rssi].  With [n >= 5] valid
    readings of which at most [n / 10] lie below [lo] and at most [n / 10]
    above [hi], the estimate lies in [[lo, hi]]: from 10 valid readings on,
    one reading too low and one too high cannot pull the estimate out of the
    range of the others.  (For 5 to 9 readings [n / 10] is 0 and the
    hypothesis allows no outlier.) *)
Theorem burst_rejects_outliers (reads : list (option Q)) (lo hi : Q) :
  let readings := WiFiSensor.collect reads in
  let k := (length readings / 10)%nat in
  (5 <= length readings)%nat ->
  (count_below lo readings <= k)%nat ->
  (count_above hi readings <= k)%nat ->
  exists m, WiFiSensor.get_averaged_rssi reads = Some m /\ within lo hi m.
Proof.
  intros readings k H5 Hlo Hhi.
  exists (Py.mean (kept readings)). split.
  - apply get_averaged_rssi_at_least_5. exact H5.
  - apply mean_within; [apply kept_nonempty, H5 |].
    pose proof (trimmed_within lo hi k readings Hlo Hhi) as Ht.
    unfold kept. fold k. destruct (0 <? k)%nat eqn:E; [exact Ht |].
    apply Nat.ltb_ge in E. assert (k = 0%nat) by lia.
    replace k with 0%nat in Ht by lia.
    unfold Py.slice_both in Ht. rewrite Nat.sub_0_r, firstn_all in Ht.
    exact Ht.
Qed.

Lemma burst_rejects_outliers_witness :
  let reads := [Some (-52); Some (-90); None; Some (-49); Some (-51); Some (-50);
                Some (-48); Some (-53); Some (-20); Some (-50); Some (-51);
                Some (-49)] in
  let readings := WiFiSensor.collect reads in
  let k := (length readings / 10)%nat in
  (5 <= length readings)%nat /\
  (count_below (-53) readings <= k)%nat /\
  (count_above (-48) readings <= k)%nat /\
  exists m, WiFiSensor.get_averaged_rssi reads = Some m /\ within (-53) (-48) m.
Proof.
  intros reads readings k.
  assert (H1 : (5 <= length readings)%nat) by (vm_compute; lia).
  assert (H2 : (count_below (-53) readings <= k)%nat) by (vm_compute; lia).
  assert (H3 : (count_above (-48) readings <= k)%nat) by (vm_compute; lia).
  split; [exact H1 | split; [exact H2 | split; [exact H3 |]]].
  exact (burst_rejects_outliers reads (-53) (-48) H1 H2 H3).
Defined.

(** What [get_stable_rssi] returns, by the number of valid readings. *)
Lemma get_stable_rssi_cases reads :
  let readings := WiFiSensor.collect reads in
  (readings = [] /\ Test25.get_stable_rssi reads = None) \/
  (readings <> [] /\ (length readings < 3)%nat /\
   Test25.get_stable_rssi reads = Some (Py.mean readings)) \/
  ((3 <= length readings)%nat /\
   Py.slice_both 1 (Py.sort readings) <> [] /\
   Test25.get_stable_rssi reads
   = Some (Py.mean (Py.slice_both 1 (Py.sort readings)))).
Proof.
  intros readings. unfold Test25.get_stable_rssi. fold readings.
  destruct readings as [| r0 rs] eqn:E.
  - left. split; reflexivity.
  - right. rewrite <- E.
    destruct (Nat.lt_ge_cases (length readings) 3) as [Hlt | Hge].
    + left. split; [rewrite E; discriminate |]. split; [exact Hlt |].
      pose proof Hlt as Hb. apply Nat.leb_gt in Hb. rewrite Hb.
      rewrite E. reflexivity.
    + right. split; [exact Hge |].
      pose proof Hge as Hb. apply Nat.leb_le in Hb. rewrite Hb.
      assert (Hne : Py.slice_both 1 (Py.sort readings) <> []).
      { intros Hnil.
        pose proof (slice_both_length 1 (Py.sort readings)) as L.
        rewrite Hnil, sort_length in L.
        change (length (@nil Q)) with 0%nat in L. lia. }
      split; [exact Hne |].
      destruct (Py.slice_both 1 (Py.sort readings)); [congruence | reflexivity].
Qed.

(** X6.  [get_stable_rssi] of test25.py returns [None] exactly when no read
    produced a value: its second [if not readings] never fires, because the
    smallest and the largest reading are dropped only from three or more.
    With one or two valid readings it returns their plain mean. *)
Theorem stable_rssi_none_only_without_readings (reads : list (option Q)) :
  let readings := WiFiSensor.collect reads in
  (Test25.get_stable_rssi reads = None <-> readings = []) /\
  ((0 < length readings < 3)%nat ->
   Test25.get_stable_rssi reads = Some (Py.mean readings)).
Proof.
  intros readings.
  destruct (get_stable_rssi_cases reads) as [[E R] | [(NE & L & R) | (H3 & _ & R)]];
    fold readings in E || fold readings in NE || fold readings in H3.
  - split; [split; auto |]. rewrite E. cbn [length]. lia.
  - split; [split; [congruence | intros; contradiction] |]. intros _. exact R.
  - split; [| lia]. split; [congruence |].
    intros E. rewrite E in H3. cbn [length] in H3. lia.
Qed.

(** X7.  Outlier rejection of [get_stable_rssi].  With three or more valid
    readings of which at most one lies below [lo] and at most one above [hi],
    the estimate lies in [[lo, hi]]: a single spike in either direction does
    not reach the Kalman filter. *)
Theorem stable_rssi_rejects_one_spike (reads : list (option Q)) (lo hi : Q) :
  let readings := WiFiSensor.collect reads in
  (3 <= length readings)%nat ->
  (count_below lo readings <= 1)%nat ->
  (count_above hi readings <= 1)%nat ->
  exists m, Test25.get_stable_rssi reads = Some m /\ within lo hi m.
Proof.
  intros readings H3 Hlo Hhi.
  destruct (get_stable_rssi_cases reads) as [[E R] | [(NE & L & R) | (_ & Hne & R)]];
    fold readings in E || fold readings in L || idtac.
  - rewrite E in H3. cbn [length] in H3. lia.
  - lia.
  - eexists. split; [exact R |].
    apply mean_within; [exact Hne |].
    apply trimmed_within; assumption.
Qed.

Lemma stable_rssi_rejects_one_spike_witness :
  let reads := [Some (-50); Some (-95); None; Some (-52); Some (-10); Some (-51)] in
  let readings := WiFiSensor.collect reads in
  (3 <= length readings)%nat /\
  (count_below (-52) readings <= 1)%nat /\
  (count_above (-50) readings <= 1)%nat /\
  exists m, Test25.get_stable_rssi reads = Some m /\ within (-52) (-50) m.
Proof.
  intros reads readings.
  assert (H1 : (3 <= length readings)%nat) by (vm_compute; lia).
  assert (H2 : (count_below (-52) readings <= 1)%nat) by (vm_compute; lia).
  assert (H3 : (count_above (-50) readings <= 1)%nat) by (vm_compute; lia).
  split; [exact H1 | split; [exact H2 | split; [exact H3 |]]].
  exact (stable_rssi_rejects_one_spike reads (-52) (-50) H1 H2 H3).
Defined.

(** ** The loops of final_version.py and wifi_bot3.py *)

Lemma fv_break_keeps cfg c i c' out :
  FinalVersion.iteration cfg c i = (c', out, Break) -> c' = c.
Proof.
  unfold FinalVersion.iteration.
  destruct (FinalVersion.curr_rssi i) as [curr |]; [| congruence].
  destruct c as [st prev sst drops oc vc vh].
  destruct st; cbn [FinalVersion.state NavState_eqb negb];
    unfold FinalVersion.check_obstacle;
    try (destruct (FinalVersion.close cfg (FinalVersion.dist i));
         cbn [FinalVersion.set_obstacle_counter FinalVersion.obstacle_counter
              FinalVersion.state];
         match goal with
         | |- context [(2 <=? ?n)%nat] => destruct (2 <=? n)%nat
         end;
         cbn [FinalVersion.avoid_obstacle FinalVersion.state];
         repeat match goal with
         | |- context [let '(_, _) := ?h in _] => destruct h
         end; congruence).
  congruence.
Qed.

Lemma fv_invariant_start cfg t0 start_val t1 :
  fv_loop_invariant cfg
    (FinalVersion.calibrate (FinalVersion.init t0) start_val t1).
Proof.
  unfold fv_loop_invariant, FinalVersion.calibrate.
  destruct start_val as [v |]; [destruct (Py.truthy v) |];
    cbn; repeat split; try discriminate; try lia.
Qed.

Ltac fv_unfold H :=
  unfold FinalVersion.iteration, FinalVersion.check_obstacle,
    FinalVersion.avoid_obstacle, FinalVersion.handle_search,
    FinalVersion.handle_approach, FinalVersion.handle_verify,
    FinalVersion.set_state, FinalVersion.set_prev_avg_rssi,
    FinalVersion.set_search_start_time, FinalVersion.set_consecutive_drops,
    FinalVersion.set_obstacle_counter, FinalVersion.set_verify_counter,
    FinalVersion.set_verify_hits in H.

Ltac fv_proj H :=
  cbn [FinalVersion.state FinalVersion.prev_avg_rssi
       FinalVersion.search_start_time FinalVersion.consecutive_drops
       FinalVersion.obstacle_counter FinalVersion.verify_counter
       FinalVersion.verify_hits NavState_eqb negb] in H.

Ltac split_ifs H proj :=
  repeat (proj H;
          match type of H with
          | context [if ?b then _ else _] => destruct b eqn:?
          end).

Ltac nat_tests :=
  repeat match goal with
  | E : (_ <=? _)%nat = true |- _ => apply Nat.leb_le in E
  | E : (_ <=? _)%nat = false |- _ => apply Nat.leb_gt in E
  end.

Lemma fv_invariant_pass cfg c i c' out flow :
  (0 < FinalVersion.VERIFY_TOTAL_CHECKS cfg)%nat ->
  fv_loop_invariant cfg c ->
  FinalVersion.iteration cfg c i = (c', out, flow) -> flow <> Break ->
  fv_loop_invariant cfg c'.
Proof.
  intros Hpos (Hav & Hdr & Hhc & Hver & Hfin) Hit Hfl.
  destruct (FinalVersion.curr_rssi i) as [curr |] eqn:Ecurr.
  2:{ unfold FinalVersion.iteration in Hit. rewrite Ecurr in Hit.
      injection Hit as <- _ _.
      exact (conj Hav (conj Hdr (conj Hhc (conj Hver Hfin)))). }
  destruct c as [st prev sst drops oc vc vh].
  cbn [FinalVersion.state FinalVersion.consecutive_drops
       FinalVersion.verify_hits FinalVersion.verify_counter] in *.
  fv_unfold Hit. rewrite Ecurr in Hit.
  destruct st; try congruence;
    [| | specialize (Hver eq_refl) |];
    split_ifs Hit fv_proj; fv_proj Hit;
    injection Hit as <- _ Hflow; try congruence;
    nat_tests; unfold fv_loop_invariant;
    cbn [FinalVersion.state FinalVersion.consecutive_drops
         FinalVersion.obstacle_counter
         FinalVersion.verify_hits FinalVersion.verify_counter] in *;
    (split; [discriminate |]);
    (split; [lia |]); (split; [lia |]);
    (split; [intros; try discriminate; lia |]);
    intros; try discriminate; lia.
Qed.

Lemma fv_invariant_reachable cfg c :
  (0 < FinalVersion.VERIFY_TOTAL_CHECKS cfg)%nat ->
  FinalVersion.reachable cfg c -> fv_loop_invariant cfg c.
Proof.
  intros Hpos. induction 1 as [t0 sv t1 | c i c' out flow _ IH Hit Hfl].
  - apply fv_invariant_start.
  - exact (fv_invariant_pass cfg c i c' out flow Hpos IH Hit Hfl).
Qed.

(** Every controller [run] lists is one a pass can begin in. *)
Lemma fv_run_reachable cfg inputs : forall c,
  FinalVersion.reachable cfg c ->
  Forall (FinalVersion.reachable cfg) (FinalVersion.run cfg c inputs).
Proof.
  induction inputs as [| i inputs IH]; intros c Hc; cbn [FinalVersion.run].
  - constructor.
  - destruct (FinalVersion.iteration cfg c i) as [[c' out] flow] eqn:Hit.
    destruct flow.
    + assert (Hc' : FinalVersion.reachable cfg c')
        by (eapply FinalVersion.reach_pass; [exact Hc | exact Hit | discriminate]).
      constructor; [exact Hc' | apply IH, Hc'].
    + assert (Hc' : FinalVersion.reachable cfg c')
        by (eapply FinalVersion.reach_pass; [exact Hc | exact Hit | discriminate]).
      constructor; [exact Hc' | apply IH, Hc'].
    + apply fv_break_keeps in Hit. subst c'. constructor; [exact Hc | constructor].
Qed.

(** X8.  final_version.py reports the target found only on a completed
    verification.  Whenever a pass of the loop begins (any calibration, any
    sequence of signal, distance and clock readings before it), with
    VERIFY_TOTAL_CHECKS positive: the state is never AVOID, the drop counter
    is at most 2, the hits never exceed the checks, a verification under way
    has not yet made its last check, and in FINISH the check counter is
    exactly VERIFY_TOTAL_CHECKS with at least VERIFY_REQUIRED_HITS hits. *)
Theorem fv_finish_only_after_verification (cfg : FinalVersion.Config)
  (c : FinalVersion.Controller) :
  (0 < FinalVersion.VERIFY_TOTAL_CHECKS cfg)%nat ->
  FinalVersion.reachable cfg c ->
  fv_loop_invariant cfg c.
Proof. exact (fv_invariant_reachable cfg c). Qed.

Lemma fv_finish_only_after_verification_witness :
  let cfg := FinalVersion.settings in
  let start := FinalVersion.calibrate (FinalVersion.init 0) (Some (-70)) 0 in
  let samples := [-60; -50; -48] ++ repeat (-48) 4 ++ repeat (-49) 16 in
  let c := last (FinalVersion.run cfg start (fv_clear_passes samples)) start in
  (0 < FinalVersion.VERIFY_TOTAL_CHECKS cfg)%nat /\
  FinalVersion.reachable cfg c /\
  FinalVersion.state c = FINISH /\
  fv_loop_invariant cfg c.
Proof.
  intros cfg start samples c.
  assert (Hpos : (0 < FinalVersion.VERIFY_TOTAL_CHECKS cfg)%nat)
    by (vm_compute; lia).
  assert (Hreach : FinalVersion.reachable cfg c).
  { assert (Hall : Forall (FinalVersion.reachable cfg)
                     (FinalVersion.run cfg start (fv_clear_passes samples)))
      by (apply fv_run_reachable, FinalVersion.reach_start).
    assert (Hin : In c (FinalVersion.run cfg start (fv_clear_passes samples)))
      by (vm_compute; tauto).
    exact (proj1 (Forall_forall _ _) Hall c Hin). }
  split; [exact Hpos | split; [exact Hreach | split; [vm_compute; reflexivity |]]].
  exact (fv_finish_only_after_verification cfg c Hpos Hreach).
Defined.

Ltac wb_unfold H :=
  unfold WifiBot3.iteration, WifiBot3.check_obstacle,
    WifiBot3.avoid_obstacle, WifiBot3.handle_search,
    WifiBot3.handle_approach, WifiBot3.handle_verify,
    WifiBot3.set_state, WifiBot3.set_prev_avg_rssi,
    WifiBot3.set_spiral_angle, WifiBot3.set_consecutive_drops,
    WifiBot3.set_obstacle_counter, WifiBot3.set_verify_counter,
    WifiBot3.set_verify_hits in H.

Ltac wb_proj H :=
  cbn [WifiBot3.state WifiBot3.prev_avg_rssi
       WifiBot3.spiral_angle WifiBot3.consecutive_drops
       WifiBot3.obstacle_counter WifiBot3.verify_counter
       WifiBot3.verify_hits NavState_eqb negb] in H.

Lemma wb_break_keeps cfg c i c' out :
  WifiBot3.iteration cfg c i = (c', out, Break) -> c' = c.
Proof.
  intros Hit.
  destruct (WifiBot3.curr_rssi i) as [curr |] eqn:Ecurr.
  2:{ unfold WifiBot3.iteration in Hit. rewrite Ecurr in Hit. congruence. }
  destruct c as [st prev sp drops oc vc vh].
  wb_unfold Hit. rewrite Ecurr in Hit.
  destruct st; split_ifs Hit wb_proj; wb_proj Hit; congruence.
Qed.

Lemma wb_invariant_start cfg start_val :
  wb_loop_invariant cfg (WifiBot3.calibrate WifiBot3.init start_val) /\
  wb_spiral_in_band (WifiBot3.calibrate WifiBot3.init start_val).
Proof.
  unfold wb_loop_invariant, wb_spiral_in_band, WifiBot3.calibrate.
  destruct start_val as [v |]; [destruct (Py.truthy v) |];
    cbn [WifiBot3.init WifiBot3.set_prev_avg_rssi WifiBot3.state
         WifiBot3.spiral_angle WifiBot3.consecutive_drops
         WifiBot3.verify_counter WifiBot3.verify_hits];
    (split; [| split; vm_compute; congruence]);
    (split; [discriminate |]); (split; [lia |]); (split; [lia |]);
    split; discriminate.
Qed.

Lemma wb_invariant_pass cfg c i c' out flow :
  (0 < WifiBot3.VERIFY_TOTAL_CHECKS cfg)%nat ->
  wb_loop_invariant cfg c ->
  WifiBot3.iteration cfg c i = (c', out, flow) -> flow <> Break ->
  wb_loop_invariant cfg c'.
Proof.
  intros Hpos (Hav & Hdr & Hhc & Hver & Hfin) Hit Hfl.
  destruct (WifiBot3.curr_rssi i) as [curr |] eqn:Ecurr.
  2:{ unfold WifiBot3.iteration in Hit. rewrite Ecurr in Hit.
      injection Hit as <- _ _.
      exact (conj Hav (conj Hdr (conj Hhc (conj Hver Hfin)))). }
  destruct c as [st prev sp drops oc vc vh].
  cbn [WifiBot3.state WifiBot3.consecutive_drops
       WifiBot3.verify_hits WifiBot3.verify_counter] in *.
  wb_unfold Hit. rewrite Ecurr in Hit.
  destruct st; try congruence;
    [| | specialize (Hver eq_refl) |];
    split_ifs Hit wb_proj; wb_proj Hit;
    injection Hit as <- _ Hflow; try congruence;
    nat_tests; unfold wb_loop_invariant;
    cbn [WifiBot3.state WifiBot3.consecutive_drops
         WifiBot3.obstacle_counter
         WifiBot3.verify_hits WifiBot3.verify_counter] in *;
    (split; [discriminate |]);
    (split; [lia |]); (split; [lia |]);
    (split; [intros; try discriminate; lia |]);
    intros; try discriminate; lia.
Qed.

(** A pass of wifi_bot3.py from a spiral angle in the band: every steering
    call is within 35 degrees and the band is kept. *)
Lemma wb_pass_steer cfg c i :
  wb_spiral_in_band c ->
  Forall (steer_ok 35) (snd (fst (WifiBot3.iteration cfg c i))) /\
  wb_spiral_in_band (fst (fst (WifiBot3.iteration cfg c i))).
Proof.
  intros [Hlo Hhi].
  destruct (WifiBot3.iteration cfg c i) as [[c' out] flow] eqn:Hit.
  cbn [fst snd].
  destruct (WifiBot3.curr_rssi i) as [curr |] eqn:Ecurr.
  2:{ unfold WifiBot3.iteration in Hit. rewrite Ecurr in Hit.
      injection Hit as <- <- _. split; [constructor | split; assumption]. }
  destruct c as [st prev sp drops oc vc vh].
  unfold wb_spiral_in_band. cbn [WifiBot3.spiral_angle] in *.
  wb_unfold Hit. rewrite Ecurr in Hit. unfold center_head in Hit.
  destruct st; split_ifs Hit wb_proj; wb_proj Hit;
    injection Hit as <- <- _; cbn [WifiBot3.spiral_angle app];
    repeat match goal with
    | E : Py.ltb _ _ = true |- _ => apply ltb_true in E
    | E : Py.ltb _ _ = false |- _ => apply ltb_false in E
    end;
    (split; [| split; lra]);
    repeat (apply Forall_cons || apply Forall_nil);
    try exact I; cbn [steer_ok]; split; lra.
Qed.

Lemma wb_reachable_invariant cfg c :
  (0 < WifiBot3.VERIFY_TOTAL_CHECKS cfg)%nat ->
  WifiBot3.reachable cfg c -> wb_loop_invariant cfg c.
Proof.
  intros Hpos. induction 1 as [sv | c i c' out flow _ IH Hit Hfl].
  - apply wb_invariant_start.
  - exact (wb_invariant_pass cfg c i c' out flow Hpos IH Hit Hfl).
Qed.

Lemma wb_reachable_in_band cfg c :
  WifiBot3.reachable cfg c -> wb_spiral_in_band c.
Proof.
  induction 1 as [sv | c i c' out flow _ IH Hit Hfl].
  - apply wb_invariant_start. exact cfg.
  - destruct (wb_pass_steer cfg c i IH) as [_ H']. rewrite Hit in H'. exact H'.
Qed.

Lemma wb_run_reachable cfg inputs : forall c,
  WifiBot3.reachable cfg c ->
  Forall (WifiBot3.reachable cfg) (wb_run cfg c inputs).
Proof.
  induction inputs as [| i inputs IH]; intros c Hc; cbn [wb_run].
  - constructor.
  - destruct (WifiBot3.iteration cfg c i) as [[c' out] flow] eqn:Hit.
    destruct flow.
    + assert (Hc' : WifiBot3.reachable cfg c')
        by (eapply WifiBot3.reach_pass; [exact Hc | exact Hit | discriminate]).
      constructor; [exact Hc' | apply IH, Hc'].
    + assert (Hc' : WifiBot3.reachable cfg c')
        by (eapply WifiBot3.reach_pass; [exact Hc | exact Hit | discriminate]).
      constructor; [exact Hc' | apply IH, Hc'].
    + apply wb_break_keeps in Hit. subst c'. constructor; [exact Hc | constructor].
Qed.

(** A pass of final_version.py: every steering call is within 35 degrees,
    whatever the controller and the readings. *)
Lemma fv_pass_steer cfg c i :
  Forall (steer_ok 35) (snd (fst (FinalVersion.iteration cfg c i))).
Proof.
  destruct (FinalVersion.iteration cfg c i) as [[c' out] flow] eqn:Hit.
  cbn [fst snd].
  destruct (FinalVersion.curr_rssi i) as [curr |] eqn:Ecurr.
  2:{ unfold FinalVersion.iteration in Hit. rewrite Ecurr in Hit.
      injection Hit as _ <- _. constructor. }
  destruct c as [st prev sst drops oc vc vh].
  fv_unfold Hit. rewrite Ecurr in Hit.
  destruct st; split_ifs Hit fv_proj; fv_proj Hit;
    injection Hit as _ <- _;
    repeat (apply Forall_cons || apply Forall_nil);
    try exact I; cbn [steer_ok]; split; lra.
Qed.

(** X9.  wifi_bot3.py reports the target found only on a completed
    verification.  Whenever a pass of its loop begins, with
    VERIFY_TOTAL_CHECKS positive: the state is never AVOID, the drop counter
    is at most 2, the hits never exceed the checks, a verification under way
    has not yet made its last check, and in FINISH the check counter is
    exactly VERIFY_TOTAL_CHECKS with at least VERIFY_REQUIRED_HITS hits. *)
Theorem wb_finish_only_after_verification (cfg : WifiBot3.Config)
  (c : WifiBot3.Controller) :
  (0 < WifiBot3.VERIFY_TOTAL_CHECKS cfg)%nat ->
  WifiBot3.reachable cfg c ->
  wb_loop_invariant cfg c.
Proof. exact (wb_reachable_invariant cfg c). Qed.

Lemma wb_finish_only_after_verification_witness :
  let cfg := WifiBot3.settings in
  let start := WifiBot3.calibrate WifiBot3.init (Some (-70)) in
  let samples := [-60; -50; -44] ++ repeat (-44) 5 ++ repeat (-46) 25 in
  let c := last (wb_run cfg start (wb_clear_passes samples)) start in
  (0 < WifiBot3.VERIFY_TOTAL_CHECKS cfg)%nat /\
  WifiBot3.reachable cfg c /\
  WifiBot3.state c = FINISH /\
  wb_loop_invariant cfg c.
Proof.
  intros cfg start samples c.
  assert (Hpos : (0 < WifiBot3.VERIFY_TOTAL_CHECKS cfg)%nat)
    by (vm_compute; lia).
  assert (Hreach : WifiBot3.reachable cfg c).
  { assert (Hall : Forall (WifiBot3.reachable cfg)
                     (wb_run cfg start (wb_clear_passes samples)))
      by (apply wb_run_reachable, WifiBot3.reach_start).
    assert (Hin : In c (wb_run cfg start (wb_clear_passes samples)))
      by (vm_compute; tauto).
    exact (proj1 (Forall_forall _ _) Hall c Hin). }
  split; [exact Hpos | split; [exact Hreach | split; [vm_compute; reflexivity |]]].
  exact (wb_finish_only_after_verification cfg c Hpos Hreach).
Defined.

(** X10.  The steering commands of wifi_bot3.py and final_version.py stay
    within 35 degrees of centre.  In wifi_bot3.py the search hands the spiral
    angle itself to the servo; from the initial -30 it climbs by 0.5 per
    search pass while negative and is reset to -35 otherwise, so whenever a
    pass begins it is in [-35, 0.5), and every steering call of the pass is
    within [-35, 35].  final_version.py steers by constants only, whatever
    the controller. *)
Theorem averaging_controllers_steer_within_limits
  (cfg3 : WifiBot3.Config) (c3 : WifiBot3.Controller) (i3 : WifiBot3.Input)
  (cfg : FinalVersion.Config) (c : FinalVersion.Controller)
  (i : FinalVersion.Input) :
  WifiBot3.reachable cfg3 c3 ->
  wb_spiral_in_band c3 /\
  Forall (steer_ok 35) (snd (fst (WifiBot3.iteration cfg3 c3 i3))) /\
  Forall (steer_ok 35) (snd (fst (FinalVersion.iteration cfg c i))).
Proof.
  intros H3. pose proof (wb_reachable_in_band cfg3 c3 H3) as Hband.
  split; [exact Hband |]. split.
  - apply (wb_pass_steer cfg3 c3 i3 Hband).
  - apply fv_pass_steer.
Qed.

Lemma averaging_controllers_steer_within_limits_witness :
  let cfg3 := WifiBot3.settings in
  let start := WifiBot3.calibrate WifiBot3.init None in
  let c3 := last (wb_run cfg3 start (wb_clear_passes (repeat (-70) 61))) start in
  let i3 := WifiBot3.mkInput (Some (-70)) None None None in
  let cfg := FinalVersion.settings in
  let c := FinalVersion.init 0 in
  let i := FinalVersion.mkInput (Some (-70)) None 9 in
  WifiBot3.reachable cfg3 c3 /\
  WifiBot3.spiral_angle c3 = -35 /\
  wb_spiral_in_band c3 /\
  Forall (steer_ok 35) (snd (fst (WifiBot3.iteration cfg3 c3 i3))) /\
  Forall (steer_ok 35) (snd (fst (FinalVersion.iteration cfg c i))).
Proof.
  intros cfg3 start c3 i3 cfg c i.
  assert (Hreach : WifiBot3.reachable cfg3 c3).
  { assert (Hall : Forall (WifiBot3.reachable cfg3)
                     (wb_run cfg3 start (wb_clear_passes (repeat (-70) 61))))
      by (apply wb_run_reachable, WifiBot3.reach_start).
    assert (Hin : In c3 (wb_run cfg3 start (wb_clear_passes (repeat (-70) 61))))
      by (vm_compute; tauto).
    exact (proj1 (Forall_forall _ _) Hall c3 Hin). }
  split; [exact Hreach |]. split; [vm_compute; reflexivity |].
  exact (averaging_controllers_steer_within_limits cfg3 c3 i3 cfg c i Hreach).
Defined.

(** ** The loop of test25.py *)

Lemma t25_sense_fields c raw :
  let c1 := fst (Test25.sense c raw) in
  Test25.state c1 = Test25.state c /\
  Test25.obstacle_counter c1 = Test25.obstacle_counter c /\
  Test25.verify_hits c1 = Test25.verify_hits c /\
  Test25.spiral_angle c1 = Test25.spiral_angle c.
Proof.
  unfold Test25.sense. destruct raw as [z |]; [| cbn; auto].
  destruct (Kalman.filter (Test25.kf c) (Some z)) as [k rssi]. cbn. auto.
Qed.




Lemma t25_invariant_start start_val :
  t25_loop_invariant (Test25.calibrate Test25.init start_val) /\
  spiral_in_band25 (Test25.calibrate Test25.init start_val).
Proof.
  unfold t25_loop_invariant, spiral_in_band25, Test25.calibrate.
  destruct start_val as [v |]; [destruct (Py.truthy v) |];
    cbn [Test25.init Test25.set_kf Test25.state Test25.obstacle_counter
         Test25.verify_hits Test25.spiral_angle Test25.kf Test25.last_rssi
         Test25.verify_start_time];
    (split; [| split; vm_compute; congruence]);
    (split; [discriminate |]);
    (split; [unfold Test25.OBSTACLE_CONFIRM_COUNT; lia | discriminate]).
Qed.



(** One more pass from a controller a pass can begin in. *)
Lemma t25_reach_step c i :
  Test25.reachable c -> snd (Test25.tick c i) <> Break ->
  Test25.reachable (fst (fst (Test25.tick c i))).
Proof.
  intros Hc Hfl. destruct (Test25.tick c i) as [[c' out] flow] eqn:Ht.
  cbn [fst snd] in *. exact (Test25.reach_tick c i c' out flow Hc Ht Hfl).
Qed.




(** ** Steering in test25.py *)

Section SteeringTest25.

Import Test25.

Lemma t25_filter_spiral c d : spiral_angle (obstacle_filter c d) = spiral_angle c.
Proof.
  unfold obstacle_filter.
  destruct (negb _); [| reflexivity].
  destruct (close d); cbn [set_obstacle_counter obstacle_counter];
    match goal with
    | |- context [if ?b then _ else _] => destruct b
    end; reflexivity.
Qed.

Lemma t25_dispatch_steer c rssi i :
  spiral_in_band25 c ->
  Forall (steer_ok MAX_STEER_ANGLE) (snd (fst (dispatch c rssi i))) /\
  spiral_in_band25 (fst (fst (dispatch c rssi i))).
Proof.
  intros [Hlo Hhi]. unfold dispatch, spiral_in_band25.
  destruct (state c).
  - (* SEARCH *)
    destruct (Py.gtb rssi APPROACH_THRESHOLD); cbn [fst snd].
    + split; [steer_list | split; assumption].
    + split.
      * steer_list. apply int_steer_ok; [exact Hlo |].
        apply Qlt_le_weak, (Qlt_trans _ _ _ Hhi). reflexivity.
      * destruct (Py.ltb (spiral_angle c) 0) eqn:E;
          cbn [spiral_angle set_last_rssi set_spiral_angle].
        -- apply ltb_true in E. unfold MAX_STEER_ANGLE in *. split; lra.
        -- split; [apply Qle_refl | reflexivity].
  - (* APPROACH *)
    destruct (Py.geb rssi TARGET_RSSI); cbn [fst snd].
    + split; [steer_list | split; assumption].
    + destruct (Py.geb (rssi - last_rssi c) 0); cbn [fst snd];
        (split; [steer_list | split; assumption]).
  - (* VERIFY *)
    cbv zeta.
    destruct (Py.geb rssi TARGET_RSSI);
      destruct (Py.gtb _ VERIFY_DURATION);
      try match goal with
      | |- context [(VERIFY_REQUIRED_HITS <=? ?n)%nat] =>
          destruct (VERIFY_REQUIRED_HITS <=? n)%nat
      end;
      cbn [fst snd]; (split; [steer_list | split; assumption]).
  - (* AVOID *)
    unfold scan_surroundings.
    destruct (Py.gtb (or_0 (dist_left i)) (or_0 (dist_right i)));
      cbn [fst snd]; (split; [unfold center_head; steer_list | split; assumption]).
  - (* FINISH *)
    cbn [fst snd]. split; [steer_list | split; assumption].
Qed.

Lemma t25_tick_steer c i :
  spiral_in_band25 c ->
  Forall (steer_ok MAX_STEER_ANGLE) (snd (fst (tick c i))) /\
  spiral_in_band25 (fst (fst (tick c i))).
Proof.
  intros Hband. unfold tick.
  destruct (t25_sense_fields c (raw_rssi i)) as (_ & _ & _ & E1).
  destruct (sense c (raw_rssi i)) as [c1 rssi]. cbn [fst] in E1.
  pose proof (t25_filter_spiral c1 (dist i)) as E2.
  apply t25_dispatch_steer.
  unfold spiral_in_band25 in *. rewrite E2, E1. exact Hband.
Qed.

Lemma t25_reachable_in_band c : reachable c -> spiral_in_band25 c.
Proof.
  induction 1 as [sv | c i c' out flow _ IH Ht _].
  - apply t25_invariant_start.
  - destruct (t25_tick_steer c i IH) as [_ H']. rewrite Ht in H'. exact H'.
Qed.

End SteeringTest25.

(** X13.  Every steering call of a pass of test25.py is within
    MAX_STEER_ANGLE = 35 degrees of centre, whatever the pass reads.  The
    search hands [int(spiral_angle)] to the servo; whenever a pass begins the
    spiral angle is in [-35, 0.05); the avoidance turns by [direction * 35]
    with [direction] -1 or 1; the approach steers by 0 or 20. *)
Theorem t25_steer_angle_within_limits (c : Test25.Controller)
  (i : Test25.Input) :
  Test25.reachable c ->
  spiral_in_band25 c /\
  Forall (steer_ok Test25.MAX_STEER_ANGLE) (snd (fst (Test25.tick c i))).
Proof.
  intros Hc. pose proof (t25_reachable_in_band c Hc) as Hband.
  split; [exact Hband |]. apply (t25_tick_steer c i Hband).
Qed.

Lemma t25_steer_angle_within_limits_witness :
  let start := Test25.calibrate Test25.init (Some (-70)) in
  let c1 := fst (fst (Test25.tick start t25_pass_wall)) in
  let c2 := fst (fst (Test25.tick c1 t25_pass_wall)) in
  Test25.reachable c2 /\
  snd (fst (Test25.tick c2 t25_pass_wall))
  = [stop; sleep 0.2; set_cam_pan_angle (-45); sleep 0.3;
     set_cam_pan_angle 45; sleep 0.3; set_cam_pan_angle 0;
     set_cam_tilt_angle 0; set_dir_servo_angle 0; backward 40; sleep 0.8;
     set_dir_servo_angle (1 * Test25.MAX_STEER_ANGLE); forward 40; sleep 0.5;
     sleep 0.01] /\
  spiral_in_band25 c2 /\
  Forall (steer_ok Test25.MAX_STEER_ANGLE)
    (snd (fst (Test25.tick c2 t25_pass_wall))).
Proof.
  intros start c1 c2.
  assert (Hreach : Test25.reachable c2).
  { apply t25_reach_step; [| vm_compute; discriminate].
    apply t25_reach_step; [| vm_compute; discriminate].
    apply Test25.reach_start. }
  split; [exact Hreach |]. split; [reflexivity |].
  exact (t25_steer_angle_within_limits c2 t25_pass_wall Hreach).
Defined.

(** ** The ultrasonic check of test24.py and test12.py comes first *)

Lemma t24_dispatch_avoid c rssi i :
  Test24.state c = AVOID ->
  avoided (Test24.state (fst (fst (Test24.dispatch c rssi i))))
    (snd (fst (Test24.dispatch c rssi i))) (snd (Test24.dispatch c rssi i))
    (Test24.last_rssi (fst (fst (Test24.dispatch c rssi i)))) rssi
    Test24.SPEED_SEARCH.
Proof.
  intros E. unfold Test24.dispatch. rewrite E.
  destruct (Test24.scores i) as [s |].
  - cbn [fst snd Test24.state Test24.last_rssi Test24.set_last_rssi
         Test24.set_state app].
    repeat split. right. left. reflexivity.
  - destruct (Test24.scan_surroundings (Test24.dist_left i) (Test24.dist_right i))
      as [direction scan].
    cbn [fst snd Test24.state Test24.last_rssi Test24.set_last_rssi
         Test24.set_state].
    repeat split. apply in_or_app. right. right. left. reflexivity.
Qed.

Lemma t24_close_reading_avoids c i d :
  Test24.dist_cm i = Some d -> 0 < d -> d < Test24.OBSTACLE_DIST_CM ->
  Test24.state c <> FINISH ->
  avoided (Test24.state (fst (fst (Test24.tick c i))))
    (snd (fst (Test24.tick c i))) (snd (Test24.tick c i))
    (Test24.last_rssi (fst (fst (Test24.tick c i))))
    (snd (Test24.sense c (Test24.raw_rssi i))) Test24.SPEED_SEARCH.
Proof.
  intros Hd H0 H1 Hst. unfold Test24.tick.
  assert (S1 : Test24.state (fst (Test24.sense c (Test24.raw_rssi i)))
               = Test24.state c).
  { unfold Test24.sense. destruct (Test24.raw_rssi i); [| reflexivity].
    destruct (Kalman.filter _ _). reflexivity. }
  destruct (Test24.sense c (Test24.raw_rssi i)) as [c1 rssi].
  cbn [fst snd] in *.
  assert (H2 : Test24.state (Test24.hard_safety c1 (Test24.dist_cm i)) = AVOID).
  { unfold Test24.hard_safety. rewrite Hd.
    apply gtb_true in H0. apply ltb_true in H1. rewrite H0, H1, S1.
    destruct (Test24.state c); try contradiction; reflexivity. }
  set (c2 := Test24.hard_safety c1 (Test24.dist_cm i)) in *.
  assert (H3 : Test24.soft_safety c2 (Test24.scores i) = (c2, [])).
  { unfold Test24.soft_safety. rewrite H2.
    destruct (Test24.scores i); reflexivity. }
  rewrite H3.
  pose proof (t24_dispatch_avoid c2 rssi i H2) as H4.
  destruct (Test24.dispatch c2 rssi i) as [[c3 out] flow].
  cbn [fst snd app] in *. exact H4.
Qed.

Lemma t12_close_reading_avoids c i d :
  Test12.dist i = Some d -> 0 < d -> d < Test12.OBSTACLE_DIST_CM ->
  Test12.state c <> FINISH ->
  avoided (Test12.state (fst (fst (Test12.tick c i))))
    (snd (fst (Test12.tick c i))) (snd (Test12.tick c i))
    (Test12.last_rssi (fst (fst (Test12.tick c i))))
    (snd (Test12.sense c (Test12.raw_rssi i))) Test12.SPEED_SEARCH.
Proof.
  intros Hd H0 H1 Hst. unfold Test12.tick.
  assert (S1 : Test12.state (fst (Test12.sense c (Test12.raw_rssi i)))
               = Test12.state c).
  { unfold Test12.sense. destruct (Test12.raw_rssi i); [| reflexivity].
    destruct (Kalman.filter _ _). reflexivity. }
  destruct (Test12.sense c (Test12.raw_rssi i)) as [c1 rssi].
  cbn [fst snd] in *.
  assert (H2 : Test12.state (Test12.obstacle_check c1 (Test12.dist i)) = AVOID).
  { unfold Test12.obstacle_check. rewrite Hd.
    apply gtb_true in H0. apply ltb_true in H1. rewrite H0, H1, S1.
    destruct (Test12.state c); try contradiction; reflexivity. }
  set (c2 := Test12.obstacle_check c1 (Test12.dist i)) in *.
  unfold Test12.dispatch. rewrite H2.
  destruct (Test12.scan_surroundings (Test12.dist_left i) (Test12.dist_right i))
    as [direction scan].
  cbn [fst snd Test12.state Test12.last_rssi Test12.set_last_rssi
       Test12.set_state].
  repeat split. apply in_or_app. right. right. left. reflexivity.
Qed.

Lemma t24_tick_between_passes c i c' out flow :
  between_passes (Test24.state c) ->
  Test24.tick c i = (c', out, flow) -> between_passes (Test24.state c').
Proof.
  intros Hst Ht. unfold Test24.tick in Ht.
  assert (S1 : Test24.state (fst (Test24.sense c (Test24.raw_rssi i)))
               = Test24.state c).
  { unfold Test24.sense. destruct (Test24.raw_rssi i); [| reflexivity].
    destruct (Kalman.filter _ _). reflexivity. }
  destruct (Test24.sense c (Test24.raw_rssi i)) as [c1 rssi]. cbn [fst] in S1.
  assert (H2 : Test24.state (Test24.hard_safety c1 (Test24.dist_cm i)) <> VERIFY).
  { unfold Test24.hard_safety. destruct (Test24.dist_cm i); [| rewrite S1].
    - destruct (_ && _); [discriminate | rewrite S1];
        destruct Hst as [-> | [-> | ->]]; discriminate.
    - destruct Hst as [-> | [-> | ->]]; discriminate. }
  set (c2 := Test24.hard_safety c1 (Test24.dist_cm i)) in *.
  assert (H3 : Test24.state (fst (Test24.soft_safety c2 (Test24.scores i)))
               <> VERIFY).
  { unfold Test24.soft_safety. destruct (Test24.scores i); [| exact H2].
    destruct (_ || _); [| exact H2].
    destruct (_ || _); [discriminate | exact H2]. }
  destruct (Test24.soft_safety c2 (Test24.scores i)) as [c3 steer].
  cbn [fst] in H3.
  unfold Test24.dispatch in Ht. unfold between_passes.
  destruct (Test24.state c3) eqn:E3; try congruence.
  - destruct (Py.gtb rssi Test24.APPROACH_THRESHOLD);
      [| destruct (Py.ltb (Test24.spiral_angle c3) 0)];
      injection Ht as <- _ _; cbn; rewrite ?E3; auto.
  - destruct (Py.geb rssi Test24.TARGET_RSSI);
      [| destruct (Py.geb (rssi - Test24.last_rssi c3) 0)];
      injection Ht as <- _ _; cbn; rewrite ?E3; auto.
  - destruct (match Test24.scores i with
              | Some s => _
              | None => _
              end) as [direction scan].
    injection Ht as <- _ _. cbn. auto.
  - injection Ht as <- _ _. rewrite E3. auto.
Qed.

Lemma t12_tick_between_passes c i c' out flow :
  between_passes (Test12.state c) ->
  Test12.tick c i = (c', out, flow) -> between_passes (Test12.state c').
Proof.
  intros Hst Ht. unfold Test12.tick in Ht.
  assert (S1 : Test12.state (fst (Test12.sense c (Test12.raw_rssi i)))
               = Test12.state c).
  { unfold Test12.sense. destruct (Test12.raw_rssi i); [| reflexivity].
    destruct (Kalman.filter _ _). reflexivity. }
  destruct (Test12.sense c (Test12.raw_rssi i)) as [c1 rssi]. cbn [fst] in S1.
  assert (H2 : Test12.state (Test12.obstacle_check c1 (Test12.dist i)) <> VERIFY).
  { unfold Test12.obstacle_check. destruct (Test12.dist i); [| rewrite S1].
    - destruct (_ && _); [discriminate | rewrite S1];
        destruct Hst as [-> | [-> | ->]]; discriminate.
    - destruct Hst as [-> | [-> | ->]]; discriminate. }
  set (c2 := Test12.obstacle_check c1 (Test12.dist i)) in *.
  unfold Test12.dispatch in Ht. unfold between_passes.
  destruct (Test12.state c2) eqn:E2; try congruence.
  - destruct (Py.gtb rssi Test12.APPROACH_THRESHOLD);
      [| destruct (Py.ltb (Test12.spiral_angle c2) 0)];
      injection Ht as <- _ _; cbn; rewrite ?E2; auto.
  - destruct (Py.geb rssi Test12.TARGET_RSSI);
      [| destruct (Py.geb (rssi - Test12.last_rssi c2) 0)];
      injection Ht as <- _ _; cbn; rewrite ?E2; auto.
  - destruct (Test12.scan_surroundings (Test12.dist_left i) (Test12.dist_right i))
      as [direction scan].
    injection Ht as <- _ _. cbn. auto.
  - injection Ht as <- _ _. rewrite E2. auto.
Qed.

Lemma t24_reachable_between_passes c :
  Test24.reachable c -> between_passes (Test24.state c).
Proof.
  induction 1 as [| c i c' out flow _ IH Ht _].
  - left. reflexivity.
  - exact (t24_tick_between_passes c i c' out flow IH Ht).
Qed.

Lemma t12_reachable_between_passes c :
  Test12.reachable c -> between_passes (Test12.state c).
Proof.
  induction 1 as [| c i c' out flow _ IH Ht _].
  - left. reflexivity.
  - exact (t12_tick_between_passes c i c' out flow IH Ht).
Qed.

(** X14.  In test24.py and test12.py the ultrasonic check comes first.  A
    pass that reads an obstacle closer than OBSTACLE_DIST_CM, in any state
    but FINISH, is an avoidance whatever the signal and whatever the camera
    says: it backs up, ends in SEARCH at the last line of the loop body, and
    stores the signal of the pass.  So whenever a pass begins the state is
    SEARCH, APPROACH or FINISH: an avoidance never outlasts its pass. *)
Theorem close_reading_avoids_first
  (c : Test24.Controller) (i : Test24.Input)
  (c12 : Test12.Controller) (i12 : Test12.Input) (d : Q) :
  Test24.reachable c -> Test12.reachable c12 ->
  Test24.dist_cm i = Some d -> Test12.dist i12 = Some d ->
  0 < d -> d < 25 ->
  between_passes (Test24.state c) /\
  between_passes (Test12.state c12) /\
  (Test24.state c <> FINISH ->
   avoided (Test24.state (fst (fst (Test24.tick c i))))
     (snd (fst (Test24.tick c i))) (snd (Test24.tick c i))
     (Test24.last_rssi (fst (fst (Test24.tick c i))))
     (snd (Test24.sense c (Test24.raw_rssi i))) Test24.SPEED_SEARCH) /\
  (Test12.state c12 <> FINISH ->
   avoided (Test12.state (fst (fst (Test12.tick c12 i12))))
     (snd (fst (Test12.tick c12 i12))) (snd (Test12.tick c12 i12))
     (Test12.last_rssi (fst (fst (Test12.tick c12 i12))))
     (snd (Test12.sense c12 (Test12.raw_rssi i12))) Test12.SPEED_SEARCH).
Proof.
  intros H24 H12 Hd Hd12 H0 H1.
  split; [apply t24_reachable_between_passes, H24 |].
  split; [apply t12_reachable_between_passes, H12 |].
  split; intros Hst.
  - exact (t24_close_reading_avoids c i d Hd H0 H1 Hst).
  - exact (t12_close_reading_avoids c12 i12 d Hd12 H0 H1 Hst).
Qed.

Lemma close_reading_avoids_first_witness :
  let i := Test24.mkInput (Some (-40)) (Some 10)
             (Some (Test24.mkScores 1 1 1 false)) None None in
  let i12 := Test12.mkInput (Some (-40)) (Some 10) None None in
  Test24.reachable Test24.init /\ Test12.reachable Test12.init /\
  Test24.dist_cm i = Some 10 /\ Test12.dist i12 = Some 10 /\
  0 < 10 /\ 10 < 25 /\
  Test24.state Test24.init <> FINISH /\ Test12.state Test12.init <> FINISH /\
  between_passes (Test24.state Test24.init) /\
  between_passes (Test12.state Test12.init) /\
  (Test24.state Test24.init <> FINISH ->
   avoided (Test24.state (fst (fst (Test24.tick Test24.init i))))
     (snd (fst (Test24.tick Test24.init i))) (snd (Test24.tick Test24.init i))
     (Test24.last_rssi (fst (fst (Test24.tick Test24.init i))))
     (snd (Test24.sense Test24.init (Test24.raw_rssi i))) Test24.SPEED_SEARCH) /\
  (Test12.state Test12.init <> FINISH ->
   avoided (Test12.state (fst (fst (Test12.tick Test12.init i12))))
     (snd (fst (Test12.tick Test12.init i12))) (snd (Test12.tick Test12.init i12))
     (Test12.last_rssi (fst (fst (Test12.tick Test12.init i12))))
     (snd (Test12.sense Test12.init (Test12.raw_rssi i12))) Test12.SPEED_SEARCH).
Proof.
  intros i i12.
  split; [exact Test24.reach_init |]. split; [exact Test12.reach_init |].
  split; [reflexivity |]. split; [reflexivity |].
  split; [reflexivity |]. split; [reflexivity |].
  split; [discriminate |]. split; [discriminate |].
  exact (close_reading_avoids_first Test24.init i Test12.init i12 10
           Test24.reach_init Test12.reach_init eq_refl eq_refl
           eq_refl eq_refl).
Defined.
